(** * mpyq: a reader for MPQ archives (shallow embedding of [mpyq.py])

    Python integers are unbounded, so every integer is a [Z] and each
    [& 0xFFFFFFFF] of the source is written out.  Python's [&], [|], [^],
    [~], [<<] and [>>] on integers are two's complement operations on
    unbounded integers: [Z.land], [Z.lor], [Z.lxor], [Z.lnot], [Z.shiftl] and
    [Z.shiftr] are the same functions.

    Byte buffers ([bytes]) are lists of [byte]; [struct.pack("<I", v)] and
    [struct.unpack("<I", b)] are coqutil's [le_split 4] and [le_combine].

    A file name is a string of 8-bit characters.  It stands for a Python
    [str] of ASCII characters, such as ['(listfile)'] in [__init__] or a
    name from the command line.  For the hasher and the resolver it also
    stands for a [bytes] object of any bytes ([bytes.upper], and [str.upper]
    on ASCII, change the letters [a] to [z] only).  [get_file_key] is that of a
    [str] name: on a [bytes] name, such as the names [self.files] holds,
    [filename.replace('\\', '//')] raises [TypeError], so that reading an
    encrypted file under a [bytes] name is outside this model.  A [str] name
    with other characters is hashed by [_hash_str] below. *)

From Stdlib Require Import ZArith Lia Strings.String Strings.Ascii Init.Byte.
From stdpp Require Import base option list gmap strings.
From coqutil Require Import Byte Word.LittleEndianList.

Local Open Scope Z_scope.

(** ** Flags and record types (lines 23-108) *)

Definition MPQ_FILE_IMPLODE       : Z := 0x00000100.
Definition MPQ_FILE_COMPRESS      : Z := 0x00000200.
Definition MPQ_FILE_ENCRYPTED     : Z := 0x00010000.
Definition MPQ_FILE_FIX_KEY       : Z := 0x00020000.
Definition MPQ_FILE_SINGLE_UNIT   : Z := 0x01000000.
Definition MPQ_FILE_DELETE_MARKER : Z := 0x02000000.
Definition MPQ_FILE_SECTOR_CRC    : Z := 0x04000000.
Definition MPQ_FILE_EXISTS        : Z := 0x80000000.

(** [flags & FLAG] used as a condition: true when the result is not zero. *)
Definition has_flag (flags flag : Z) : bool := negb (Z.land flags flag =? 0).

Inductive CompressionType :=
  | NONE | DEFLATE | IMPLODE | BZIP2 | LZMA | SPARSE | ADPCM | ADPCM_STEREO.

Definition CompressionType_value (c : CompressionType) : Z :=
  match c with
  | NONE => 0 | DEFLATE => 2 | IMPLODE => 8 | BZIP2 => 16
  | LZMA => 18 | SPARSE => 32 | ADPCM => 64 | ADPCM_STEREO => 128
  end.

(** [CompressionType(v)]: the member with that value, [None] where Python
    raises [ValueError]. *)
Definition CompressionType_of (v : Z) : option CompressionType :=
  if v =? 0 then Some NONE else if v =? 2 then Some DEFLATE
  else if v =? 8 then Some IMPLODE else if v =? 16 then Some BZIP2
  else if v =? 18 then Some LZMA else if v =? 32 then Some SPARSE
  else if v =? 64 then Some ADPCM else if v =? 128 then Some ADPCM_STEREO
  else None.

Abbreviation bytes := (list byte).

Record MPQFileHeaderExt := {
  extended_block_table_offset : Z;
  hash_table_offset_high : Z;
  block_table_offset_high : Z }.

Record MPQUserDataHeader := {
  ud_magic : bytes;
  user_data_size : Z;
  mpq_header_offset : Z;
  user_data_header_size : Z;
  ud_content : bytes }.

(** The header dictionary built by [read_header]: the fields of
    [MPQFileHeader], the extended fields when [format_version] is 1, the key
    ['offset'], and ['user_data_header'] for the [MPQ\x1b] layout. *)
Record Header := {
  magic : bytes;
  header_size : Z;
  archive_size : Z;
  format_version : Z;
  sector_size_shift : Z;
  hash_table_offset : Z;
  block_table_offset : Z;
  hash_table_entries : Z;
  block_table_entries : Z;
  header_ext : option MPQFileHeaderExt;
  offset_ : Z;
  user_data_header : option MPQUserDataHeader }.

Record MPQHashTableEntry := {
  hash_a : Z;
  hash_b : Z;
  locale : Z;
  platform : Z;
  block_table_index : Z }.

Record MPQBlockTableEntry := {
  offset : Z;
  archived_size : Z;
  size : Z;
  flags : Z }.

(** ** Exceptions and results *)

Inductive exn :=
  | KeyError | IndexError | ValueError | OSError | StructError
  | ZlibError | RuntimeError.

Inductive result (A : Type) :=
  | Ok (a : A)
  | Raise (e : exn).
Arguments Ok {A} a.
Arguments Raise {A} e.

#[export] Instance result_ret : MRet result := fun _ a => Ok a.
#[export] Instance result_bind : MBind result := fun _ _ f r =>
  match r with Ok a => f a | Raise e => Raise e end.

Definition of_option {A} (e : exn) (o : option A) : result A :=
  match o with Some a => Ok a | None => Raise e end.

(** A loop [for x in l: acc = f(acc, x)] whose body may raise. *)
Fixpoint rfold {A B} (f : A -> B -> result A) (acc : A) (l : list B)
  : result A :=
  match l with
  | [] => Ok acc
  | x :: l' => acc' ← f acc x; rfold f acc' l'
  end.

(** ** The encryption table (lines 446-466) *)

Module CryptTable.

(** The body of [for j in range(5)], on [(seed, crypt_table, index)]. *)
Definition inner_step (st : Z * gmap Z Z * Z) (j : nat) : Z * gmap Z Z * Z :=
  let '(seed, crypt_table, index) := st in
  let seed := (seed * 125 + 3) mod 0x2AAAAB in
  let temp1 := Z.shiftl (Z.land seed 0xFFFF) 0x10 in
  let seed := (seed * 125 + 3) mod 0x2AAAAB in
  let temp2 := Z.land seed 0xFFFF in
  let crypt_table := <[index := Z.lor temp1 temp2]> crypt_table in
  (seed, crypt_table, index + 0x100).

(** The body of [for i in range(256)], on [(seed, crypt_table)]. *)
Definition outer_step (st : Z * gmap Z Z) (i : Z) : Z * gmap Z Z :=
  let '(seed, crypt_table) := st in
  let index := i in
  let '(seed, crypt_table, _) :=
    foldl inner_step (seed, crypt_table, index) (seq 0 5) in
  (seed, crypt_table).

Definition _prepare_encryption_table : gmap Z Z :=
  let seed := 0x00100001 in
  let crypt_table : gmap Z Z := ∅ in
  snd (foldl outer_step (seed, crypt_table) (seqZ 0 256)).

End CryptTable.

Definition encryption_table : gmap Z Z :=
  CryptTable._prepare_encryption_table.

(** [self.encryption_table[i]]: [KeyError] when [i] is not a key. *)
Definition table_get (i : Z) : result Z :=
  of_option KeyError (encryption_table !! i).

(** ** The hash function (lines 406-424) *)

Inductive hash_type :=
  | TABLE_OFFSET | HASH_A | HASH_B | TABLE | HASH_NUM.

Definition hash_types (t : hash_type) : Z :=
  match t with
  | TABLE_OFFSET => 0 | HASH_A => 1 | HASH_B => 2 | TABLE => 3 | HASH_NUM => 4
  end.

Definition ord (c : ascii) : Z := Z.of_N (N_of_ascii c).

(** [bytes.upper], [bytes.lower]: only the ASCII letters change. *)
Definition upper_char (c : ascii) : ascii :=
  let n := N_of_ascii c in
  if ((97 <=? n) && (n <=? 122))%N then ascii_of_N (n - 32) else c.

Definition lower_char (c : ascii) : ascii :=
  let n := N_of_ascii c in
  if ((65 <=? n) && (n <=? 90))%N then ascii_of_N (n + 32) else c.

Fixpoint upper (s : string) : string :=
  match s with
  | EmptyString => EmptyString
  | String c s' => String (upper_char c) (upper s')
  end.

Fixpoint lower (s : string) : string :=
  match s with
  | EmptyString => EmptyString
  | String c s' => String (lower_char c) (lower s')
  end.

(** The body of [for ch in string.upper()], on [(seed1, seed2)]. *)
Definition hash_step (t : hash_type) (st : Z * Z) (c : ascii)
  : result (Z * Z) :=
  let '(seed1, seed2) := st in
  let ch := ord c in
  value ← table_get (Z.shiftl (hash_types t) 8 + ch);
  let seed1 := Z.land (Z.lxor value (seed1 + seed2)) 0xFFFFFFFF in
  let seed2 :=
    Z.land (ch + seed1 + seed2 + Z.shiftl seed2 5 + 3) 0xFFFFFFFF in
  mret (seed1, seed2).

(** [_hash] on a [bytes] name, whose characters the loop sees as integers
    below 256; a [str] name of ASCII characters is hashed the same way, and
    [_hash_str] below hashes any [str] name. *)
Definition _hash (string : string) (t : hash_type) : result Z :=
  let seed1 := 0x7FED7FED in
  let seed2 := 0xEEEEEEEE in
  st ← rfold (hash_step t) (seed1, seed2)
         (list_ascii_of_string (upper string));
  mret (fst st).

(** ** Names given as [str] (line 418)

    [_hash] iterates over [string.upper()].  For a [bytes] name this is
    [bytes.upper] and the loop sees integers below 256: that is [_hash]
    above.  For a [str] name it is [str.upper], which follows the Unicode
    case mappings, and the loop sees [ord(ch)], a code point up to
    [0x10FFFF].  A [str] is modelled as the list of its code points; the
    tables are those of CPython 3.11 (Unicode 14.0.0). *)

Module Unicode.

(** The code points that [str.upper] changes, with what it puts in their
    place ([uppercase]), and the same for [str.lower] on a one-character
    string ([lowercase]); the code points with the properties Cased and
    Case_Ignorable, as inclusive ranges. *)
Definition uppercase_0 : list (Z * list Z) :=
  [
   (0x61, [0x41]); (0x62, [0x42]); (0x63, [0x43]); (0x64, [0x44]);
   (0x65, [0x45]); (0x66, [0x46]); (0x67, [0x47]); (0x68, [0x48]);
   (0x69, [0x49]); (0x6A, [0x4A]); (0x6B, [0x4B]); (0x6C, [0x4C]);
   (0x6D, [0x4D]); (0x6E, [0x4E]); (0x6F, [0x4F]); (0x70, [0x50]);
   (0x71, [0x51]); (0x72, [0x52]); (0x73, [0x53]); (0x74, [0x54]);
   (0x75, [0x55]); (0x76, [0x56]); (0x77, [0x57]); (0x78, [0x58]);
   (0x79, [0x59]); (0x7A, [0x5A]); (0xB5, [0x39C]); (0xDF, [0x53; 0x53]);
   (0xE0, [0xC0]); (0xE1, [0xC1]); (0xE2, [0xC2]); (0xE3, [0xC3]);
   (0xE4, [0xC4]); (0xE5, [0xC5]); (0xE6, [0xC6]); (0xE7, [0xC7]);
   (0xE8, [0xC8]); (0xE9, [0xC9]); (0xEA, [0xCA]); (0xEB, [0xCB]);
   (0xEC, [0xCC]); (0xED, [0xCD]); (0xEE, [0xCE]); (0xEF, [0xCF]);
   (0xF0, [0xD0]); (0xF1, [0xD1]); (0xF2, [0xD2]); (0xF3, [0xD3]);
   (0xF4, [0xD4]); (0xF5, [0xD5]); (0xF6, [0xD6]); (0xF8, [0xD8]);
   (0xF9, [0xD9]); (0xFA, [0xDA]); (0xFB, [0xDB]); (0xFC, [0xDC]);
   (0xFD, [0xDD]); (0xFE, [0xDE]); (0xFF, [0x178]); (0x101, [0x100]);
   (0x103, [0x102]); (0x105, [0x104]); (0x107, [0x106]); (0x109, [0x108]);
   (0x10B, [0x10A]); (0x10D, [0x10C]); (0x10F, [0x10E]); (0x111, [0x110]);
   (0x113, [0x112]); (0x115, [0x114]); (0x117, [0x116]); (0x119, [0x118]);
   (0x11B, [0x11A]); (0x11D, [0x11C]); (0x11F, [0x11E]); (0x121, [0x120]);
   (0x123, [0x122]); (0x125, [0x124]); (0x127, [0x126]); (0x129, [0x128]);
   (0x12B, [0x12A]); (0x12D, [0x12C]); (0x12F, [0x12E]); (0x131, [0x49]);
   (0x133, [0x132]); (0x135, [0x134]); (0x137, [0x136]); (0x13A, [0x139]);
   (0x13C, [0x13B]); (0x13E, [0x13D]); (0x140, [0x13F]); (0x142, [0x141]);
   (0x144, [0x143]); (0x146, [0x145]); (0x148, [0x147]);
   (0x149, [0x2BC; 0x4E]); (0x14B, [0x14A]); (0x14D, [0x14C]);
   (0x14F, [0x14E]); (0x151, [0x150]); (0x153, [0x152]); (0x155, [0x154]);
   (0x157, [0x156]); (0x159, [0x158]); (0x15B, [0x15A]); (0x15D, [0x15C]);
   (0x15F, [0x15E]); (0x161, [0x160]); (0x163, [0x162]); (0x165, [0x164]);
   (0x167, [0x166]); (0x169, [0x168]); (0x16B, [0x16A]); (0x16D, [0x16C]);
   (0x16F, [0x16E]); (0x171, [0x170]); (0x173, [0x172]); (0x175, [0x174]);
   (0x177, [0x176]); (0x17A, [0x179]); (0x17C, [0x17B]); (0x17E, [0x17D]);
   (0x17F, [0x53]); (0x180, [0x243]); (0x183, [0x182]); (0x185, [0x184]);
   (0x188, [0x187]); (0x18C, [0x18B])
  ].

Definition uppercase_1 : list (Z * list Z) :=
  [
   (0x192, [0x191]); (0x195, [0x1F6]); (0x199, [0x198]); (0x19A, [0x23D]);
   (0x19E, [0x220]); (0x1A1, [0x1A0]); (0x1A3, [0x1A2]); (0x1A5, [0x1A4]);
   (0x1A8, [0x1A7]); (0x1AD, [0x1AC]); (0x1B0, [0x1AF]); (0x1B4, [0x1B3]);
   (0x1B6, [0x1B5]); (0x1B9, [0x1B8]); (0x1BD, [0x1BC]); (0x1BF, [0x1F7]);
   (0x1C5, [0x1C4]); (0x1C6, [0x1C4]); (0x1C8, [0x1C7]); (0x1C9, [0x1C7]);
   (0x1CB, [0x1CA]); (0x1CC, [0x1CA]); (0x1CE, [0x1CD]); (0x1D0, [0x1CF]);
   (0x1D2, [0x1D1]); (0x1D4, [0x1D3]); (0x1D6, [0x1D5]); (0x1D8, [0x1D7]);
   (0x1DA, [0x1D9]); (0x1DC, [0x1DB]); (0x1DD, [0x18E]); (0x1DF, [0x1DE]);
   (0x1E1, [0x1E0]); (0x1E3, [0x1E2]); (0x1E5, [0x1E4]); (0x1E7, [0x1E6]);
   (0x1E9, [0x1E8]); (0x1EB, [0x1EA]); (0x1ED, [0x1EC]); (0x1EF, [0x1EE]);
   (0x1F0, [0x4A; 0x30C]); (0x1F2, [0x1F1]); (0x1F3, [0x1F1]);
   (0x1F5, [0x1F4]); (0x1F9, [0x1F8]); (0x1FB, [0x1FA]); (0x1FD, [0x1FC]);
   (0x1FF, [0x1FE]); (0x201, [0x200]); (0x203, [0x202]); (0x205, [0x204]);
   (0x207, [0x206]); (0x209, [0x208]); (0x20B, [0x20A]); (0x20D, [0x20C]);
   (0x20F, [0x20E]); (0x211, [0x210]); (0x213, [0x212]); (0x215, [0x214]);
   (0x217, [0x216]); (0x219, [0x218]); (0x21B, [0x21A]); (0x21D, [0x21C]);
   (0x21F, [0x21E]); (0x223, [0x222]); (0x225, [0x224]); (0x227, [0x226]);
   (0x229, [0x228]); (0x22B, [0x22A]); (0x22D, [0x22C]); (0x22F, [0x22E]);
   (0x231, [0x230]); (0x233, [0x232]); (0x23C, [0x23B]); (0x23F, [0x2C7E]);
   (0x240, [0x2C7F]); (0x242, [0x241]); (0x247, [0x246]); (0x249, [0x248]);
   (0x24B, [0x24A]); (0x24D, [0x24C]); (0x24F, [0x24E]); (0x250, [0x2C6F]);
   (0x251, [0x2C6D]); (0x252, [0x2C70]); (0x253, [0x181]); (0x254, [0x186]);
   (0x256, [0x189]); (0x257, [0x18A]); (0x259, [0x18F]); (0x25B, [0x190]);
   (0x25C, [0xA7AB]); (0x260, [0x193]); (0x261, [0xA7AC]); (0x263, [0x194]);
   (0x265, [0xA78D]); (0x266, [0xA7AA]); (0x268, [0x197]); (0x269, [0x196]);
   (0x26A, [0xA7AE]); (0x26B, [0x2C62]); (0x26C, [0xA7AD]); (0x26F, [0x19C]);
   (0x271, [0x2C6E]); (0x272, [0x19D]); (0x275, [0x19F]); (0x27D, [0x2C64]);
   (0x280, [0x1A6]); (0x282, [0xA7C5]); (0x283, [0x1A9]); (0x287, [0xA7B1]);
   (0x288, [0x1AE]); (0x289, [0x244]); (0x28A, [0x1B1]); (0x28B, [0x1B2]);
   (0x28C, [0x245]); (0x292, [0x1B7]); (0x29D, [0xA7B2]); (0x29E, [0xA7B0]);
   (0x345, [0x399]); (0x371, [0x370]); (0x373, [0x372]); (0x377, [0x376]);
   (0x37B, [0x3FD]); (0x37C, [0x3FE]); (0x37D, [0x3FF]);
   (0x390, [0x399; 0x308; 0x301]); (0x3AC, [0x386])
  ].

Definition uppercase_2 : list (Z * list Z) :=
  [
   (0x3AD, [0x388]); (0x3AE, [0x389]); (0x3AF, [0x38A]);
   (0x3B0, [0x3A5; 0x308; 0x301]); (0x3B1, [0x391]); (0x3B2, [0x392]);
   (0x3B3, [0x393]); (0x3B4, [0x394]); (0x3B5, [0x395]); (0x3B6, [0x396]);
   (0x3B7, [0x397]); (0x3B8, [0x398]); (0x3B9, [0x399]); (0x3BA, [0x39A]);
   (0x3BB, [0x39B]); (0x3BC, [0x39C]); (0x3BD, [0x39D]); (0x3BE, [0x39E]);
   (0x3BF, [0x39F]); (0x3C0, [0x3A0]); (0x3C1, [0x3A1]); (0x3C2, [0x3A3]);
   (0x3C3, [0x3A3]); (0x3C4, [0x3A4]); (0x3C5, [0x3A5]); (0x3C6, [0x3A6]);
   (0x3C7, [0x3A7]); (0x3C8, [0x3A8]); (0x3C9, [0x3A9]); (0x3CA, [0x3AA]);
   (0x3CB, [0x3AB]); (0x3CC, [0x38C]); (0x3CD, [0x38E]); (0x3CE, [0x38F]);
   (0x3D0, [0x392]); (0x3D1, [0x398]); (0x3D5, [0x3A6]); (0x3D6, [0x3A0]);
   (0x3D7, [0x3CF]); (0x3D9, [0x3D8]); (0x3DB, [0x3DA]); (0x3DD, [0x3DC]);
   (0x3DF, [0x3DE]); (0x3E1, [0x3E0]); (0x3E3, [0x3E2]); (0x3E5, [0x3E4]);
   (0x3E7, [0x3E6]); (0x3E9, [0x3E8]); (0x3EB, [0x3EA]); (0x3ED, [0x3EC]);
   (0x3EF, [0x3EE]); (0x3F0, [0x39A]); (0x3F1, [0x3A1]); (0x3F2, [0x3F9]);
   (0x3F3, [0x37F]); (0x3F5, [0x395]); (0x3F8, [0x3F7]); (0x3FB, [0x3FA]);
   (0x430, [0x410]); (0x431, [0x411]); (0x432, [0x412]); (0x433, [0x413]);
   (0x434, [0x414]); (0x435, [0x415]); (0x436, [0x416]); (0x437, [0x417]);
   (0x438, [0x418]); (0x439, [0x419]); (0x43A, [0x41A]); (0x43B, [0x41B]);
   (0x43C, [0x41C]); (0x43D, [0x41D]); (0x43E, [0x41E]); (0x43F, [0x41F]);
   (0x440, [0x420]); (0x441, [0x421]); (0x442, [0x422]); (0x443, [0x423]);
   (0x444, [0x424]); (0x445, [0x425]); (0x446, [0x426]); (0x447, [0x427]);
   (0x448, [0x428]); (0x449, [0x429]); (0x44A, [0x42A]); (0x44B, [0x42B]);
   (0x44C, [0x42C]); (0x44D, [0x42D]); (0x44E, [0x42E]); (0x44F, [0x42F]);
   (0x450, [0x400]); (0x451, [0x401]); (0x452, [0x402]); (0x453, [0x403]);
   (0x454, [0x404]); (0x455, [0x405]); (0x456, [0x406]); (0x457, [0x407]);
   (0x458, [0x408]); (0x459, [0x409]); (0x45A, [0x40A]); (0x45B, [0x40B]);
   (0x45C, [0x40C]); (0x45D, [0x40D]); (0x45E, [0x40E]); (0x45F, [0x40F]);
   (0x461, [0x460]); (0x463, [0x462]); (0x465, [0x464]); (0x467, [0x466]);
   (0x469, [0x468]); (0x46B, [0x46A]); (0x46D, [0x46C]); (0x46F, [0x46E]);
   (0x471, [0x470]); (0x473, [0x472]); (0x475, [0x474]); (0x477, [0x476]);
   (0x479, [0x478]); (0x47B, [0x47A]); (0x47D, [0x47C]); (0x47F, [0x47E]);
   (0x481, [0x480]); (0x48B, [0x48A]); (0x48D, [0x48C]); (0x48F, [0x48E]);
   (0x491, [0x490]); (0x493, [0x492])
  ].

Definition uppercase_3 : list (Z * list Z) :=
  [
   (0x495, [0x494]); (0x497, [0x496]); (0x499, [0x498]); (0x49B, [0x49A]);
   (0x49D, [0x49C]); (0x49F, [0x49E]); (0x4A1, [0x4A0]); (0x4A3, [0x4A2]);
   (0x4A5, [0x4A4]); (0x4A7, [0x4A6]); (0x4A9, [0x4A8]); (0x4AB, [0x4AA]);
   (0x4AD, [0x4AC]); (0x4AF, [0x4AE]); (0x4B1, [0x4B0]); (0x4B3, [0x4B2]);
   (0x4B5, [0x4B4]); (0x4B7, [0x4B6]); (0x4B9, [0x4B8]); (0x4BB, [0x4BA]);
   (0x4BD, [0x4BC]); (0x4BF, [0x4BE]); (0x4C2, [0x4C1]); (0x4C4, [0x4C3]);
   (0x4C6, [0x4C5]); (0x4C8, [0x4C7]); (0x4CA, [0x4C9]); (0x4CC, [0x4CB]);
   (0x4CE, [0x4CD]); (0x4CF, [0x4C0]); (0x4D1, [0x4D0]); (0x4D3, [0x4D2]);
   (0x4D5, [0x4D4]); (0x4D7, [0x4D6]); (0x4D9, [0x4D8]); (0x4DB, [0x4DA]);
   (0x4DD, [0x4DC]); (0x4DF, [0x4DE]); (0x4E1, [0x4E0]); (0x4E3, [0x4E2]);
   (0x4E5, [0x4E4]); (0x4E7, [0x4E6]); (0x4E9, [0x4E8]); (0x4EB, [0x4EA]);
   (0x4ED, [0x4EC]); (0x4EF, [0x4EE]); (0x4F1, [0x4F0]); (0x4F3, [0x4F2]);
   (0x4F5, [0x4F4]); (0x4F7, [0x4F6]); (0x4F9, [0x4F8]); (0x4FB, [0x4FA]);
   (0x4FD, [0x4FC]); (0x4FF, [0x4FE]); (0x501, [0x500]); (0x503, [0x502]);
   (0x505, [0x504]); (0x507, [0x506]); (0x509, [0x508]); (0x50B, [0x50A]);
   (0x50D, [0x50C]); (0x50F, [0x50E]); (0x511, [0x510]); (0x513, [0x512]);
   (0x515, [0x514]); (0x517, [0x516]); (0x519, [0x518]); (0x51B, [0x51A]);
   (0x51D, [0x51C]); (0x51F, [0x51E]); (0x521, [0x520]); (0x523, [0x522]);
   (0x525, [0x524]); (0x527, [0x526]); (0x529, [0x528]); (0x52B, [0x52A]);
   (0x52D, [0x52C]); (0x52F, [0x52E]); (0x561, [0x531]); (0x562, [0x532]);
   (0x563, [0x533]); (0x564, [0x534]); (0x565, [0x535]); (0x566, [0x536]);
   (0x567, [0x537]); (0x568, [0x538]); (0x569, [0x539]); (0x56A, [0x53A]);
   (0x56B, [0x53B]); (0x56C, [0x53C]); (0x56D, [0x53D]); (0x56E, [0x53E]);
   (0x56F, [0x53F]); (0x570, [0x540]); (0x571, [0x541]); (0x572, [0x542]);
   (0x573, [0x543]); (0x574, [0x544]); (0x575, [0x545]); (0x576, [0x546]);
   (0x577, [0x547]); (0x578, [0x548]); (0x579, [0x549]); (0x57A, [0x54A]);
   (0x57B, [0x54B]); (0x57C, [0x54C]); (0x57D, [0x54D]); (0x57E, [0x54E]);
   (0x57F, [0x54F]); (0x580, [0x550]); (0x581, [0x551]); (0x582, [0x552]);
   (0x583, [0x553]); (0x584, [0x554]); (0x585, [0x555]); (0x586, [0x556]);
   (0x587, [0x535; 0x552]); (0x10D0, [0x1C90]); (0x10D1, [0x1C91]);
   (0x10D2, [0x1C92]); (0x10D3, [0x1C93]); (0x10D4, [0x1C94]);
   (0x10D5, [0x1C95]); (0x10D6, [0x1C96]); (0x10D7, [0x1C97]);
   (0x10D8, [0x1C98]); (0x10D9, [0x1C99]); (0x10DA, [0x1C9A])
  ].

Definition uppercase_4 : list (Z * list Z) :=
  [
   (0x10DB, [0x1C9B]); (0x10DC, [0x1C9C]); (0x10DD, [0x1C9D]);
   (0x10DE, [0x1C9E]); (0x10DF, [0x1C9F]); (0x10E0, [0x1CA0]);
   (0x10E1, [0x1CA1]); (0x10E2, [0x1CA2]); (0x10E3, [0x1CA3]);
   (0x10E4, [0x1CA4]); (0x10E5, [0x1CA5]); (0x10E6, [0x1CA6]);
   (0x10E7, [0x1CA7]); (0x10E8, [0x1CA8]); (0x10E9, [0x1CA9]);
   (0x10EA, [0x1CAA]); (0x10EB, [0x1CAB]); (0x10EC, [0x1CAC]);
   (0x10ED, [0x1CAD]); (0x10EE, [0x1CAE]); (0x10EF, [0x1CAF]);
   (0x10F0, [0x1CB0]); (0x10F1, [0x1CB1]); (0x10F2, [0x1CB2]);
   (0x10F3, [0x1CB3]); (0x10F4, [0x1CB4]); (0x10F5, [0x1CB5]);
   (0x10F6, [0x1CB6]); (0x10F7, [0x1CB7]); (0x10F8, [0x1CB8]);
   (0x10F9, [0x1CB9]); (0x10FA, [0x1CBA]); (0x10FD, [0x1CBD]);
   (0x10FE, [0x1CBE]); (0x10FF, [0x1CBF]); (0x13F8, [0x13F0]);
   (0x13F9, [0x13F1]); (0x13FA, [0x13F2]); (0x13FB, [0x13F3]);
   (0x13FC, [0x13F4]); (0x13FD, [0x13F5]); (0x1C80, [0x412]);
   (0x1C81, [0x414]); (0x1C82, [0x41E]); (0x1C83, [0x421]); (0x1C84, [0x422]);
   (0x1C85, [0x422]); (0x1C86, [0x42A]); (0x1C87, [0x462]);
   (0x1C88, [0xA64A]); (0x1D79, [0xA77D]); (0x1D7D, [0x2C63]);
   (0x1D8E, [0xA7C6]); (0x1E01, [0x1E00]); (0x1E03, [0x1E02]);
   (0x1E05, [0x1E04]); (0x1E07, [0x1E06]); (0x1E09, [0x1E08]);
   (0x1E0B, [0x1E0A]); (0x1E0D, [0x1E0C]); (0x1E0F, [0x1E0E]);
   (0x1E11, [0x1E10]); (0x1E13, [0x1E12]); (0x1E15, [0x1E14]);
   (0x1E17, [0x1E16]); (0x1E19, [0x1E18]); (0x1E1B, [0x1E1A]);
   (0x1E1D, [0x1E1C]); (0x1E1F, [0x1E1E]); (0x1E21, [0x1E20]);
   (0x1E23, [0x1E22]); (0x1E25, [0x1E24]); (0x1E27, [0x1E26]);
   (0x1E29, [0x1E28]); (0x1E2B, [0x1E2A]); (0x1E2D, [0x1E2C]);
   (0x1E2F, [0x1E2E]); (0x1E31, [0x1E30]); (0x1E33, [0x1E32]);
   (0x1E35, [0x1E34]); (0x1E37, [0x1E36]); (0x1E39, [0x1E38]);
   (0x1E3B, [0x1E3A]); (0x1E3D, [0x1E3C]); (0x1E3F, [0x1E3E]);
   (0x1E41, [0x1E40]); (0x1E43, [0x1E42]); (0x1E45, [0x1E44]);
   (0x1E47, [0x1E46]); (0x1E49, [0x1E48]); (0x1E4B, [0x1E4A]);
   (0x1E4D, [0x1E4C]); (0x1E4F, [0x1E4E]); (0x1E51, [0x1E50]);
   (0x1E53, [0x1E52]); (0x1E55, [0x1E54]); (0x1E57, [0x1E56]);
   (0x1E59, [0x1E58]); (0x1E5B, [0x1E5A]); (0x1E5D, [0x1E5C]);
   (0x1E5F, [0x1E5E]); (0x1E61, [0x1E60]); (0x1E63, [0x1E62]);
   (0x1E65, [0x1E64]); (0x1E67, [0x1E66]); (0x1E69, [0x1E68]);
   (0x1E6B, [0x1E6A]); (0x1E6D, [0x1E6C]); (0x1E6F, [0x1E6E]);
   (0x1E71, [0x1E70]); (0x1E73, [0x1E72]); (0x1E75, [0x1E74]);
   (0x1E77, [0x1E76]); (0x1E79, [0x1E78]); (0x1E7B, [0x1E7A]);
   (0x1E7D, [0x1E7C]); (0x1E7F, [0x1E7E]); (0x1E81, [0x1E80]);
   (0x1E83, [0x1E82]); (0x1E85, [0x1E84]); (0x1E87, [0x1E86]);
   (0x1E89, [0x1E88]); (0x1E8B, [0x1E8A]); (0x1E8D, [0x1E8C]);
   (0x1E8F, [0x1E8E]); (0x1E91, [0x1E90]); (0x1E93, [0x1E92]);
   (0x1E95, [0x1E94])
  ].

Definition uppercase_5 : list (Z * list Z) :=
  [
   (0x1E96, [0x48; 0x331]); (0x1E97, [0x54; 0x308]); (0x1E98, [0x57; 0x30A]);
   (0x1E99, [0x59; 0x30A]); (0x1E9A, [0x41; 0x2BE]); (0x1E9B, [0x1E60]);
   (0x1EA1, [0x1EA0]); (0x1EA3, [0x1EA2]); (0x1EA5, [0x1EA4]);
   (0x1EA7, [0x1EA6]); (0x1EA9, [0x1EA8]); (0x1EAB, [0x1EAA]);
   (0x1EAD, [0x1EAC]); (0x1EAF, [0x1EAE]); (0x1EB1, [0x1EB0]);
   (0x1EB3, [0x1EB2]); (0x1EB5, [0x1EB4]); (0x1EB7, [0x1EB6]);
   (0x1EB9, [0x1EB8]); (0x1EBB, [0x1EBA]); (0x1EBD, [0x1EBC]);
   (0x1EBF, [0x1EBE]); (0x1EC1, [0x1EC0]); (0x1EC3, [0x1EC2]);
   (0x1EC5, [0x1EC4]); (0x1EC7, [0x1EC6]); (0x1EC9, [0x1EC8]);
   (0x1ECB, [0x1ECA]); (0x1ECD, [0x1ECC]); (0x1ECF, [0x1ECE]);
   (0x1ED1, [0x1ED0]); (0x1ED3, [0x1ED2]); (0x1ED5, [0x1ED4]);
   (0x1ED7, [0x1ED6]); (0x1ED9, [0x1ED8]); (0x1EDB, [0x1EDA]);
   (0x1EDD, [0x1EDC]); (0x1EDF, [0x1EDE]); (0x1EE1, [0x1EE0]);
   (0x1EE3, [0x1EE2]); (0x1EE5, [0x1EE4]); (0x1EE7, [0x1EE6]);
   (0x1EE9, [0x1EE8]); (0x1EEB, [0x1EEA]); (0x1EED, [0x1EEC]);
   (0x1EEF, [0x1EEE]); (0x1EF1, [0x1EF0]); (0x1EF3, [0x1EF2]);
   (0x1EF5, [0x1EF4]); (0x1EF7, [0x1EF6]); (0x1EF9, [0x1EF8]);
   (0x1EFB, [0x1EFA]); (0x1EFD, [0x1EFC]); (0x1EFF, [0x1EFE]);
   (0x1F00, [0x1F08]); (0x1F01, [0x1F09]); (0x1F02, [0x1F0A]);
   (0x1F03, [0x1F0B]); (0x1F04, [0x1F0C]); (0x1F05, [0x1F0D]);
   (0x1F06, [0x1F0E]); (0x1F07, [0x1F0F]); (0x1F10, [0x1F18]);
   (0x1F11, [0x1F19]); (0x1F12, [0x1F1A]); (0x1F13, [0x1F1B]);
   (0x1F14, [0x1F1C]); (0x1F15, [0x1F1D]); (0x1F20, [0x1F28]);
   (0x1F21, [0x1F29]); (0x1F22, [0x1F2A]); (0x1F23, [0x1F2B]);
   (0x1F24, [0x1F2C]); (0x1F25, [0x1F2D]); (0x1F26, [0x1F2E]);
   (0x1F27, [0x1F2F]); (0x1F30, [0x1F38]); (0x1F31, [0x1F39]);
   (0x1F32, [0x1F3A]); (0x1F33, [0x1F3B]); (0x1F34, [0x1F3C]);
   (0x1F35, [0x1F3D]); (0x1F36, [0x1F3E]); (0x1F37, [0x1F3F]);
   (0x1F40, [0x1F48]); (0x1F41, [0x1F49]); (0x1F42, [0x1F4A]);
   (0x1F43, [0x1F4B]); (0x1F44, [0x1F4C]); (0x1F45, [0x1F4D]);
   (0x1F50, [0x3A5; 0x313]); (0x1F51, [0x1F59]);
   (0x1F52, [0x3A5; 0x313; 0x300]); (0x1F53, [0x1F5B]);
   (0x1F54, [0x3A5; 0x313; 0x301]); (0x1F55, [0x1F5D]);
   (0x1F56, [0x3A5; 0x313; 0x342]); (0x1F57, [0x1F5F]); (0x1F60, [0x1F68]);
   (0x1F61, [0x1F69]); (0x1F62, [0x1F6A]); (0x1F63, [0x1F6B]);
   (0x1F64, [0x1F6C]); (0x1F65, [0x1F6D]); (0x1F66, [0x1F6E]);
   (0x1F67, [0x1F6F]); (0x1F70, [0x1FBA]); (0x1F71, [0x1FBB]);
   (0x1F72, [0x1FC8]); (0x1F73, [0x1FC9]); (0x1F74, [0x1FCA]);
   (0x1F75, [0x1FCB]); (0x1F76, [0x1FDA]); (0x1F77, [0x1FDB]);
   (0x1F78, [0x1FF8]); (0x1F79, [0x1FF9]); (0x1F7A, [0x1FEA]);
   (0x1F7B, [0x1FEB]); (0x1F7C, [0x1FFA]); (0x1F7D, [0x1FFB]);
   (0x1F80, [0x1F08; 0x399]); (0x1F81, [0x1F09; 0x399]);
   (0x1F82, [0x1F0A; 0x399]); (0x1F83, [0x1F0B; 0x399]);
   (0x1F84, [0x1F0C; 0x399]); (0x1F85, [0x1F0D; 0x399]);
   (0x1F86, [0x1F0E; 0x399]); (0x1F87, [0x1F0F; 0x399])
  ].

Definition uppercase_6 : list (Z * list Z) :=
  [
   (0x1F88, [0x1F08; 0x399]); (0x1F89, [0x1F09; 0x399]);
   (0x1F8A, [0x1F0A; 0x399]); (0x1F8B, [0x1F0B; 0x399]);
   (0x1F8C, [0x1F0C; 0x399]); (0x1F8D, [0x1F0D; 0x399]);
   (0x1F8E, [0x1F0E; 0x399]); (0x1F8F, [0x1F0F; 0x399]);
   (0x1F90, [0x1F28; 0x399]); (0x1F91, [0x1F29; 0x399]);
   (0x1F92, [0x1F2A; 0x399]); (0x1F93, [0x1F2B; 0x399]);
   (0x1F94, [0x1F2C; 0x399]); (0x1F95, [0x1F2D; 0x399]);
   (0x1F96, [0x1F2E; 0x399]); (0x1F97, [0x1F2F; 0x399]);
   (0x1F98, [0x1F28; 0x399]); (0x1F99, [0x1F29; 0x399]);
   (0x1F9A, [0x1F2A; 0x399]); (0x1F9B, [0x1F2B; 0x399]);
   (0x1F9C, [0x1F2C; 0x399]); (0x1F9D, [0x1F2D; 0x399]);
   (0x1F9E, [0x1F2E; 0x399]); (0x1F9F, [0x1F2F; 0x399]);
   (0x1FA0, [0x1F68; 0x399]); (0x1FA1, [0x1F69; 0x399]);
   (0x1FA2, [0x1F6A; 0x399]); (0x1FA3, [0x1F6B; 0x399]);
   (0x1FA4, [0x1F6C; 0x399]); (0x1FA5, [0x1F6D; 0x399]);
   (0x1FA6, [0x1F6E; 0x399]); (0x1FA7, [0x1F6F; 0x399]);
   (0x1FA8, [0x1F68; 0x399]); (0x1FA9, [0x1F69; 0x399]);
   (0x1FAA, [0x1F6A; 0x399]); (0x1FAB, [0x1F6B; 0x399]);
   (0x1FAC, [0x1F6C; 0x399]); (0x1FAD, [0x1F6D; 0x399]);
   (0x1FAE, [0x1F6E; 0x399]); (0x1FAF, [0x1F6F; 0x399]); (0x1FB0, [0x1FB8]);
   (0x1FB1, [0x1FB9]); (0x1FB2, [0x1FBA; 0x399]); (0x1FB3, [0x391; 0x399]);
   (0x1FB4, [0x386; 0x399]); (0x1FB6, [0x391; 0x342]);
   (0x1FB7, [0x391; 0x342; 0x399]); (0x1FBC, [0x391; 0x399]);
   (0x1FBE, [0x399]); (0x1FC2, [0x1FCA; 0x399]); (0x1FC3, [0x397; 0x399]);
   (0x1FC4, [0x389; 0x399]); (0x1FC6, [0x397; 0x342]);
   (0x1FC7, [0x397; 0x342; 0x399]); (0x1FCC, [0x397; 0x399]);
   (0x1FD0, [0x1FD8]); (0x1FD1, [0x1FD9]); (0x1FD2, [0x399; 0x308; 0x300]);
   (0x1FD3, [0x399; 0x308; 0x301]); (0x1FD6, [0x399; 0x342]);
   (0x1FD7, [0x399; 0x308; 0x342]); (0x1FE0, [0x1FE8]); (0x1FE1, [0x1FE9]);
   (0x1FE2, [0x3A5; 0x308; 0x300]); (0x1FE3, [0x3A5; 0x308; 0x301]);
   (0x1FE4, [0x3A1; 0x313]); (0x1FE5, [0x1FEC]); (0x1FE6, [0x3A5; 0x342]);
   (0x1FE7, [0x3A5; 0x308; 0x342]); (0x1FF2, [0x1FFA; 0x399]);
   (0x1FF3, [0x3A9; 0x399]); (0x1FF4, [0x38F; 0x399]);
   (0x1FF6, [0x3A9; 0x342]); (0x1FF7, [0x3A9; 0x342; 0x399]);
   (0x1FFC, [0x3A9; 0x399]); (0x214E, [0x2132]); (0x2170, [0x2160]);
   (0x2171, [0x2161]); (0x2172, [0x2162]); (0x2173, [0x2163]);
   (0x2174, [0x2164]); (0x2175, [0x2165]); (0x2176, [0x2166]);
   (0x2177, [0x2167]); (0x2178, [0x2168]); (0x2179, [0x2169]);
   (0x217A, [0x216A]); (0x217B, [0x216B]); (0x217C, [0x216C]);
   (0x217D, [0x216D]); (0x217E, [0x216E]); (0x217F, [0x216F]);
   (0x2184, [0x2183]); (0x24D0, [0x24B6]); (0x24D1, [0x24B7]);
   (0x24D2, [0x24B8]); (0x24D3, [0x24B9]); (0x24D4, [0x24BA]);
   (0x24D5, [0x24BB]); (0x24D6, [0x24BC]); (0x24D7, [0x24BD]);
   (0x24D8, [0x24BE]); (0x24D9, [0x24BF]); (0x24DA, [0x24C0]);
   (0x24DB, [0x24C1]); (0x24DC, [0x24C2]); (0x24DD, [0x24C3]);
   (0x24DE, [0x24C4]); (0x24DF, [0x24C5]); (0x24E0, [0x24C6]);
   (0x24E1, [0x24C7]); (0x24E2, [0x24C8]); (0x24E3, [0x24C9]);
   (0x24E4, [0x24CA]); (0x24E5, [0x24CB]); (0x24E6, [0x24CC]);
   (0x24E7, [0x24CD]); (0x24E8, [0x24CE]); (0x24E9, [0x24CF]);
   (0x2C30, [0x2C00]); (0x2C31, [0x2C01]); (0x2C32, [0x2C02]);
   (0x2C33, [0x2C03]); (0x2C34, [0x2C04]); (0x2C35, [0x2C05]);
   (0x2C36, [0x2C06]); (0x2C37, [0x2C07]); (0x2C38, [0x2C08])
  ].

Definition uppercase_7 : list (Z * list Z) :=
  [
   (0x2C39, [0x2C09]); (0x2C3A, [0x2C0A]); (0x2C3B, [0x2C0B]);
   (0x2C3C, [0x2C0C]); (0x2C3D, [0x2C0D]); (0x2C3E, [0x2C0E]);
   (0x2C3F, [0x2C0F]); (0x2C40, [0x2C10]); (0x2C41, [0x2C11]);
   (0x2C42, [0x2C12]); (0x2C43, [0x2C13]); (0x2C44, [0x2C14]);
   (0x2C45, [0x2C15]); (0x2C46, [0x2C16]); (0x2C47, [0x2C17]);
   (0x2C48, [0x2C18]); (0x2C49, [0x2C19]); (0x2C4A, [0x2C1A]);
   (0x2C4B, [0x2C1B]); (0x2C4C, [0x2C1C]); (0x2C4D, [0x2C1D]);
   (0x2C4E, [0x2C1E]); (0x2C4F, [0x2C1F]); (0x2C50, [0x2C20]);
   (0x2C51, [0x2C21]); (0x2C52, [0x2C22]); (0x2C53, [0x2C23]);
   (0x2C54, [0x2C24]); (0x2C55, [0x2C25]); (0x2C56, [0x2C26]);
   (0x2C57, [0x2C27]); (0x2C58, [0x2C28]); (0x2C59, [0x2C29]);
   (0x2C5A, [0x2C2A]); (0x2C5B, [0x2C2B]); (0x2C5C, [0x2C2C]);
   (0x2C5D, [0x2C2D]); (0x2C5E, [0x2C2E]); (0x2C5F, [0x2C2F]);
   (0x2C61, [0x2C60]); (0x2C65, [0x23A]); (0x2C66, [0x23E]);
   (0x2C68, [0x2C67]); (0x2C6A, [0x2C69]); (0x2C6C, [0x2C6B]);
   (0x2C73, [0x2C72]); (0x2C76, [0x2C75]); (0x2C81, [0x2C80]);
   (0x2C83, [0x2C82]); (0x2C85, [0x2C84]); (0x2C87, [0x2C86]);
   (0x2C89, [0x2C88]); (0x2C8B, [0x2C8A]); (0x2C8D, [0x2C8C]);
   (0x2C8F, [0x2C8E]); (0x2C91, [0x2C90]); (0x2C93, [0x2C92]);
   (0x2C95, [0x2C94]); (0x2C97, [0x2C96]); (0x2C99, [0x2C98]);
   (0x2C9B, [0x2C9A]); (0x2C9D, [0x2C9C]); (0x2C9F, [0x2C9E]);
   (0x2CA1, [0x2CA0]); (0x2CA3, [0x2CA2]); (0x2CA5, [0x2CA4]);
   (0x2CA7, [0x2CA6]); (0x2CA9, [0x2CA8]); (0x2CAB, [0x2CAA]);
   (0x2CAD, [0x2CAC]); (0x2CAF, [0x2CAE]); (0x2CB1, [0x2CB0]);
   (0x2CB3, [0x2CB2]); (0x2CB5, [0x2CB4]); (0x2CB7, [0x2CB6]);
   (0x2CB9, [0x2CB8]); (0x2CBB, [0x2CBA]); (0x2CBD, [0x2CBC]);
   (0x2CBF, [0x2CBE]); (0x2CC1, [0x2CC0]); (0x2CC3, [0x2CC2]);
   (0x2CC5, [0x2CC4]); (0x2CC7, [0x2CC6]); (0x2CC9, [0x2CC8]);
   (0x2CCB, [0x2CCA]); (0x2CCD, [0x2CCC]); (0x2CCF, [0x2CCE]);
   (0x2CD1, [0x2CD0]); (0x2CD3, [0x2CD2]); (0x2CD5, [0x2CD4]);
   (0x2CD7, [0x2CD6]); (0x2CD9, [0x2CD8]); (0x2CDB, [0x2CDA]);
   (0x2CDD, [0x2CDC]); (0x2CDF, [0x2CDE]); (0x2CE1, [0x2CE0]);
   (0x2CE3, [0x2CE2]); (0x2CEC, [0x2CEB]); (0x2CEE, [0x2CED]);
   (0x2CF3, [0x2CF2]); (0x2D00, [0x10A0]); (0x2D01, [0x10A1]);
   (0x2D02, [0x10A2]); (0x2D03, [0x10A3]); (0x2D04, [0x10A4]);
   (0x2D05, [0x10A5]); (0x2D06, [0x10A6]); (0x2D07, [0x10A7]);
   (0x2D08, [0x10A8]); (0x2D09, [0x10A9]); (0x2D0A, [0x10AA]);
   (0x2D0B, [0x10AB]); (0x2D0C, [0x10AC]); (0x2D0D, [0x10AD]);
   (0x2D0E, [0x10AE]); (0x2D0F, [0x10AF]); (0x2D10, [0x10B0]);
   (0x2D11, [0x10B1]); (0x2D12, [0x10B2]); (0x2D13, [0x10B3]);
   (0x2D14, [0x10B4]); (0x2D15, [0x10B5]); (0x2D16, [0x10B6]);
   (0x2D17, [0x10B7]); (0x2D18, [0x10B8]); (0x2D19, [0x10B9]);
   (0x2D1A, [0x10BA]); (0x2D1B, [0x10BB])
  ].

Definition uppercase_8 : list (Z * list Z) :=
  [
   (0x2D1C, [0x10BC]); (0x2D1D, [0x10BD]); (0x2D1E, [0x10BE]);
   (0x2D1F, [0x10BF]); (0x2D20, [0x10C0]); (0x2D21, [0x10C1]);
   (0x2D22, [0x10C2]); (0x2D23, [0x10C3]); (0x2D24, [0x10C4]);
   (0x2D25, [0x10C5]); (0x2D27, [0x10C7]); (0x2D2D, [0x10CD]);
   (0xA641, [0xA640]); (0xA643, [0xA642]); (0xA645, [0xA644]);
   (0xA647, [0xA646]); (0xA649, [0xA648]); (0xA64B, [0xA64A]);
   (0xA64D, [0xA64C]); (0xA64F, [0xA64E]); (0xA651, [0xA650]);
   (0xA653, [0xA652]); (0xA655, [0xA654]); (0xA657, [0xA656]);
   (0xA659, [0xA658]); (0xA65B, [0xA65A]); (0xA65D, [0xA65C]);
   (0xA65F, [0xA65E]); (0xA661, [0xA660]); (0xA663, [0xA662]);
   (0xA665, [0xA664]); (0xA667, [0xA666]); (0xA669, [0xA668]);
   (0xA66B, [0xA66A]); (0xA66D, [0xA66C]); (0xA681, [0xA680]);
   (0xA683, [0xA682]); (0xA685, [0xA684]); (0xA687, [0xA686]);
   (0xA689, [0xA688]); (0xA68B, [0xA68A]); (0xA68D, [0xA68C]);
   (0xA68F, [0xA68E]); (0xA691, [0xA690]); (0xA693, [0xA692]);
   (0xA695, [0xA694]); (0xA697, [0xA696]); (0xA699, [0xA698]);
   (0xA69B, [0xA69A]); (0xA723, [0xA722]); (0xA725, [0xA724]);
   (0xA727, [0xA726]); (0xA729, [0xA728]); (0xA72B, [0xA72A]);
   (0xA72D, [0xA72C]); (0xA72F, [0xA72E]); (0xA733, [0xA732]);
   (0xA735, [0xA734]); (0xA737, [0xA736]); (0xA739, [0xA738]);
   (0xA73B, [0xA73A]); (0xA73D, [0xA73C]); (0xA73F, [0xA73E]);
   (0xA741, [0xA740]); (0xA743, [0xA742]); (0xA745, [0xA744]);
   (0xA747, [0xA746]); (0xA749, [0xA748]); (0xA74B, [0xA74A]);
   (0xA74D, [0xA74C]); (0xA74F, [0xA74E]); (0xA751, [0xA750]);
   (0xA753, [0xA752]); (0xA755, [0xA754]); (0xA757, [0xA756]);
   (0xA759, [0xA758]); (0xA75B, [0xA75A]); (0xA75D, [0xA75C]);
   (0xA75F, [0xA75E]); (0xA761, [0xA760]); (0xA763, [0xA762]);
   (0xA765, [0xA764]); (0xA767, [0xA766]); (0xA769, [0xA768]);
   (0xA76B, [0xA76A]); (0xA76D, [0xA76C]); (0xA76F, [0xA76E]);
   (0xA77A, [0xA779]); (0xA77C, [0xA77B]); (0xA77F, [0xA77E]);
   (0xA781, [0xA780]); (0xA783, [0xA782]); (0xA785, [0xA784]);
   (0xA787, [0xA786]); (0xA78C, [0xA78B]); (0xA791, [0xA790]);
   (0xA793, [0xA792]); (0xA794, [0xA7C4]); (0xA797, [0xA796]);
   (0xA799, [0xA798]); (0xA79B, [0xA79A]); (0xA79D, [0xA79C]);
   (0xA79F, [0xA79E]); (0xA7A1, [0xA7A0]); (0xA7A3, [0xA7A2]);
   (0xA7A5, [0xA7A4]); (0xA7A7, [0xA7A6]); (0xA7A9, [0xA7A8]);
   (0xA7B5, [0xA7B4]); (0xA7B7, [0xA7B6]); (0xA7B9, [0xA7B8]);
   (0xA7BB, [0xA7BA]); (0xA7BD, [0xA7BC]); (0xA7BF, [0xA7BE]);
   (0xA7C1, [0xA7C0]); (0xA7C3, [0xA7C2]); (0xA7C8, [0xA7C7]);
   (0xA7CA, [0xA7C9]); (0xA7D1, [0xA7D0]); (0xA7D7, [0xA7D6]);
   (0xA7D9, [0xA7D8]); (0xA7F6, [0xA7F5]); (0xAB53, [0xA7B3]);
   (0xAB70, [0x13A0]); (0xAB71, [0x13A1]); (0xAB72, [0x13A2]);
   (0xAB73, [0x13A3]); (0xAB74, [0x13A4])
  ].

Definition uppercase_9 : list (Z * list Z) :=
  [
   (0xAB75, [0x13A5]); (0xAB76, [0x13A6]); (0xAB77, [0x13A7]);
   (0xAB78, [0x13A8]); (0xAB79, [0x13A9]); (0xAB7A, [0x13AA]);
   (0xAB7B, [0x13AB]); (0xAB7C, [0x13AC]); (0xAB7D, [0x13AD]);
   (0xAB7E, [0x13AE]); (0xAB7F, [0x13AF]); (0xAB80, [0x13B0]);
   (0xAB81, [0x13B1]); (0xAB82, [0x13B2]); (0xAB83, [0x13B3]);
   (0xAB84, [0x13B4]); (0xAB85, [0x13B5]); (0xAB86, [0x13B6]);
   (0xAB87, [0x13B7]); (0xAB88, [0x13B8]); (0xAB89, [0x13B9]);
   (0xAB8A, [0x13BA]); (0xAB8B, [0x13BB]); (0xAB8C, [0x13BC]);
   (0xAB8D, [0x13BD]); (0xAB8E, [0x13BE]); (0xAB8F, [0x13BF]);
   (0xAB90, [0x13C0]); (0xAB91, [0x13C1]); (0xAB92, [0x13C2]);
   (0xAB93, [0x13C3]); (0xAB94, [0x13C4]); (0xAB95, [0x13C5]);
   (0xAB96, [0x13C6]); (0xAB97, [0x13C7]); (0xAB98, [0x13C8]);
   (0xAB99, [0x13C9]); (0xAB9A, [0x13CA]); (0xAB9B, [0x13CB]);
   (0xAB9C, [0x13CC]); (0xAB9D, [0x13CD]); (0xAB9E, [0x13CE]);
   (0xAB9F, [0x13CF]); (0xABA0, [0x13D0]); (0xABA1, [0x13D1]);
   (0xABA2, [0x13D2]); (0xABA3, [0x13D3]); (0xABA4, [0x13D4]);
   (0xABA5, [0x13D5]); (0xABA6, [0x13D6]); (0xABA7, [0x13D7]);
   (0xABA8, [0x13D8]); (0xABA9, [0x13D9]); (0xABAA, [0x13DA]);
   (0xABAB, [0x13DB]); (0xABAC, [0x13DC]); (0xABAD, [0x13DD]);
   (0xABAE, [0x13DE]); (0xABAF, [0x13DF]); (0xABB0, [0x13E0]);
   (0xABB1, [0x13E1]); (0xABB2, [0x13E2]); (0xABB3, [0x13E3]);
   (0xABB4, [0x13E4]); (0xABB5, [0x13E5]); (0xABB6, [0x13E6]);
   (0xABB7, [0x13E7]); (0xABB8, [0x13E8]); (0xABB9, [0x13E9]);
   (0xABBA, [0x13EA]); (0xABBB, [0x13EB]); (0xABBC, [0x13EC]);
   (0xABBD, [0x13ED]); (0xABBE, [0x13EE]); (0xABBF, [0x13EF]);
   (0xFB00, [0x46; 0x46]); (0xFB01, [0x46; 0x49]); (0xFB02, [0x46; 0x4C]);
   (0xFB03, [0x46; 0x46; 0x49]); (0xFB04, [0x46; 0x46; 0x4C]);
   (0xFB05, [0x53; 0x54]); (0xFB06, [0x53; 0x54]); (0xFB13, [0x544; 0x546]);
   (0xFB14, [0x544; 0x535]); (0xFB15, [0x544; 0x53B]);
   (0xFB16, [0x54E; 0x546]); (0xFB17, [0x544; 0x53D]); (0xFF41, [0xFF21]);
   (0xFF42, [0xFF22]); (0xFF43, [0xFF23]); (0xFF44, [0xFF24]);
   (0xFF45, [0xFF25]); (0xFF46, [0xFF26]); (0xFF47, [0xFF27]);
   (0xFF48, [0xFF28]); (0xFF49, [0xFF29]); (0xFF4A, [0xFF2A]);
   (0xFF4B, [0xFF2B]); (0xFF4C, [0xFF2C]); (0xFF4D, [0xFF2D]);
   (0xFF4E, [0xFF2E]); (0xFF4F, [0xFF2F]); (0xFF50, [0xFF30]);
   (0xFF51, [0xFF31]); (0xFF52, [0xFF32]); (0xFF53, [0xFF33]);
   (0xFF54, [0xFF34]); (0xFF55, [0xFF35]); (0xFF56, [0xFF36]);
   (0xFF57, [0xFF37]); (0xFF58, [0xFF38]); (0xFF59, [0xFF39]);
   (0xFF5A, [0xFF3A]); (0x10428, [0x10400]); (0x10429, [0x10401]);
   (0x1042A, [0x10402]); (0x1042B, [0x10403]); (0x1042C, [0x10404]);
   (0x1042D, [0x10405]); (0x1042E, [0x10406]); (0x1042F, [0x10407]);
   (0x10430, [0x10408]); (0x10431, [0x10409]); (0x10432, [0x1040A]);
   (0x10433, [0x1040B]); (0x10434, [0x1040C]); (0x10435, [0x1040D]);
   (0x10436, [0x1040E])
  ].

Definition uppercase_10 : list (Z * list Z) :=
  [
   (0x10437, [0x1040F]); (0x10438, [0x10410]); (0x10439, [0x10411]);
   (0x1043A, [0x10412]); (0x1043B, [0x10413]); (0x1043C, [0x10414]);
   (0x1043D, [0x10415]); (0x1043E, [0x10416]); (0x1043F, [0x10417]);
   (0x10440, [0x10418]); (0x10441, [0x10419]); (0x10442, [0x1041A]);
   (0x10443, [0x1041B]); (0x10444, [0x1041C]); (0x10445, [0x1041D]);
   (0x10446, [0x1041E]); (0x10447, [0x1041F]); (0x10448, [0x10420]);
   (0x10449, [0x10421]); (0x1044A, [0x10422]); (0x1044B, [0x10423]);
   (0x1044C, [0x10424]); (0x1044D, [0x10425]); (0x1044E, [0x10426]);
   (0x1044F, [0x10427]); (0x104D8, [0x104B0]); (0x104D9, [0x104B1]);
   (0x104DA, [0x104B2]); (0x104DB, [0x104B3]); (0x104DC, [0x104B4]);
   (0x104DD, [0x104B5]); (0x104DE, [0x104B6]); (0x104DF, [0x104B7]);
   (0x104E0, [0x104B8]); (0x104E1, [0x104B9]); (0x104E2, [0x104BA]);
   (0x104E3, [0x104BB]); (0x104E4, [0x104BC]); (0x104E5, [0x104BD]);
   (0x104E6, [0x104BE]); (0x104E7, [0x104BF]); (0x104E8, [0x104C0]);
   (0x104E9, [0x104C1]); (0x104EA, [0x104C2]); (0x104EB, [0x104C3]);
   (0x104EC, [0x104C4]); (0x104ED, [0x104C5]); (0x104EE, [0x104C6]);
   (0x104EF, [0x104C7]); (0x104F0, [0x104C8]); (0x104F1, [0x104C9]);
   (0x104F2, [0x104CA]); (0x104F3, [0x104CB]); (0x104F4, [0x104CC]);
   (0x104F5, [0x104CD]); (0x104F6, [0x104CE]); (0x104F7, [0x104CF]);
   (0x104F8, [0x104D0]); (0x104F9, [0x104D1]); (0x104FA, [0x104D2]);
   (0x104FB, [0x104D3]); (0x10597, [0x10570]); (0x10598, [0x10571]);
   (0x10599, [0x10572]); (0x1059A, [0x10573]); (0x1059B, [0x10574]);
   (0x1059C, [0x10575]); (0x1059D, [0x10576]); (0x1059E, [0x10577]);
   (0x1059F, [0x10578]); (0x105A0, [0x10579]); (0x105A1, [0x1057A]);
   (0x105A3, [0x1057C]); (0x105A4, [0x1057D]); (0x105A5, [0x1057E]);
   (0x105A6, [0x1057F]); (0x105A7, [0x10580]); (0x105A8, [0x10581]);
   (0x105A9, [0x10582]); (0x105AA, [0x10583]); (0x105AB, [0x10584]);
   (0x105AC, [0x10585]); (0x105AD, [0x10586]); (0x105AE, [0x10587]);
   (0x105AF, [0x10588]); (0x105B0, [0x10589]); (0x105B1, [0x1058A]);
   (0x105B3, [0x1058C]); (0x105B4, [0x1058D]); (0x105B5, [0x1058E]);
   (0x105B6, [0x1058F]); (0x105B7, [0x10590]); (0x105B8, [0x10591]);
   (0x105B9, [0x10592]); (0x105BB, [0x10594]); (0x105BC, [0x10595]);
   (0x10CC0, [0x10C80]); (0x10CC1, [0x10C81]); (0x10CC2, [0x10C82]);
   (0x10CC3, [0x10C83]); (0x10CC4, [0x10C84]); (0x10CC5, [0x10C85]);
   (0x10CC6, [0x10C86]); (0x10CC7, [0x10C87]); (0x10CC8, [0x10C88]);
   (0x10CC9, [0x10C89]); (0x10CCA, [0x10C8A]); (0x10CCB, [0x10C8B]);
   (0x10CCC, [0x10C8C]); (0x10CCD, [0x10C8D]); (0x10CCE, [0x10C8E]);
   (0x10CCF, [0x10C8F]); (0x10CD0, [0x10C90]); (0x10CD1, [0x10C91]);
   (0x10CD2, [0x10C92]); (0x10CD3, [0x10C93]); (0x10CD4, [0x10C94]);
   (0x10CD5, [0x10C95]); (0x10CD6, [0x10C96]); (0x10CD7, [0x10C97]);
   (0x10CD8, [0x10C98]); (0x10CD9, [0x10C99]); (0x10CDA, [0x10C9A]);
   (0x10CDB, [0x10C9B]); (0x10CDC, [0x10C9C]); (0x10CDD, [0x10C9D]);
   (0x10CDE, [0x10C9E]); (0x10CDF, [0x10C9F])
  ].

Definition uppercase_11 : list (Z * list Z) :=
  [
   (0x10CE0, [0x10CA0]); (0x10CE1, [0x10CA1]); (0x10CE2, [0x10CA2]);
   (0x10CE3, [0x10CA3]); (0x10CE4, [0x10CA4]); (0x10CE5, [0x10CA5]);
   (0x10CE6, [0x10CA6]); (0x10CE7, [0x10CA7]); (0x10CE8, [0x10CA8]);
   (0x10CE9, [0x10CA9]); (0x10CEA, [0x10CAA]); (0x10CEB, [0x10CAB]);
   (0x10CEC, [0x10CAC]); (0x10CED, [0x10CAD]); (0x10CEE, [0x10CAE]);
   (0x10CEF, [0x10CAF]); (0x10CF0, [0x10CB0]); (0x10CF1, [0x10CB1]);
   (0x10CF2, [0x10CB2]); (0x118C0, [0x118A0]); (0x118C1, [0x118A1]);
   (0x118C2, [0x118A2]); (0x118C3, [0x118A3]); (0x118C4, [0x118A4]);
   (0x118C5, [0x118A5]); (0x118C6, [0x118A6]); (0x118C7, [0x118A7]);
   (0x118C8, [0x118A8]); (0x118C9, [0x118A9]); (0x118CA, [0x118AA]);
   (0x118CB, [0x118AB]); (0x118CC, [0x118AC]); (0x118CD, [0x118AD]);
   (0x118CE, [0x118AE]); (0x118CF, [0x118AF]); (0x118D0, [0x118B0]);
   (0x118D1, [0x118B1]); (0x118D2, [0x118B2]); (0x118D3, [0x118B3]);
   (0x118D4, [0x118B4]); (0x118D5, [0x118B5]); (0x118D6, [0x118B6]);
   (0x118D7, [0x118B7]); (0x118D8, [0x118B8]); (0x118D9, [0x118B9]);
   (0x118DA, [0x118BA]); (0x118DB, [0x118BB]); (0x118DC, [0x118BC]);
   (0x118DD, [0x118BD]); (0x118DE, [0x118BE]); (0x118DF, [0x118BF]);
   (0x16E60, [0x16E40]); (0x16E61, [0x16E41]); (0x16E62, [0x16E42]);
   (0x16E63, [0x16E43]); (0x16E64, [0x16E44]); (0x16E65, [0x16E45]);
   (0x16E66, [0x16E46]); (0x16E67, [0x16E47]); (0x16E68, [0x16E48]);
   (0x16E69, [0x16E49]); (0x16E6A, [0x16E4A]); (0x16E6B, [0x16E4B]);
   (0x16E6C, [0x16E4C]); (0x16E6D, [0x16E4D]); (0x16E6E, [0x16E4E]);
   (0x16E6F, [0x16E4F]); (0x16E70, [0x16E50]); (0x16E71, [0x16E51]);
   (0x16E72, [0x16E52]); (0x16E73, [0x16E53]); (0x16E74, [0x16E54]);
   (0x16E75, [0x16E55]); (0x16E76, [0x16E56]); (0x16E77, [0x16E57]);
   (0x16E78, [0x16E58]); (0x16E79, [0x16E59]); (0x16E7A, [0x16E5A]);
   (0x16E7B, [0x16E5B]); (0x16E7C, [0x16E5C]); (0x16E7D, [0x16E5D]);
   (0x16E7E, [0x16E5E]); (0x16E7F, [0x16E5F]); (0x1E922, [0x1E900]);
   (0x1E923, [0x1E901]); (0x1E924, [0x1E902]); (0x1E925, [0x1E903]);
   (0x1E926, [0x1E904]); (0x1E927, [0x1E905]); (0x1E928, [0x1E906]);
   (0x1E929, [0x1E907]); (0x1E92A, [0x1E908]); (0x1E92B, [0x1E909]);
   (0x1E92C, [0x1E90A]); (0x1E92D, [0x1E90B]); (0x1E92E, [0x1E90C]);
   (0x1E92F, [0x1E90D]); (0x1E930, [0x1E90E]); (0x1E931, [0x1E90F]);
   (0x1E932, [0x1E910]); (0x1E933, [0x1E911]); (0x1E934, [0x1E912]);
   (0x1E935, [0x1E913]); (0x1E936, [0x1E914]); (0x1E937, [0x1E915]);
   (0x1E938, [0x1E916]); (0x1E939, [0x1E917]); (0x1E93A, [0x1E918]);
   (0x1E93B, [0x1E919]); (0x1E93C, [0x1E91A]); (0x1E93D, [0x1E91B]);
   (0x1E93E, [0x1E91C]); (0x1E93F, [0x1E91D]); (0x1E940, [0x1E91E]);
   (0x1E941, [0x1E91F]); (0x1E942, [0x1E920]); (0x1E943, [0x1E921])
  ].

Definition uppercase : list (Z * list Z) :=
  uppercase_0 ++ uppercase_1 ++ uppercase_2 ++ uppercase_3 ++ uppercase_4 ++
  uppercase_5 ++ uppercase_6 ++ uppercase_7 ++ uppercase_8 ++ uppercase_9 ++
  uppercase_10 ++ uppercase_11.

Definition lowercase_0 : list (Z * list Z) :=
  [
   (0x41, [0x61]); (0x42, [0x62]); (0x43, [0x63]); (0x44, [0x64]);
   (0x45, [0x65]); (0x46, [0x66]); (0x47, [0x67]); (0x48, [0x68]);
   (0x49, [0x69]); (0x4A, [0x6A]); (0x4B, [0x6B]); (0x4C, [0x6C]);
   (0x4D, [0x6D]); (0x4E, [0x6E]); (0x4F, [0x6F]); (0x50, [0x70]);
   (0x51, [0x71]); (0x52, [0x72]); (0x53, [0x73]); (0x54, [0x74]);
   (0x55, [0x75]); (0x56, [0x76]); (0x57, [0x77]); (0x58, [0x78]);
   (0x59, [0x79]); (0x5A, [0x7A]); (0xC0, [0xE0]); (0xC1, [0xE1]);
   (0xC2, [0xE2]); (0xC3, [0xE3]); (0xC4, [0xE4]); (0xC5, [0xE5]);
   (0xC6, [0xE6]); (0xC7, [0xE7]); (0xC8, [0xE8]); (0xC9, [0xE9]);
   (0xCA, [0xEA]); (0xCB, [0xEB]); (0xCC, [0xEC]); (0xCD, [0xED]);
   (0xCE, [0xEE]); (0xCF, [0xEF]); (0xD0, [0xF0]); (0xD1, [0xF1]);
   (0xD2, [0xF2]); (0xD3, [0xF3]); (0xD4, [0xF4]); (0xD5, [0xF5]);
   (0xD6, [0xF6]); (0xD8, [0xF8]); (0xD9, [0xF9]); (0xDA, [0xFA]);
   (0xDB, [0xFB]); (0xDC, [0xFC]); (0xDD, [0xFD]); (0xDE, [0xFE]);
   (0x100, [0x101]); (0x102, [0x103]); (0x104, [0x105]); (0x106, [0x107]);
   (0x108, [0x109]); (0x10A, [0x10B]); (0x10C, [0x10D]); (0x10E, [0x10F]);
   (0x110, [0x111]); (0x112, [0x113]); (0x114, [0x115]); (0x116, [0x117]);
   (0x118, [0x119]); (0x11A, [0x11B]); (0x11C, [0x11D]); (0x11E, [0x11F]);
   (0x120, [0x121]); (0x122, [0x123]); (0x124, [0x125]); (0x126, [0x127]);
   (0x128, [0x129]); (0x12A, [0x12B]); (0x12C, [0x12D]); (0x12E, [0x12F]);
   (0x130, [0x69; 0x307]); (0x132, [0x133]); (0x134, [0x135]);
   (0x136, [0x137]); (0x139, [0x13A]); (0x13B, [0x13C]); (0x13D, [0x13E]);
   (0x13F, [0x140]); (0x141, [0x142]); (0x143, [0x144]); (0x145, [0x146]);
   (0x147, [0x148]); (0x14A, [0x14B]); (0x14C, [0x14D]); (0x14E, [0x14F]);
   (0x150, [0x151]); (0x152, [0x153]); (0x154, [0x155]); (0x156, [0x157]);
   (0x158, [0x159]); (0x15A, [0x15B]); (0x15C, [0x15D]); (0x15E, [0x15F]);
   (0x160, [0x161]); (0x162, [0x163]); (0x164, [0x165]); (0x166, [0x167]);
   (0x168, [0x169]); (0x16A, [0x16B]); (0x16C, [0x16D]); (0x16E, [0x16F]);
   (0x170, [0x171]); (0x172, [0x173]); (0x174, [0x175]); (0x176, [0x177]);
   (0x178, [0xFF]); (0x179, [0x17A]); (0x17B, [0x17C]); (0x17D, [0x17E]);
   (0x181, [0x253]); (0x182, [0x183]); (0x184, [0x185]); (0x186, [0x254]);
   (0x187, [0x188]); (0x189, [0x256]); (0x18A, [0x257]); (0x18B, [0x18C]);
   (0x18E, [0x1DD])
  ].

Definition lowercase_1 : list (Z * list Z) :=
  [
   (0x18F, [0x259]); (0x190, [0x25B]); (0x191, [0x192]); (0x193, [0x260]);
   (0x194, [0x263]); (0x196, [0x269]); (0x197, [0x268]); (0x198, [0x199]);
   (0x19C, [0x26F]); (0x19D, [0x272]); (0x19F, [0x275]); (0x1A0, [0x1A1]);
   (0x1A2, [0x1A3]); (0x1A4, [0x1A5]); (0x1A6, [0x280]); (0x1A7, [0x1A8]);
   (0x1A9, [0x283]); (0x1AC, [0x1AD]); (0x1AE, [0x288]); (0x1AF, [0x1B0]);
   (0x1B1, [0x28A]); (0x1B2, [0x28B]); (0x1B3, [0x1B4]); (0x1B5, [0x1B6]);
   (0x1B7, [0x292]); (0x1B8, [0x1B9]); (0x1BC, [0x1BD]); (0x1C4, [0x1C6]);
   (0x1C5, [0x1C6]); (0x1C7, [0x1C9]); (0x1C8, [0x1C9]); (0x1CA, [0x1CC]);
   (0x1CB, [0x1CC]); (0x1CD, [0x1CE]); (0x1CF, [0x1D0]); (0x1D1, [0x1D2]);
   (0x1D3, [0x1D4]); (0x1D5, [0x1D6]); (0x1D7, [0x1D8]); (0x1D9, [0x1DA]);
   (0x1DB, [0x1DC]); (0x1DE, [0x1DF]); (0x1E0, [0x1E1]); (0x1E2, [0x1E3]);
   (0x1E4, [0x1E5]); (0x1E6, [0x1E7]); (0x1E8, [0x1E9]); (0x1EA, [0x1EB]);
   (0x1EC, [0x1ED]); (0x1EE, [0x1EF]); (0x1F1, [0x1F3]); (0x1F2, [0x1F3]);
   (0x1F4, [0x1F5]); (0x1F6, [0x195]); (0x1F7, [0x1BF]); (0x1F8, [0x1F9]);
   (0x1FA, [0x1FB]); (0x1FC, [0x1FD]); (0x1FE, [0x1FF]); (0x200, [0x201]);
   (0x202, [0x203]); (0x204, [0x205]); (0x206, [0x207]); (0x208, [0x209]);
   (0x20A, [0x20B]); (0x20C, [0x20D]); (0x20E, [0x20F]); (0x210, [0x211]);
   (0x212, [0x213]); (0x214, [0x215]); (0x216, [0x217]); (0x218, [0x219]);
   (0x21A, [0x21B]); (0x21C, [0x21D]); (0x21E, [0x21F]); (0x220, [0x19E]);
   (0x222, [0x223]); (0x224, [0x225]); (0x226, [0x227]); (0x228, [0x229]);
   (0x22A, [0x22B]); (0x22C, [0x22D]); (0x22E, [0x22F]); (0x230, [0x231]);
   (0x232, [0x233]); (0x23A, [0x2C65]); (0x23B, [0x23C]); (0x23D, [0x19A]);
   (0x23E, [0x2C66]); (0x241, [0x242]); (0x243, [0x180]); (0x244, [0x289]);
   (0x245, [0x28C]); (0x246, [0x247]); (0x248, [0x249]); (0x24A, [0x24B]);
   (0x24C, [0x24D]); (0x24E, [0x24F]); (0x370, [0x371]); (0x372, [0x373]);
   (0x376, [0x377]); (0x37F, [0x3F3]); (0x386, [0x3AC]); (0x388, [0x3AD]);
   (0x389, [0x3AE]); (0x38A, [0x3AF]); (0x38C, [0x3CC]); (0x38E, [0x3CD]);
   (0x38F, [0x3CE]); (0x391, [0x3B1]); (0x392, [0x3B2]); (0x393, [0x3B3]);
   (0x394, [0x3B4]); (0x395, [0x3B5]); (0x396, [0x3B6]); (0x397, [0x3B7]);
   (0x398, [0x3B8]); (0x399, [0x3B9]); (0x39A, [0x3BA]); (0x39B, [0x3BB]);
   (0x39C, [0x3BC]); (0x39D, [0x3BD]); (0x39E, [0x3BE]); (0x39F, [0x3BF]);
   (0x3A0, [0x3C0]); (0x3A1, [0x3C1]); (0x3A3, [0x3C3]); (0x3A4, [0x3C4])
  ].

Definition lowercase_2 : list (Z * list Z) :=
  [
   (0x3A5, [0x3C5]); (0x3A6, [0x3C6]); (0x3A7, [0x3C7]); (0x3A8, [0x3C8]);
   (0x3A9, [0x3C9]); (0x3AA, [0x3CA]); (0x3AB, [0x3CB]); (0x3CF, [0x3D7]);
   (0x3D8, [0x3D9]); (0x3DA, [0x3DB]); (0x3DC, [0x3DD]); (0x3DE, [0x3DF]);
   (0x3E0, [0x3E1]); (0x3E2, [0x3E3]); (0x3E4, [0x3E5]); (0x3E6, [0x3E7]);
   (0x3E8, [0x3E9]); (0x3EA, [0x3EB]); (0x3EC, [0x3ED]); (0x3EE, [0x3EF]);
   (0x3F4, [0x3B8]); (0x3F7, [0x3F8]); (0x3F9, [0x3F2]); (0x3FA, [0x3FB]);
   (0x3FD, [0x37B]); (0x3FE, [0x37C]); (0x3FF, [0x37D]); (0x400, [0x450]);
   (0x401, [0x451]); (0x402, [0x452]); (0x403, [0x453]); (0x404, [0x454]);
   (0x405, [0x455]); (0x406, [0x456]); (0x407, [0x457]); (0x408, [0x458]);
   (0x409, [0x459]); (0x40A, [0x45A]); (0x40B, [0x45B]); (0x40C, [0x45C]);
   (0x40D, [0x45D]); (0x40E, [0x45E]); (0x40F, [0x45F]); (0x410, [0x430]);
   (0x411, [0x431]); (0x412, [0x432]); (0x413, [0x433]); (0x414, [0x434]);
   (0x415, [0x435]); (0x416, [0x436]); (0x417, [0x437]); (0x418, [0x438]);
   (0x419, [0x439]); (0x41A, [0x43A]); (0x41B, [0x43B]); (0x41C, [0x43C]);
   (0x41D, [0x43D]); (0x41E, [0x43E]); (0x41F, [0x43F]); (0x420, [0x440]);
   (0x421, [0x441]); (0x422, [0x442]); (0x423, [0x443]); (0x424, [0x444]);
   (0x425, [0x445]); (0x426, [0x446]); (0x427, [0x447]); (0x428, [0x448]);
   (0x429, [0x449]); (0x42A, [0x44A]); (0x42B, [0x44B]); (0x42C, [0x44C]);
   (0x42D, [0x44D]); (0x42E, [0x44E]); (0x42F, [0x44F]); (0x460, [0x461]);
   (0x462, [0x463]); (0x464, [0x465]); (0x466, [0x467]); (0x468, [0x469]);
   (0x46A, [0x46B]); (0x46C, [0x46D]); (0x46E, [0x46F]); (0x470, [0x471]);
   (0x472, [0x473]); (0x474, [0x475]); (0x476, [0x477]); (0x478, [0x479]);
   (0x47A, [0x47B]); (0x47C, [0x47D]); (0x47E, [0x47F]); (0x480, [0x481]);
   (0x48A, [0x48B]); (0x48C, [0x48D]); (0x48E, [0x48F]); (0x490, [0x491]);
   (0x492, [0x493]); (0x494, [0x495]); (0x496, [0x497]); (0x498, [0x499]);
   (0x49A, [0x49B]); (0x49C, [0x49D]); (0x49E, [0x49F]); (0x4A0, [0x4A1]);
   (0x4A2, [0x4A3]); (0x4A4, [0x4A5]); (0x4A6, [0x4A7]); (0x4A8, [0x4A9]);
   (0x4AA, [0x4AB]); (0x4AC, [0x4AD]); (0x4AE, [0x4AF]); (0x4B0, [0x4B1]);
   (0x4B2, [0x4B3]); (0x4B4, [0x4B5]); (0x4B6, [0x4B7]); (0x4B8, [0x4B9]);
   (0x4BA, [0x4BB]); (0x4BC, [0x4BD]); (0x4BE, [0x4BF]); (0x4C0, [0x4CF]);
   (0x4C1, [0x4C2]); (0x4C3, [0x4C4]); (0x4C5, [0x4C6]); (0x4C7, [0x4C8]);
   (0x4C9, [0x4CA]); (0x4CB, [0x4CC]); (0x4CD, [0x4CE]); (0x4D0, [0x4D1])
  ].

Definition lowercase_3 : list (Z * list Z) :=
  [
   (0x4D2, [0x4D3]); (0x4D4, [0x4D5]); (0x4D6, [0x4D7]); (0x4D8, [0x4D9]);
   (0x4DA, [0x4DB]); (0x4DC, [0x4DD]); (0x4DE, [0x4DF]); (0x4E0, [0x4E1]);
   (0x4E2, [0x4E3]); (0x4E4, [0x4E5]); (0x4E6, [0x4E7]); (0x4E8, [0x4E9]);
   (0x4EA, [0x4EB]); (0x4EC, [0x4ED]); (0x4EE, [0x4EF]); (0x4F0, [0x4F1]);
   (0x4F2, [0x4F3]); (0x4F4, [0x4F5]); (0x4F6, [0x4F7]); (0x4F8, [0x4F9]);
   (0x4FA, [0x4FB]); (0x4FC, [0x4FD]); (0x4FE, [0x4FF]); (0x500, [0x501]);
   (0x502, [0x503]); (0x504, [0x505]); (0x506, [0x507]); (0x508, [0x509]);
   (0x50A, [0x50B]); (0x50C, [0x50D]); (0x50E, [0x50F]); (0x510, [0x511]);
   (0x512, [0x513]); (0x514, [0x515]); (0x516, [0x517]); (0x518, [0x519]);
   (0x51A, [0x51B]); (0x51C, [0x51D]); (0x51E, [0x51F]); (0x520, [0x521]);
   (0x522, [0x523]); (0x524, [0x525]); (0x526, [0x527]); (0x528, [0x529]);
   (0x52A, [0x52B]); (0x52C, [0x52D]); (0x52E, [0x52F]); (0x531, [0x561]);
   (0x532, [0x562]); (0x533, [0x563]); (0x534, [0x564]); (0x535, [0x565]);
   (0x536, [0x566]); (0x537, [0x567]); (0x538, [0x568]); (0x539, [0x569]);
   (0x53A, [0x56A]); (0x53B, [0x56B]); (0x53C, [0x56C]); (0x53D, [0x56D]);
   (0x53E, [0x56E]); (0x53F, [0x56F]); (0x540, [0x570]); (0x541, [0x571]);
   (0x542, [0x572]); (0x543, [0x573]); (0x544, [0x574]); (0x545, [0x575]);
   (0x546, [0x576]); (0x547, [0x577]); (0x548, [0x578]); (0x549, [0x579]);
   (0x54A, [0x57A]); (0x54B, [0x57B]); (0x54C, [0x57C]); (0x54D, [0x57D]);
   (0x54E, [0x57E]); (0x54F, [0x57F]); (0x550, [0x580]); (0x551, [0x581]);
   (0x552, [0x582]); (0x553, [0x583]); (0x554, [0x584]); (0x555, [0x585]);
   (0x556, [0x586]); (0x10A0, [0x2D00]); (0x10A1, [0x2D01]);
   (0x10A2, [0x2D02]); (0x10A3, [0x2D03]); (0x10A4, [0x2D04]);
   (0x10A5, [0x2D05]); (0x10A6, [0x2D06]); (0x10A7, [0x2D07]);
   (0x10A8, [0x2D08]); (0x10A9, [0x2D09]); (0x10AA, [0x2D0A]);
   (0x10AB, [0x2D0B]); (0x10AC, [0x2D0C]); (0x10AD, [0x2D0D]);
   (0x10AE, [0x2D0E]); (0x10AF, [0x2D0F]); (0x10B0, [0x2D10]);
   (0x10B1, [0x2D11]); (0x10B2, [0x2D12]); (0x10B3, [0x2D13]);
   (0x10B4, [0x2D14]); (0x10B5, [0x2D15]); (0x10B6, [0x2D16]);
   (0x10B7, [0x2D17]); (0x10B8, [0x2D18]); (0x10B9, [0x2D19]);
   (0x10BA, [0x2D1A]); (0x10BB, [0x2D1B]); (0x10BC, [0x2D1C]);
   (0x10BD, [0x2D1D]); (0x10BE, [0x2D1E]); (0x10BF, [0x2D1F]);
   (0x10C0, [0x2D20]); (0x10C1, [0x2D21]); (0x10C2, [0x2D22]);
   (0x10C3, [0x2D23]); (0x10C4, [0x2D24]); (0x10C5, [0x2D25]);
   (0x10C7, [0x2D27]); (0x10CD, [0x2D2D]); (0x13A0, [0xAB70]);
   (0x13A1, [0xAB71]); (0x13A2, [0xAB72])
  ].

Definition lowercase_4 : list (Z * list Z) :=
  [
   (0x13A3, [0xAB73]); (0x13A4, [0xAB74]); (0x13A5, [0xAB75]);
   (0x13A6, [0xAB76]); (0x13A7, [0xAB77]); (0x13A8, [0xAB78]);
   (0x13A9, [0xAB79]); (0x13AA, [0xAB7A]); (0x13AB, [0xAB7B]);
   (0x13AC, [0xAB7C]); (0x13AD, [0xAB7D]); (0x13AE, [0xAB7E]);
   (0x13AF, [0xAB7F]); (0x13B0, [0xAB80]); (0x13B1, [0xAB81]);
   (0x13B2, [0xAB82]); (0x13B3, [0xAB83]); (0x13B4, [0xAB84]);
   (0x13B5, [0xAB85]); (0x13B6, [0xAB86]); (0x13B7, [0xAB87]);
   (0x13B8, [0xAB88]); (0x13B9, [0xAB89]); (0x13BA, [0xAB8A]);
   (0x13BB, [0xAB8B]); (0x13BC, [0xAB8C]); (0x13BD, [0xAB8D]);
   (0x13BE, [0xAB8E]); (0x13BF, [0xAB8F]); (0x13C0, [0xAB90]);
   (0x13C1, [0xAB91]); (0x13C2, [0xAB92]); (0x13C3, [0xAB93]);
   (0x13C4, [0xAB94]); (0x13C5, [0xAB95]); (0x13C6, [0xAB96]);
   (0x13C7, [0xAB97]); (0x13C8, [0xAB98]); (0x13C9, [0xAB99]);
   (0x13CA, [0xAB9A]); (0x13CB, [0xAB9B]); (0x13CC, [0xAB9C]);
   (0x13CD, [0xAB9D]); (0x13CE, [0xAB9E]); (0x13CF, [0xAB9F]);
   (0x13D0, [0xABA0]); (0x13D1, [0xABA1]); (0x13D2, [0xABA2]);
   (0x13D3, [0xABA3]); (0x13D4, [0xABA4]); (0x13D5, [0xABA5]);
   (0x13D6, [0xABA6]); (0x13D7, [0xABA7]); (0x13D8, [0xABA8]);
   (0x13D9, [0xABA9]); (0x13DA, [0xABAA]); (0x13DB, [0xABAB]);
   (0x13DC, [0xABAC]); (0x13DD, [0xABAD]); (0x13DE, [0xABAE]);
   (0x13DF, [0xABAF]); (0x13E0, [0xABB0]); (0x13E1, [0xABB1]);
   (0x13E2, [0xABB2]); (0x13E3, [0xABB3]); (0x13E4, [0xABB4]);
   (0x13E5, [0xABB5]); (0x13E6, [0xABB6]); (0x13E7, [0xABB7]);
   (0x13E8, [0xABB8]); (0x13E9, [0xABB9]); (0x13EA, [0xABBA]);
   (0x13EB, [0xABBB]); (0x13EC, [0xABBC]); (0x13ED, [0xABBD]);
   (0x13EE, [0xABBE]); (0x13EF, [0xABBF]); (0x13F0, [0x13F8]);
   (0x13F1, [0x13F9]); (0x13F2, [0x13FA]); (0x13F3, [0x13FB]);
   (0x13F4, [0x13FC]); (0x13F5, [0x13FD]); (0x1C90, [0x10D0]);
   (0x1C91, [0x10D1]); (0x1C92, [0x10D2]); (0x1C93, [0x10D3]);
   (0x1C94, [0x10D4]); (0x1C95, [0x10D5]); (0x1C96, [0x10D6]);
   (0x1C97, [0x10D7]); (0x1C98, [0x10D8]); (0x1C99, [0x10D9]);
   (0x1C9A, [0x10DA]); (0x1C9B, [0x10DB]); (0x1C9C, [0x10DC]);
   (0x1C9D, [0x10DD]); (0x1C9E, [0x10DE]); (0x1C9F, [0x10DF]);
   (0x1CA0, [0x10E0]); (0x1CA1, [0x10E1]); (0x1CA2, [0x10E2]);
   (0x1CA3, [0x10E3]); (0x1CA4, [0x10E4]); (0x1CA5, [0x10E5]);
   (0x1CA6, [0x10E6]); (0x1CA7, [0x10E7]); (0x1CA8, [0x10E8]);
   (0x1CA9, [0x10E9]); (0x1CAA, [0x10EA]); (0x1CAB, [0x10EB]);
   (0x1CAC, [0x10EC]); (0x1CAD, [0x10ED]); (0x1CAE, [0x10EE]);
   (0x1CAF, [0x10EF]); (0x1CB0, [0x10F0]); (0x1CB1, [0x10F1]);
   (0x1CB2, [0x10F2]); (0x1CB3, [0x10F3]); (0x1CB4, [0x10F4]);
   (0x1CB5, [0x10F5]); (0x1CB6, [0x10F6]); (0x1CB7, [0x10F7]);
   (0x1CB8, [0x10F8]); (0x1CB9, [0x10F9]); (0x1CBA, [0x10FA]);
   (0x1CBD, [0x10FD]); (0x1CBE, [0x10FE])
  ].

Definition lowercase_5 : list (Z * list Z) :=
  [
   (0x1CBF, [0x10FF]); (0x1E00, [0x1E01]); (0x1E02, [0x1E03]);
   (0x1E04, [0x1E05]); (0x1E06, [0x1E07]); (0x1E08, [0x1E09]);
   (0x1E0A, [0x1E0B]); (0x1E0C, [0x1E0D]); (0x1E0E, [0x1E0F]);
   (0x1E10, [0x1E11]); (0x1E12, [0x1E13]); (0x1E14, [0x1E15]);
   (0x1E16, [0x1E17]); (0x1E18, [0x1E19]); (0x1E1A, [0x1E1B]);
   (0x1E1C, [0x1E1D]); (0x1E1E, [0x1E1F]); (0x1E20, [0x1E21]);
   (0x1E22, [0x1E23]); (0x1E24, [0x1E25]); (0x1E26, [0x1E27]);
   (0x1E28, [0x1E29]); (0x1E2A, [0x1E2B]); (0x1E2C, [0x1E2D]);
   (0x1E2E, [0x1E2F]); (0x1E30, [0x1E31]); (0x1E32, [0x1E33]);
   (0x1E34, [0x1E35]); (0x1E36, [0x1E37]); (0x1E38, [0x1E39]);
   (0x1E3A, [0x1E3B]); (0x1E3C, [0x1E3D]); (0x1E3E, [0x1E3F]);
   (0x1E40, [0x1E41]); (0x1E42, [0x1E43]); (0x1E44, [0x1E45]);
   (0x1E46, [0x1E47]); (0x1E48, [0x1E49]); (0x1E4A, [0x1E4B]);
   (0x1E4C, [0x1E4D]); (0x1E4E, [0x1E4F]); (0x1E50, [0x1E51]);
   (0x1E52, [0x1E53]); (0x1E54, [0x1E55]); (0x1E56, [0x1E57]);
   (0x1E58, [0x1E59]); (0x1E5A, [0x1E5B]); (0x1E5C, [0x1E5D]);
   (0x1E5E, [0x1E5F]); (0x1E60, [0x1E61]); (0x1E62, [0x1E63]);
   (0x1E64, [0x1E65]); (0x1E66, [0x1E67]); (0x1E68, [0x1E69]);
   (0x1E6A, [0x1E6B]); (0x1E6C, [0x1E6D]); (0x1E6E, [0x1E6F]);
   (0x1E70, [0x1E71]); (0x1E72, [0x1E73]); (0x1E74, [0x1E75]);
   (0x1E76, [0x1E77]); (0x1E78, [0x1E79]); (0x1E7A, [0x1E7B]);
   (0x1E7C, [0x1E7D]); (0x1E7E, [0x1E7F]); (0x1E80, [0x1E81]);
   (0x1E82, [0x1E83]); (0x1E84, [0x1E85]); (0x1E86, [0x1E87]);
   (0x1E88, [0x1E89]); (0x1E8A, [0x1E8B]); (0x1E8C, [0x1E8D]);
   (0x1E8E, [0x1E8F]); (0x1E90, [0x1E91]); (0x1E92, [0x1E93]);
   (0x1E94, [0x1E95]); (0x1E9E, [0xDF]); (0x1EA0, [0x1EA1]);
   (0x1EA2, [0x1EA3]); (0x1EA4, [0x1EA5]); (0x1EA6, [0x1EA7]);
   (0x1EA8, [0x1EA9]); (0x1EAA, [0x1EAB]); (0x1EAC, [0x1EAD]);
   (0x1EAE, [0x1EAF]); (0x1EB0, [0x1EB1]); (0x1EB2, [0x1EB3]);
   (0x1EB4, [0x1EB5]); (0x1EB6, [0x1EB7]); (0x1EB8, [0x1EB9]);
   (0x1EBA, [0x1EBB]); (0x1EBC, [0x1EBD]); (0x1EBE, [0x1EBF]);
   (0x1EC0, [0x1EC1]); (0x1EC2, [0x1EC3]); (0x1EC4, [0x1EC5]);
   (0x1EC6, [0x1EC7]); (0x1EC8, [0x1EC9]); (0x1ECA, [0x1ECB]);
   (0x1ECC, [0x1ECD]); (0x1ECE, [0x1ECF]); (0x1ED0, [0x1ED1]);
   (0x1ED2, [0x1ED3]); (0x1ED4, [0x1ED5]); (0x1ED6, [0x1ED7]);
   (0x1ED8, [0x1ED9]); (0x1EDA, [0x1EDB]); (0x1EDC, [0x1EDD]);
   (0x1EDE, [0x1EDF]); (0x1EE0, [0x1EE1]); (0x1EE2, [0x1EE3]);
   (0x1EE4, [0x1EE5]); (0x1EE6, [0x1EE7]); (0x1EE8, [0x1EE9]);
   (0x1EEA, [0x1EEB]); (0x1EEC, [0x1EED]); (0x1EEE, [0x1EEF]);
   (0x1EF0, [0x1EF1]); (0x1EF2, [0x1EF3]); (0x1EF4, [0x1EF5]);
   (0x1EF6, [0x1EF7]); (0x1EF8, [0x1EF9]); (0x1EFA, [0x1EFB]);
   (0x1EFC, [0x1EFD]); (0x1EFE, [0x1EFF]); (0x1F08, [0x1F00]);
   (0x1F09, [0x1F01]); (0x1F0A, [0x1F02])
  ].

Definition lowercase_6 : list (Z * list Z) :=
  [
   (0x1F0B, [0x1F03]); (0x1F0C, [0x1F04]); (0x1F0D, [0x1F05]);
   (0x1F0E, [0x1F06]); (0x1F0F, [0x1F07]); (0x1F18, [0x1F10]);
   (0x1F19, [0x1F11]); (0x1F1A, [0x1F12]); (0x1F1B, [0x1F13]);
   (0x1F1C, [0x1F14]); (0x1F1D, [0x1F15]); (0x1F28, [0x1F20]);
   (0x1F29, [0x1F21]); (0x1F2A, [0x1F22]); (0x1F2B, [0x1F23]);
   (0x1F2C, [0x1F24]); (0x1F2D, [0x1F25]); (0x1F2E, [0x1F26]);
   (0x1F2F, [0x1F27]); (0x1F38, [0x1F30]); (0x1F39, [0x1F31]);
   (0x1F3A, [0x1F32]); (0x1F3B, [0x1F33]); (0x1F3C, [0x1F34]);
   (0x1F3D, [0x1F35]); (0x1F3E, [0x1F36]); (0x1F3F, [0x1F37]);
   (0x1F48, [0x1F40]); (0x1F49, [0x1F41]); (0x1F4A, [0x1F42]);
   (0x1F4B, [0x1F43]); (0x1F4C, [0x1F44]); (0x1F4D, [0x1F45]);
   (0x1F59, [0x1F51]); (0x1F5B, [0x1F53]); (0x1F5D, [0x1F55]);
   (0x1F5F, [0x1F57]); (0x1F68, [0x1F60]); (0x1F69, [0x1F61]);
   (0x1F6A, [0x1F62]); (0x1F6B, [0x1F63]); (0x1F6C, [0x1F64]);
   (0x1F6D, [0x1F65]); (0x1F6E, [0x1F66]); (0x1F6F, [0x1F67]);
   (0x1F88, [0x1F80]); (0x1F89, [0x1F81]); (0x1F8A, [0x1F82]);
   (0x1F8B, [0x1F83]); (0x1F8C, [0x1F84]); (0x1F8D, [0x1F85]);
   (0x1F8E, [0x1F86]); (0x1F8F, [0x1F87]); (0x1F98, [0x1F90]);
   (0x1F99, [0x1F91]); (0x1F9A, [0x1F92]); (0x1F9B, [0x1F93]);
   (0x1F9C, [0x1F94]); (0x1F9D, [0x1F95]); (0x1F9E, [0x1F96]);
   (0x1F9F, [0x1F97]); (0x1FA8, [0x1FA0]); (0x1FA9, [0x1FA1]);
   (0x1FAA, [0x1FA2]); (0x1FAB, [0x1FA3]); (0x1FAC, [0x1FA4]);
   (0x1FAD, [0x1FA5]); (0x1FAE, [0x1FA6]); (0x1FAF, [0x1FA7]);
   (0x1FB8, [0x1FB0]); (0x1FB9, [0x1FB1]); (0x1FBA, [0x1F70]);
   (0x1FBB, [0x1F71]); (0x1FBC, [0x1FB3]); (0x1FC8, [0x1F72]);
   (0x1FC9, [0x1F73]); (0x1FCA, [0x1F74]); (0x1FCB, [0x1F75]);
   (0x1FCC, [0x1FC3]); (0x1FD8, [0x1FD0]); (0x1FD9, [0x1FD1]);
   (0x1FDA, [0x1F76]); (0x1FDB, [0x1F77]); (0x1FE8, [0x1FE0]);
   (0x1FE9, [0x1FE1]); (0x1FEA, [0x1F7A]); (0x1FEB, [0x1F7B]);
   (0x1FEC, [0x1FE5]); (0x1FF8, [0x1F78]); (0x1FF9, [0x1F79]);
   (0x1FFA, [0x1F7C]); (0x1FFB, [0x1F7D]); (0x1FFC, [0x1FF3]);
   (0x2126, [0x3C9]); (0x212A, [0x6B]); (0x212B, [0xE5]); (0x2132, [0x214E]);
   (0x2160, [0x2170]); (0x2161, [0x2171]); (0x2162, [0x2172]);
   (0x2163, [0x2173]); (0x2164, [0x2174]); (0x2165, [0x2175]);
   (0x2166, [0x2176]); (0x2167, [0x2177]); (0x2168, [0x2178]);
   (0x2169, [0x2179]); (0x216A, [0x217A]); (0x216B, [0x217B]);
   (0x216C, [0x217C]); (0x216D, [0x217D]); (0x216E, [0x217E]);
   (0x216F, [0x217F]); (0x2183, [0x2184]); (0x24B6, [0x24D0]);
   (0x24B7, [0x24D1]); (0x24B8, [0x24D2]); (0x24B9, [0x24D3]);
   (0x24BA, [0x24D4]); (0x24BB, [0x24D5]); (0x24BC, [0x24D6]);
   (0x24BD, [0x24D7]); (0x24BE, [0x24D8]); (0x24BF, [0x24D9]);
   (0x24C0, [0x24DA]); (0x24C1, [0x24DB]); (0x24C2, [0x24DC]);
   (0x24C3, [0x24DD])
  ].

Definition lowercase_7 : list (Z * list Z) :=
  [
   (0x24C4, [0x24DE]); (0x24C5, [0x24DF]); (0x24C6, [0x24E0]);
   (0x24C7, [0x24E1]); (0x24C8, [0x24E2]); (0x24C9, [0x24E3]);
   (0x24CA, [0x24E4]); (0x24CB, [0x24E5]); (0x24CC, [0x24E6]);
   (0x24CD, [0x24E7]); (0x24CE, [0x24E8]); (0x24CF, [0x24E9]);
   (0x2C00, [0x2C30]); (0x2C01, [0x2C31]); (0x2C02, [0x2C32]);
   (0x2C03, [0x2C33]); (0x2C04, [0x2C34]); (0x2C05, [0x2C35]);
   (0x2C06, [0x2C36]); (0x2C07, [0x2C37]); (0x2C08, [0x2C38]);
   (0x2C09, [0x2C39]); (0x2C0A, [0x2C3A]); (0x2C0B, [0x2C3B]);
   (0x2C0C, [0x2C3C]); (0x2C0D, [0x2C3D]); (0x2C0E, [0x2C3E]);
   (0x2C0F, [0x2C3F]); (0x2C10, [0x2C40]); (0x2C11, [0x2C41]);
   (0x2C12, [0x2C42]); (0x2C13, [0x2C43]); (0x2C14, [0x2C44]);
   (0x2C15, [0x2C45]); (0x2C16, [0x2C46]); (0x2C17, [0x2C47]);
   (0x2C18, [0x2C48]); (0x2C19, [0x2C49]); (0x2C1A, [0x2C4A]);
   (0x2C1B, [0x2C4B]); (0x2C1C, [0x2C4C]); (0x2C1D, [0x2C4D]);
   (0x2C1E, [0x2C4E]); (0x2C1F, [0x2C4F]); (0x2C20, [0x2C50]);
   (0x2C21, [0x2C51]); (0x2C22, [0x2C52]); (0x2C23, [0x2C53]);
   (0x2C24, [0x2C54]); (0x2C25, [0x2C55]); (0x2C26, [0x2C56]);
   (0x2C27, [0x2C57]); (0x2C28, [0x2C58]); (0x2C29, [0x2C59]);
   (0x2C2A, [0x2C5A]); (0x2C2B, [0x2C5B]); (0x2C2C, [0x2C5C]);
   (0x2C2D, [0x2C5D]); (0x2C2E, [0x2C5E]); (0x2C2F, [0x2C5F]);
   (0x2C60, [0x2C61]); (0x2C62, [0x26B]); (0x2C63, [0x1D7D]);
   (0x2C64, [0x27D]); (0x2C67, [0x2C68]); (0x2C69, [0x2C6A]);
   (0x2C6B, [0x2C6C]); (0x2C6D, [0x251]); (0x2C6E, [0x271]);
   (0x2C6F, [0x250]); (0x2C70, [0x252]); (0x2C72, [0x2C73]);
   (0x2C75, [0x2C76]); (0x2C7E, [0x23F]); (0x2C7F, [0x240]);
   (0x2C80, [0x2C81]); (0x2C82, [0x2C83]); (0x2C84, [0x2C85]);
   (0x2C86, [0x2C87]); (0x2C88, [0x2C89]); (0x2C8A, [0x2C8B]);
   (0x2C8C, [0x2C8D]); (0x2C8E, [0x2C8F]); (0x2C90, [0x2C91]);
   (0x2C92, [0x2C93]); (0x2C94, [0x2C95]); (0x2C96, [0x2C97]);
   (0x2C98, [0x2C99]); (0x2C9A, [0x2C9B]); (0x2C9C, [0x2C9D]);
   (0x2C9E, [0x2C9F]); (0x2CA0, [0x2CA1]); (0x2CA2, [0x2CA3]);
   (0x2CA4, [0x2CA5]); (0x2CA6, [0x2CA7]); (0x2CA8, [0x2CA9]);
   (0x2CAA, [0x2CAB]); (0x2CAC, [0x2CAD]); (0x2CAE, [0x2CAF]);
   (0x2CB0, [0x2CB1]); (0x2CB2, [0x2CB3]); (0x2CB4, [0x2CB5]);
   (0x2CB6, [0x2CB7]); (0x2CB8, [0x2CB9]); (0x2CBA, [0x2CBB]);
   (0x2CBC, [0x2CBD]); (0x2CBE, [0x2CBF]); (0x2CC0, [0x2CC1]);
   (0x2CC2, [0x2CC3]); (0x2CC4, [0x2CC5]); (0x2CC6, [0x2CC7]);
   (0x2CC8, [0x2CC9]); (0x2CCA, [0x2CCB]); (0x2CCC, [0x2CCD]);
   (0x2CCE, [0x2CCF]); (0x2CD0, [0x2CD1]); (0x2CD2, [0x2CD3]);
   (0x2CD4, [0x2CD5]); (0x2CD6, [0x2CD7]); (0x2CD8, [0x2CD9]);
   (0x2CDA, [0x2CDB]); (0x2CDC, [0x2CDD]); (0x2CDE, [0x2CDF]);
   (0x2CE0, [0x2CE1]); (0x2CE2, [0x2CE3]); (0x2CEB, [0x2CEC]);
   (0x2CED, [0x2CEE]); (0x2CF2, [0x2CF3])
  ].

Definition lowercase_8 : list (Z * list Z) :=
  [
   (0xA640, [0xA641]); (0xA642, [0xA643]); (0xA644, [0xA645]);
   (0xA646, [0xA647]); (0xA648, [0xA649]); (0xA64A, [0xA64B]);
   (0xA64C, [0xA64D]); (0xA64E, [0xA64F]); (0xA650, [0xA651]);
   (0xA652, [0xA653]); (0xA654, [0xA655]); (0xA656, [0xA657]);
   (0xA658, [0xA659]); (0xA65A, [0xA65B]); (0xA65C, [0xA65D]);
   (0xA65E, [0xA65F]); (0xA660, [0xA661]); (0xA662, [0xA663]);
   (0xA664, [0xA665]); (0xA666, [0xA667]); (0xA668, [0xA669]);
   (0xA66A, [0xA66B]); (0xA66C, [0xA66D]); (0xA680, [0xA681]);
   (0xA682, [0xA683]); (0xA684, [0xA685]); (0xA686, [0xA687]);
   (0xA688, [0xA689]); (0xA68A, [0xA68B]); (0xA68C, [0xA68D]);
   (0xA68E, [0xA68F]); (0xA690, [0xA691]); (0xA692, [0xA693]);
   (0xA694, [0xA695]); (0xA696, [0xA697]); (0xA698, [0xA699]);
   (0xA69A, [0xA69B]); (0xA722, [0xA723]); (0xA724, [0xA725]);
   (0xA726, [0xA727]); (0xA728, [0xA729]); (0xA72A, [0xA72B]);
   (0xA72C, [0xA72D]); (0xA72E, [0xA72F]); (0xA732, [0xA733]);
   (0xA734, [0xA735]); (0xA736, [0xA737]); (0xA738, [0xA739]);
   (0xA73A, [0xA73B]); (0xA73C, [0xA73D]); (0xA73E, [0xA73F]);
   (0xA740, [0xA741]); (0xA742, [0xA743]); (0xA744, [0xA745]);
   (0xA746, [0xA747]); (0xA748, [0xA749]); (0xA74A, [0xA74B]);
   (0xA74C, [0xA74D]); (0xA74E, [0xA74F]); (0xA750, [0xA751]);
   (0xA752, [0xA753]); (0xA754, [0xA755]); (0xA756, [0xA757]);
   (0xA758, [0xA759]); (0xA75A, [0xA75B]); (0xA75C, [0xA75D]);
   (0xA75E, [0xA75F]); (0xA760, [0xA761]); (0xA762, [0xA763]);
   (0xA764, [0xA765]); (0xA766, [0xA767]); (0xA768, [0xA769]);
   (0xA76A, [0xA76B]); (0xA76C, [0xA76D]); (0xA76E, [0xA76F]);
   (0xA779, [0xA77A]); (0xA77B, [0xA77C]); (0xA77D, [0x1D79]);
   (0xA77E, [0xA77F]); (0xA780, [0xA781]); (0xA782, [0xA783]);
   (0xA784, [0xA785]); (0xA786, [0xA787]); (0xA78B, [0xA78C]);
   (0xA78D, [0x265]); (0xA790, [0xA791]); (0xA792, [0xA793]);
   (0xA796, [0xA797]); (0xA798, [0xA799]); (0xA79A, [0xA79B]);
   (0xA79C, [0xA79D]); (0xA79E, [0xA79F]); (0xA7A0, [0xA7A1]);
   (0xA7A2, [0xA7A3]); (0xA7A4, [0xA7A5]); (0xA7A6, [0xA7A7]);
   (0xA7A8, [0xA7A9]); (0xA7AA, [0x266]); (0xA7AB, [0x25C]);
   (0xA7AC, [0x261]); (0xA7AD, [0x26C]); (0xA7AE, [0x26A]); (0xA7B0, [0x29E]);
   (0xA7B1, [0x287]); (0xA7B2, [0x29D]); (0xA7B3, [0xAB53]);
   (0xA7B4, [0xA7B5]); (0xA7B6, [0xA7B7]); (0xA7B8, [0xA7B9]);
   (0xA7BA, [0xA7BB]); (0xA7BC, [0xA7BD]); (0xA7BE, [0xA7BF]);
   (0xA7C0, [0xA7C1]); (0xA7C2, [0xA7C3]); (0xA7C4, [0xA794]);
   (0xA7C5, [0x282]); (0xA7C6, [0x1D8E]); (0xA7C7, [0xA7C8]);
   (0xA7C9, [0xA7CA]); (0xA7D0, [0xA7D1]); (0xA7D6, [0xA7D7]);
   (0xA7D8, [0xA7D9]); (0xA7F5, [0xA7F6]); (0xFF21, [0xFF41]);
   (0xFF22, [0xFF42]); (0xFF23, [0xFF43]); (0xFF24, [0xFF44]);
   (0xFF25, [0xFF45])
  ].

Definition lowercase_9 : list (Z * list Z) :=
  [
   (0xFF26, [0xFF46]); (0xFF27, [0xFF47]); (0xFF28, [0xFF48]);
   (0xFF29, [0xFF49]); (0xFF2A, [0xFF4A]); (0xFF2B, [0xFF4B]);
   (0xFF2C, [0xFF4C]); (0xFF2D, [0xFF4D]); (0xFF2E, [0xFF4E]);
   (0xFF2F, [0xFF4F]); (0xFF30, [0xFF50]); (0xFF31, [0xFF51]);
   (0xFF32, [0xFF52]); (0xFF33, [0xFF53]); (0xFF34, [0xFF54]);
   (0xFF35, [0xFF55]); (0xFF36, [0xFF56]); (0xFF37, [0xFF57]);
   (0xFF38, [0xFF58]); (0xFF39, [0xFF59]); (0xFF3A, [0xFF5A]);
   (0x10400, [0x10428]); (0x10401, [0x10429]); (0x10402, [0x1042A]);
   (0x10403, [0x1042B]); (0x10404, [0x1042C]); (0x10405, [0x1042D]);
   (0x10406, [0x1042E]); (0x10407, [0x1042F]); (0x10408, [0x10430]);
   (0x10409, [0x10431]); (0x1040A, [0x10432]); (0x1040B, [0x10433]);
   (0x1040C, [0x10434]); (0x1040D, [0x10435]); (0x1040E, [0x10436]);
   (0x1040F, [0x10437]); (0x10410, [0x10438]); (0x10411, [0x10439]);
   (0x10412, [0x1043A]); (0x10413, [0x1043B]); (0x10414, [0x1043C]);
   (0x10415, [0x1043D]); (0x10416, [0x1043E]); (0x10417, [0x1043F]);
   (0x10418, [0x10440]); (0x10419, [0x10441]); (0x1041A, [0x10442]);
   (0x1041B, [0x10443]); (0x1041C, [0x10444]); (0x1041D, [0x10445]);
   (0x1041E, [0x10446]); (0x1041F, [0x10447]); (0x10420, [0x10448]);
   (0x10421, [0x10449]); (0x10422, [0x1044A]); (0x10423, [0x1044B]);
   (0x10424, [0x1044C]); (0x10425, [0x1044D]); (0x10426, [0x1044E]);
   (0x10427, [0x1044F]); (0x104B0, [0x104D8]); (0x104B1, [0x104D9]);
   (0x104B2, [0x104DA]); (0x104B3, [0x104DB]); (0x104B4, [0x104DC]);
   (0x104B5, [0x104DD]); (0x104B6, [0x104DE]); (0x104B7, [0x104DF]);
   (0x104B8, [0x104E0]); (0x104B9, [0x104E1]); (0x104BA, [0x104E2]);
   (0x104BB, [0x104E3]); (0x104BC, [0x104E4]); (0x104BD, [0x104E5]);
   (0x104BE, [0x104E6]); (0x104BF, [0x104E7]); (0x104C0, [0x104E8]);
   (0x104C1, [0x104E9]); (0x104C2, [0x104EA]); (0x104C3, [0x104EB]);
   (0x104C4, [0x104EC]); (0x104C5, [0x104ED]); (0x104C6, [0x104EE]);
   (0x104C7, [0x104EF]); (0x104C8, [0x104F0]); (0x104C9, [0x104F1]);
   (0x104CA, [0x104F2]); (0x104CB, [0x104F3]); (0x104CC, [0x104F4]);
   (0x104CD, [0x104F5]); (0x104CE, [0x104F6]); (0x104CF, [0x104F7]);
   (0x104D0, [0x104F8]); (0x104D1, [0x104F9]); (0x104D2, [0x104FA]);
   (0x104D3, [0x104FB]); (0x10570, [0x10597]); (0x10571, [0x10598]);
   (0x10572, [0x10599]); (0x10573, [0x1059A]); (0x10574, [0x1059B]);
   (0x10575, [0x1059C]); (0x10576, [0x1059D]); (0x10577, [0x1059E]);
   (0x10578, [0x1059F]); (0x10579, [0x105A0]); (0x1057A, [0x105A1]);
   (0x1057C, [0x105A3]); (0x1057D, [0x105A4]); (0x1057E, [0x105A5]);
   (0x1057F, [0x105A6]); (0x10580, [0x105A7]); (0x10581, [0x105A8]);
   (0x10582, [0x105A9]); (0x10583, [0x105AA]); (0x10584, [0x105AB]);
   (0x10585, [0x105AC]); (0x10586, [0x105AD]); (0x10587, [0x105AE]);
   (0x10588, [0x105AF]); (0x10589, [0x105B0]); (0x1058A, [0x105B1]);
   (0x1058C, [0x105B3]); (0x1058D, [0x105B4]); (0x1058E, [0x105B5]);
   (0x1058F, [0x105B6]); (0x10590, [0x105B7])
  ].

Definition lowercase_10 : list (Z * list Z) :=
  [
   (0x10591, [0x105B8]); (0x10592, [0x105B9]); (0x10594, [0x105BB]);
   (0x10595, [0x105BC]); (0x10C80, [0x10CC0]); (0x10C81, [0x10CC1]);
   (0x10C82, [0x10CC2]); (0x10C83, [0x10CC3]); (0x10C84, [0x10CC4]);
   (0x10C85, [0x10CC5]); (0x10C86, [0x10CC6]); (0x10C87, [0x10CC7]);
   (0x10C88, [0x10CC8]); (0x10C89, [0x10CC9]); (0x10C8A, [0x10CCA]);
   (0x10C8B, [0x10CCB]); (0x10C8C, [0x10CCC]); (0x10C8D, [0x10CCD]);
   (0x10C8E, [0x10CCE]); (0x10C8F, [0x10CCF]); (0x10C90, [0x10CD0]);
   (0x10C91, [0x10CD1]); (0x10C92, [0x10CD2]); (0x10C93, [0x10CD3]);
   (0x10C94, [0x10CD4]); (0x10C95, [0x10CD5]); (0x10C96, [0x10CD6]);
   (0x10C97, [0x10CD7]); (0x10C98, [0x10CD8]); (0x10C99, [0x10CD9]);
   (0x10C9A, [0x10CDA]); (0x10C9B, [0x10CDB]); (0x10C9C, [0x10CDC]);
   (0x10C9D, [0x10CDD]); (0x10C9E, [0x10CDE]); (0x10C9F, [0x10CDF]);
   (0x10CA0, [0x10CE0]); (0x10CA1, [0x10CE1]); (0x10CA2, [0x10CE2]);
   (0x10CA3, [0x10CE3]); (0x10CA4, [0x10CE4]); (0x10CA5, [0x10CE5]);
   (0x10CA6, [0x10CE6]); (0x10CA7, [0x10CE7]); (0x10CA8, [0x10CE8]);
   (0x10CA9, [0x10CE9]); (0x10CAA, [0x10CEA]); (0x10CAB, [0x10CEB]);
   (0x10CAC, [0x10CEC]); (0x10CAD, [0x10CED]); (0x10CAE, [0x10CEE]);
   (0x10CAF, [0x10CEF]); (0x10CB0, [0x10CF0]); (0x10CB1, [0x10CF1]);
   (0x10CB2, [0x10CF2]); (0x118A0, [0x118C0]); (0x118A1, [0x118C1]);
   (0x118A2, [0x118C2]); (0x118A3, [0x118C3]); (0x118A4, [0x118C4]);
   (0x118A5, [0x118C5]); (0x118A6, [0x118C6]); (0x118A7, [0x118C7]);
   (0x118A8, [0x118C8]); (0x118A9, [0x118C9]); (0x118AA, [0x118CA]);
   (0x118AB, [0x118CB]); (0x118AC, [0x118CC]); (0x118AD, [0x118CD]);
   (0x118AE, [0x118CE]); (0x118AF, [0x118CF]); (0x118B0, [0x118D0]);
   (0x118B1, [0x118D1]); (0x118B2, [0x118D2]); (0x118B3, [0x118D3]);
   (0x118B4, [0x118D4]); (0x118B5, [0x118D5]); (0x118B6, [0x118D6]);
   (0x118B7, [0x118D7]); (0x118B8, [0x118D8]); (0x118B9, [0x118D9]);
   (0x118BA, [0x118DA]); (0x118BB, [0x118DB]); (0x118BC, [0x118DC]);
   (0x118BD, [0x118DD]); (0x118BE, [0x118DE]); (0x118BF, [0x118DF]);
   (0x16E40, [0x16E60]); (0x16E41, [0x16E61]); (0x16E42, [0x16E62]);
   (0x16E43, [0x16E63]); (0x16E44, [0x16E64]); (0x16E45, [0x16E65]);
   (0x16E46, [0x16E66]); (0x16E47, [0x16E67]); (0x16E48, [0x16E68]);
   (0x16E49, [0x16E69]); (0x16E4A, [0x16E6A]); (0x16E4B, [0x16E6B]);
   (0x16E4C, [0x16E6C]); (0x16E4D, [0x16E6D]); (0x16E4E, [0x16E6E]);
   (0x16E4F, [0x16E6F]); (0x16E50, [0x16E70]); (0x16E51, [0x16E71]);
   (0x16E52, [0x16E72]); (0x16E53, [0x16E73]); (0x16E54, [0x16E74]);
   (0x16E55, [0x16E75]); (0x16E56, [0x16E76]); (0x16E57, [0x16E77]);
   (0x16E58, [0x16E78]); (0x16E59, [0x16E79]); (0x16E5A, [0x16E7A]);
   (0x16E5B, [0x16E7B]); (0x16E5C, [0x16E7C]); (0x16E5D, [0x16E7D]);
   (0x16E5E, [0x16E7E]); (0x16E5F, [0x16E7F]); (0x1E900, [0x1E922]);
   (0x1E901, [0x1E923]); (0x1E902, [0x1E924]); (0x1E903, [0x1E925]);
   (0x1E904, [0x1E926]); (0x1E905, [0x1E927]); (0x1E906, [0x1E928]);
   (0x1E907, [0x1E929]); (0x1E908, [0x1E92A])
  ].

Definition lowercase_11 : list (Z * list Z) :=
  [
   (0x1E909, [0x1E92B]); (0x1E90A, [0x1E92C]); (0x1E90B, [0x1E92D]);
   (0x1E90C, [0x1E92E]); (0x1E90D, [0x1E92F]); (0x1E90E, [0x1E930]);
   (0x1E90F, [0x1E931]); (0x1E910, [0x1E932]); (0x1E911, [0x1E933]);
   (0x1E912, [0x1E934]); (0x1E913, [0x1E935]); (0x1E914, [0x1E936]);
   (0x1E915, [0x1E937]); (0x1E916, [0x1E938]); (0x1E917, [0x1E939]);
   (0x1E918, [0x1E93A]); (0x1E919, [0x1E93B]); (0x1E91A, [0x1E93C]);
   (0x1E91B, [0x1E93D]); (0x1E91C, [0x1E93E]); (0x1E91D, [0x1E93F]);
   (0x1E91E, [0x1E940]); (0x1E91F, [0x1E941]); (0x1E920, [0x1E942]);
   (0x1E921, [0x1E943])
  ].

Definition lowercase : list (Z * list Z) :=
  lowercase_0 ++ lowercase_1 ++ lowercase_2 ++ lowercase_3 ++ lowercase_4 ++
  lowercase_5 ++ lowercase_6 ++ lowercase_7 ++ lowercase_8 ++ lowercase_9 ++
  lowercase_10 ++ lowercase_11.

Definition cased_0 : list (Z * Z) :=
  [
   (0x41, 0x5A); (0x61, 0x7A); (0xAA, 0xAA); (0xB5, 0xB5); (0xBA, 0xBA);
   (0xC0, 0xD6); (0xD8, 0xF6); (0xF8, 0x1BA); (0x1BC, 0x1BF); (0x1C4, 0x293);
   (0x295, 0x2B8); (0x2C0, 0x2C1); (0x2E0, 0x2E4); (0x345, 0x345);
   (0x370, 0x373); (0x376, 0x377); (0x37A, 0x37D); (0x37F, 0x37F);
   (0x386, 0x386); (0x388, 0x38A); (0x38C, 0x38C); (0x38E, 0x3A1);
   (0x3A3, 0x3F5); (0x3F7, 0x481); (0x48A, 0x52F); (0x531, 0x556);
   (0x560, 0x588); (0x10A0, 0x10C5); (0x10C7, 0x10C7); (0x10CD, 0x10CD);
   (0x10D0, 0x10FA); (0x10FD, 0x10FF); (0x13A0, 0x13F5); (0x13F8, 0x13FD);
   (0x1C80, 0x1C88); (0x1C90, 0x1CBA); (0x1CBD, 0x1CBF); (0x1D00, 0x1DBF);
   (0x1E00, 0x1F15); (0x1F18, 0x1F1D); (0x1F20, 0x1F45); (0x1F48, 0x1F4D);
   (0x1F50, 0x1F57); (0x1F59, 0x1F59); (0x1F5B, 0x1F5B); (0x1F5D, 0x1F5D);
   (0x1F5F, 0x1F7D); (0x1F80, 0x1FB4); (0x1FB6, 0x1FBC); (0x1FBE, 0x1FBE);
   (0x1FC2, 0x1FC4); (0x1FC6, 0x1FCC); (0x1FD0, 0x1FD3); (0x1FD6, 0x1FDB);
   (0x1FE0, 0x1FEC); (0x1FF2, 0x1FF4); (0x1FF6, 0x1FFC); (0x2071, 0x2071);
   (0x207F, 0x207F); (0x2090, 0x209C); (0x2102, 0x2102); (0x2107, 0x2107);
   (0x210A, 0x2113); (0x2115, 0x2115); (0x2119, 0x211D); (0x2124, 0x2124);
   (0x2126, 0x2126); (0x2128, 0x2128); (0x212A, 0x212D); (0x212F, 0x2134);
   (0x2139, 0x2139); (0x213C, 0x213F); (0x2145, 0x2149); (0x214E, 0x214E);
   (0x2160, 0x217F); (0x2183, 0x2184); (0x24B6, 0x24E9); (0x2C00, 0x2CE4);
   (0x2CEB, 0x2CEE); (0x2CF2, 0x2CF3); (0x2D00, 0x2D25); (0x2D27, 0x2D27);
   (0x2D2D, 0x2D2D); (0xA640, 0xA66D); (0xA680, 0xA69D); (0xA722, 0xA787);
   (0xA78B, 0xA78E); (0xA790, 0xA7CA); (0xA7D0, 0xA7D1); (0xA7D3, 0xA7D3);
   (0xA7D5, 0xA7D9); (0xA7F5, 0xA7F6); (0xA7F8, 0xA7FA); (0xAB30, 0xAB5A);
   (0xAB5C, 0xAB68); (0xAB70, 0xABBF); (0xFB00, 0xFB06); (0xFB13, 0xFB17);
   (0xFF21, 0xFF3A); (0xFF41, 0xFF5A); (0x10400, 0x1044F); (0x104B0, 0x104D3);
   (0x104D8, 0x104FB); (0x10570, 0x1057A); (0x1057C, 0x1058A);
   (0x1058C, 0x10592); (0x10594, 0x10595); (0x10597, 0x105A1);
   (0x105A3, 0x105B1); (0x105B3, 0x105B9); (0x105BB, 0x105BC);
   (0x10780, 0x10780); (0x10783, 0x10785); (0x10787, 0x107B0);
   (0x107B2, 0x107BA); (0x10C80, 0x10CB2); (0x10CC0, 0x10CF2);
   (0x118A0, 0x118DF); (0x16E40, 0x16E7F); (0x1D400, 0x1D454);
   (0x1D456, 0x1D49C); (0x1D49E, 0x1D49F); (0x1D4A2, 0x1D4A2);
   (0x1D4A5, 0x1D4A6); (0x1D4A9, 0x1D4AC); (0x1D4AE, 0x1D4B9);
   (0x1D4BB, 0x1D4BB); (0x1D4BD, 0x1D4C3)
  ].

Definition cased_1 : list (Z * Z) :=
  [
   (0x1D4C5, 0x1D505); (0x1D507, 0x1D50A); (0x1D50D, 0x1D514);
   (0x1D516, 0x1D51C); (0x1D51E, 0x1D539); (0x1D53B, 0x1D53E);
   (0x1D540, 0x1D544); (0x1D546, 0x1D546); (0x1D54A, 0x1D550);
   (0x1D552, 0x1D6A5); (0x1D6A8, 0x1D6C0); (0x1D6C2, 0x1D6DA);
   (0x1D6DC, 0x1D6FA); (0x1D6FC, 0x1D714); (0x1D716, 0x1D734);
   (0x1D736, 0x1D74E); (0x1D750, 0x1D76E); (0x1D770, 0x1D788);
   (0x1D78A, 0x1D7A8); (0x1D7AA, 0x1D7C2); (0x1D7C4, 0x1D7CB);
   (0x1DF00, 0x1DF09); (0x1DF0B, 0x1DF1E); (0x1E900, 0x1E943);
   (0x1F130, 0x1F149); (0x1F150, 0x1F169); (0x1F170, 0x1F189)
  ].

Definition cased : list (Z * Z) :=
  cased_0 ++ cased_1.

Definition case_ignorable_0 : list (Z * Z) :=
  [
   (0x27, 0x27); (0x2E, 0x2E); (0x3A, 0x3A); (0x5E, 0x5E); (0x60, 0x60);
   (0xA8, 0xA8); (0xAD, 0xAD); (0xAF, 0xAF); (0xB4, 0xB4); (0xB7, 0xB8);
   (0x2B0, 0x36F); (0x374, 0x375); (0x37A, 0x37A); (0x384, 0x385);
   (0x387, 0x387); (0x483, 0x489); (0x559, 0x559); (0x55F, 0x55F);
   (0x591, 0x5BD); (0x5BF, 0x5BF); (0x5C1, 0x5C2); (0x5C4, 0x5C5);
   (0x5C7, 0x5C7); (0x5F4, 0x5F4); (0x600, 0x605); (0x610, 0x61A);
   (0x61C, 0x61C); (0x640, 0x640); (0x64B, 0x65F); (0x670, 0x670);
   (0x6D6, 0x6DD); (0x6DF, 0x6E8); (0x6EA, 0x6ED); (0x70F, 0x70F);
   (0x711, 0x711); (0x730, 0x74A); (0x7A6, 0x7B0); (0x7EB, 0x7F5);
   (0x7FA, 0x7FA); (0x7FD, 0x7FD); (0x816, 0x82D); (0x859, 0x85B);
   (0x888, 0x888); (0x890, 0x891); (0x898, 0x89F); (0x8C9, 0x902);
   (0x93A, 0x93A); (0x93C, 0x93C); (0x941, 0x948); (0x94D, 0x94D);
   (0x951, 0x957); (0x962, 0x963); (0x971, 0x971); (0x981, 0x981);
   (0x9BC, 0x9BC); (0x9C1, 0x9C4); (0x9CD, 0x9CD); (0x9E2, 0x9E3);
   (0x9FE, 0x9FE); (0xA01, 0xA02); (0xA3C, 0xA3C); (0xA41, 0xA42);
   (0xA47, 0xA48); (0xA4B, 0xA4D); (0xA51, 0xA51); (0xA70, 0xA71);
   (0xA75, 0xA75); (0xA81, 0xA82); (0xABC, 0xABC); (0xAC1, 0xAC5);
   (0xAC7, 0xAC8); (0xACD, 0xACD); (0xAE2, 0xAE3); (0xAFA, 0xAFF);
   (0xB01, 0xB01); (0xB3C, 0xB3C); (0xB3F, 0xB3F); (0xB41, 0xB44);
   (0xB4D, 0xB4D); (0xB55, 0xB56); (0xB62, 0xB63); (0xB82, 0xB82);
   (0xBC0, 0xBC0); (0xBCD, 0xBCD); (0xC00, 0xC00); (0xC04, 0xC04);
   (0xC3C, 0xC3C); (0xC3E, 0xC40); (0xC46, 0xC48); (0xC4A, 0xC4D);
   (0xC55, 0xC56); (0xC62, 0xC63); (0xC81, 0xC81); (0xCBC, 0xCBC);
   (0xCBF, 0xCBF); (0xCC6, 0xCC6); (0xCCC, 0xCCD); (0xCE2, 0xCE3);
   (0xD00, 0xD01); (0xD3B, 0xD3C); (0xD41, 0xD44); (0xD4D, 0xD4D);
   (0xD62, 0xD63); (0xD81, 0xD81); (0xDCA, 0xDCA); (0xDD2, 0xDD4);
   (0xDD6, 0xDD6); (0xE31, 0xE31); (0xE34, 0xE3A); (0xE46, 0xE4E);
   (0xEB1, 0xEB1); (0xEB4, 0xEBC); (0xEC6, 0xEC6); (0xEC8, 0xECD);
   (0xF18, 0xF19); (0xF35, 0xF35); (0xF37, 0xF37); (0xF39, 0xF39);
   (0xF71, 0xF7E); (0xF80, 0xF84); (0xF86, 0xF87); (0xF8D, 0xF97);
   (0xF99, 0xFBC); (0xFC6, 0xFC6); (0x102D, 0x1030); (0x1032, 0x1037);
   (0x1039, 0x103A); (0x103D, 0x103E)
  ].

Definition case_ignorable_1 : list (Z * Z) :=
  [
   (0x1058, 0x1059); (0x105E, 0x1060); (0x1071, 0x1074); (0x1082, 0x1082);
   (0x1085, 0x1086); (0x108D, 0x108D); (0x109D, 0x109D); (0x10FC, 0x10FC);
   (0x135D, 0x135F); (0x1712, 0x1714); (0x1732, 0x1733); (0x1752, 0x1753);
   (0x1772, 0x1773); (0x17B4, 0x17B5); (0x17B7, 0x17BD); (0x17C6, 0x17C6);
   (0x17C9, 0x17D3); (0x17D7, 0x17D7); (0x17DD, 0x17DD); (0x180B, 0x180F);
   (0x1843, 0x1843); (0x1885, 0x1886); (0x18A9, 0x18A9); (0x1920, 0x1922);
   (0x1927, 0x1928); (0x1932, 0x1932); (0x1939, 0x193B); (0x1A17, 0x1A18);
   (0x1A1B, 0x1A1B); (0x1A56, 0x1A56); (0x1A58, 0x1A5E); (0x1A60, 0x1A60);
   (0x1A62, 0x1A62); (0x1A65, 0x1A6C); (0x1A73, 0x1A7C); (0x1A7F, 0x1A7F);
   (0x1AA7, 0x1AA7); (0x1AB0, 0x1ACE); (0x1B00, 0x1B03); (0x1B34, 0x1B34);
   (0x1B36, 0x1B3A); (0x1B3C, 0x1B3C); (0x1B42, 0x1B42); (0x1B6B, 0x1B73);
   (0x1B80, 0x1B81); (0x1BA2, 0x1BA5); (0x1BA8, 0x1BA9); (0x1BAB, 0x1BAD);
   (0x1BE6, 0x1BE6); (0x1BE8, 0x1BE9); (0x1BED, 0x1BED); (0x1BEF, 0x1BF1);
   (0x1C2C, 0x1C33); (0x1C36, 0x1C37); (0x1C78, 0x1C7D); (0x1CD0, 0x1CD2);
   (0x1CD4, 0x1CE0); (0x1CE2, 0x1CE8); (0x1CED, 0x1CED); (0x1CF4, 0x1CF4);
   (0x1CF8, 0x1CF9); (0x1D2C, 0x1D6A); (0x1D78, 0x1D78); (0x1D9B, 0x1DFF);
   (0x1FBD, 0x1FBD); (0x1FBF, 0x1FC1); (0x1FCD, 0x1FCF); (0x1FDD, 0x1FDF);
   (0x1FED, 0x1FEF); (0x1FFD, 0x1FFE); (0x200B, 0x200F); (0x2018, 0x2019);
   (0x2024, 0x2024); (0x2027, 0x2027); (0x202A, 0x202E); (0x2060, 0x2064);
   (0x2066, 0x206F); (0x2071, 0x2071); (0x207F, 0x207F); (0x2090, 0x209C);
   (0x20D0, 0x20F0); (0x2C7C, 0x2C7D); (0x2CEF, 0x2CF1); (0x2D6F, 0x2D6F);
   (0x2D7F, 0x2D7F); (0x2DE0, 0x2DFF); (0x2E2F, 0x2E2F); (0x3005, 0x3005);
   (0x302A, 0x302D); (0x3031, 0x3035); (0x303B, 0x303B); (0x3099, 0x309E);
   (0x30FC, 0x30FE); (0xA015, 0xA015); (0xA4F8, 0xA4FD); (0xA60C, 0xA60C);
   (0xA66F, 0xA672); (0xA674, 0xA67D); (0xA67F, 0xA67F); (0xA69C, 0xA69F);
   (0xA6F0, 0xA6F1); (0xA700, 0xA721); (0xA770, 0xA770); (0xA788, 0xA78A);
   (0xA7F2, 0xA7F4); (0xA7F8, 0xA7F9); (0xA802, 0xA802); (0xA806, 0xA806);
   (0xA80B, 0xA80B); (0xA825, 0xA826); (0xA82C, 0xA82C); (0xA8C4, 0xA8C5);
   (0xA8E0, 0xA8F1); (0xA8FF, 0xA8FF); (0xA926, 0xA92D); (0xA947, 0xA951);
   (0xA980, 0xA982); (0xA9B3, 0xA9B3); (0xA9B6, 0xA9B9); (0xA9BC, 0xA9BD);
   (0xA9CF, 0xA9CF); (0xA9E5, 0xA9E6); (0xAA29, 0xAA2E); (0xAA31, 0xAA32);
   (0xAA35, 0xAA36); (0xAA43, 0xAA43); (0xAA4C, 0xAA4C); (0xAA70, 0xAA70)
  ].

Definition case_ignorable_2 : list (Z * Z) :=
  [
   (0xAA7C, 0xAA7C); (0xAAB0, 0xAAB0); (0xAAB2, 0xAAB4); (0xAAB7, 0xAAB8);
   (0xAABE, 0xAABF); (0xAAC1, 0xAAC1); (0xAADD, 0xAADD); (0xAAEC, 0xAAED);
   (0xAAF3, 0xAAF4); (0xAAF6, 0xAAF6); (0xAB5B, 0xAB5F); (0xAB69, 0xAB6B);
   (0xABE5, 0xABE5); (0xABE8, 0xABE8); (0xABED, 0xABED); (0xFB1E, 0xFB1E);
   (0xFBB2, 0xFBC2); (0xFE00, 0xFE0F); (0xFE13, 0xFE13); (0xFE20, 0xFE2F);
   (0xFE52, 0xFE52); (0xFE55, 0xFE55); (0xFEFF, 0xFEFF); (0xFF07, 0xFF07);
   (0xFF0E, 0xFF0E); (0xFF1A, 0xFF1A); (0xFF3E, 0xFF3E); (0xFF40, 0xFF40);
   (0xFF70, 0xFF70); (0xFF9E, 0xFF9F); (0xFFE3, 0xFFE3); (0xFFF9, 0xFFFB);
   (0x101FD, 0x101FD); (0x102E0, 0x102E0); (0x10376, 0x1037A);
   (0x10780, 0x10785); (0x10787, 0x107B0); (0x107B2, 0x107BA);
   (0x10A01, 0x10A03); (0x10A05, 0x10A06); (0x10A0C, 0x10A0F);
   (0x10A38, 0x10A3A); (0x10A3F, 0x10A3F); (0x10AE5, 0x10AE6);
   (0x10D24, 0x10D27); (0x10EAB, 0x10EAC); (0x10F46, 0x10F50);
   (0x10F82, 0x10F85); (0x11001, 0x11001); (0x11038, 0x11046);
   (0x11070, 0x11070); (0x11073, 0x11074); (0x1107F, 0x11081);
   (0x110B3, 0x110B6); (0x110B9, 0x110BA); (0x110BD, 0x110BD);
   (0x110C2, 0x110C2); (0x110CD, 0x110CD); (0x11100, 0x11102);
   (0x11127, 0x1112B); (0x1112D, 0x11134); (0x11173, 0x11173);
   (0x11180, 0x11181); (0x111B6, 0x111BE); (0x111C9, 0x111CC);
   (0x111CF, 0x111CF); (0x1122F, 0x11231); (0x11234, 0x11234);
   (0x11236, 0x11237); (0x1123E, 0x1123E); (0x112DF, 0x112DF);
   (0x112E3, 0x112EA); (0x11300, 0x11301); (0x1133B, 0x1133C);
   (0x11340, 0x11340); (0x11366, 0x1136C); (0x11370, 0x11374);
   (0x11438, 0x1143F); (0x11442, 0x11444); (0x11446, 0x11446);
   (0x1145E, 0x1145E); (0x114B3, 0x114B8); (0x114BA, 0x114BA);
   (0x114BF, 0x114C0); (0x114C2, 0x114C3); (0x115B2, 0x115B5);
   (0x115BC, 0x115BD); (0x115BF, 0x115C0); (0x115DC, 0x115DD);
   (0x11633, 0x1163A); (0x1163D, 0x1163D); (0x1163F, 0x11640);
   (0x116AB, 0x116AB); (0x116AD, 0x116AD); (0x116B0, 0x116B5);
   (0x116B7, 0x116B7); (0x1171D, 0x1171F); (0x11722, 0x11725);
   (0x11727, 0x1172B); (0x1182F, 0x11837); (0x11839, 0x1183A);
   (0x1193B, 0x1193C); (0x1193E, 0x1193E); (0x11943, 0x11943);
   (0x119D4, 0x119D7); (0x119DA, 0x119DB); (0x119E0, 0x119E0);
   (0x11A01, 0x11A0A); (0x11A33, 0x11A38); (0x11A3B, 0x11A3E);
   (0x11A47, 0x11A47); (0x11A51, 0x11A56); (0x11A59, 0x11A5B);
   (0x11A8A, 0x11A96); (0x11A98, 0x11A99); (0x11C30, 0x11C36);
   (0x11C38, 0x11C3D); (0x11C3F, 0x11C3F); (0x11C92, 0x11CA7);
   (0x11CAA, 0x11CB0); (0x11CB2, 0x11CB3); (0x11CB5, 0x11CB6);
   (0x11D31, 0x11D36); (0x11D3A, 0x11D3A); (0x11D3C, 0x11D3D);
   (0x11D3F, 0x11D45); (0x11D47, 0x11D47); (0x11D90, 0x11D91)
  ].

Definition case_ignorable_3 : list (Z * Z) :=
  [
   (0x11D95, 0x11D95); (0x11D97, 0x11D97); (0x11EF3, 0x11EF4);
   (0x13430, 0x13438); (0x16AF0, 0x16AF4); (0x16B30, 0x16B36);
   (0x16B40, 0x16B43); (0x16F4F, 0x16F4F); (0x16F8F, 0x16F9F);
   (0x16FE0, 0x16FE1); (0x16FE3, 0x16FE4); (0x1AFF0, 0x1AFF3);
   (0x1AFF5, 0x1AFFB); (0x1AFFD, 0x1AFFE); (0x1BC9D, 0x1BC9E);
   (0x1BCA0, 0x1BCA3); (0x1CF00, 0x1CF2D); (0x1CF30, 0x1CF46);
   (0x1D167, 0x1D169); (0x1D173, 0x1D182); (0x1D185, 0x1D18B);
   (0x1D1AA, 0x1D1AD); (0x1D242, 0x1D244); (0x1DA00, 0x1DA36);
   (0x1DA3B, 0x1DA6C); (0x1DA75, 0x1DA75); (0x1DA84, 0x1DA84);
   (0x1DA9B, 0x1DA9F); (0x1DAA1, 0x1DAAF); (0x1E000, 0x1E006);
   (0x1E008, 0x1E018); (0x1E01B, 0x1E021); (0x1E023, 0x1E024);
   (0x1E026, 0x1E02A); (0x1E130, 0x1E13D); (0x1E2AE, 0x1E2AE);
   (0x1E2EC, 0x1E2EF); (0x1E8D0, 0x1E8D6); (0x1E944, 0x1E94B);
   (0x1F3FB, 0x1F3FF); (0xE0001, 0xE0001); (0xE0020, 0xE007F);
   (0xE0100, 0xE01EF)
  ].

Definition case_ignorable : list (Z * Z) :=
  case_ignorable_0 ++ case_ignorable_1 ++ case_ignorable_2 ++
  case_ignorable_3.

(** The entry of [c] in a table of mappings, [c] itself where it has none. *)
Fixpoint mapping (t : list (Z * list Z)) (c : Z) : list Z :=
  match t with
  | [] => [c]
  | (k, v) :: t' => if c =? k then v else mapping t' c
  end.

Fixpoint in_ranges (rs : list (Z * Z)) (c : Z) : bool :=
  match rs with
  | [] => false
  | (a, b) :: rs' => ((a <=? c) && (c <=? b)) || in_ranges rs' c
  end.

End Unicode.

(** [str.upper()]: each character gives way to its upper-case mapping,
    which can be several characters. *)
Definition str_upper (s : list Z) : list Z :=
  flat_map (Unicode.mapping Unicode.uppercase) s.

Fixpoint skip_case_ignorable (s : list Z) : list Z :=
  match s with
  | [] => []
  | c :: s' =>
      if Unicode.in_ranges Unicode.case_ignorable c
      then skip_case_ignorable s' else s
  end.

(** Whether a capital sigma stands at the end of a word: the nearest
    character before it that is not case-ignorable is cased, and the nearest
    one after it is not.  [before] lists the characters before it, nearest
    first. *)
Definition final_sigma (before after : list Z) : bool :=
  match skip_case_ignorable before with
  | c :: _ => Unicode.in_ranges Unicode.cased c
  | [] => false
  end
  && match skip_case_ignorable after with
     | c :: _ => negb (Unicode.in_ranges Unicode.cased c)
     | [] => true
     end.

Fixpoint lower_from (before s : list Z) : list Z :=
  match s with
  | [] => []
  | c :: s' =>
      (if c =? 0x3A3
       then [if final_sigma before s' then 0x3C2 else 0x3C3]
       else Unicode.mapping Unicode.lowercase c)
      ++ lower_from (c :: before) s'
  end.

(** [str.lower()]: each character gives way to its lower-case mapping,
    except the capital sigma [U+03A3], which becomes the final sigma
    [U+03C2] at the end of a word and [U+03C3] elsewhere. *)
Definition str_lower (s : list Z) : list Z := lower_from [] s.

(** The body of the loop for a [str] name: [ch] is [ord] of the character,
    and the table lookup raises [KeyError] from code point 1280 on, and
    earlier for the later hash types. *)
Definition hash_step_str (t : hash_type) (st : Z * Z) (ch : Z)
  : result (Z * Z) :=
  let '(seed1, seed2) := st in
  value ← table_get (Z.shiftl (hash_types t) 8 + ch);
  let seed1 := Z.land (Z.lxor value (seed1 + seed2)) 0xFFFFFFFF in
  let seed2 :=
    Z.land (ch + seed1 + seed2 + Z.shiftl seed2 5 + 3) 0xFFFFFFFF in
  mret (seed1, seed2).

Definition _hash_str (string : list Z) (t : hash_type) : result Z :=
  let seed1 := 0x7FED7FED in
  let seed2 := 0xEEEEEEEE in
  st ← rfold (hash_step_str t) (seed1, seed2) (str_upper string);
  mret (fst st).

(** A name as a caller gives it to [_hash]: a [bytes] object or a [str]. *)
Inductive Name :=
  | BytesName (b : string)
  | StrName (s : list Z).

Definition name_upper (n : Name) : Name :=
  match n with
  | BytesName b => BytesName (upper b)
  | StrName s => StrName (str_upper s)
  end.

Definition name_lower (n : Name) : Name :=
  match n with
  | BytesName b => BytesName (lower b)
  | StrName s => StrName (str_lower s)
  end.

Definition _hash_name (n : Name) (t : hash_type) : result Z :=
  match n with
  | BytesName b => _hash b t
  | StrName s => _hash_str s t
  end.

(** The code points of a [str] of 8-bit characters. *)
Definition codepoints (s : string) : list Z :=
  map ord (list_ascii_of_string s).

Definition is_ascii (s : list Z) : Prop := Forall (fun c => 0 <= c < 128) s.

(** The names on which upper-casing changes the letters [a] to [z] only:
    every [bytes] name, and the [str] names of ASCII characters. *)
Definition bytes_or_ascii (n : Name) : Prop :=
  match n with
  | BytesName _ => True
  | StrName s => is_ascii s
  end.


(** ** Byte buffers *)

(** [data[a:b]] for bounds that are not negative (the source slices with
    no others): empty when [b <= a], cut at the end of [data]. *)
Definition slice (data : bytes) (a b : Z) : bytes :=
  take (Z.to_nat (b - a)) (drop (Z.to_nat a) data).

(** [struct.unpack("<I", b)[0]]: [struct.error] unless [b] has 4 bytes. *)
Definition unpack_I (b : bytes) : result Z :=
  if (length b =? 4)%nat then Ok (le_combine b) else Raise StructError.

(** [struct.pack("<I", v)]: [struct.error] unless [0 <= v < 2^32]. *)
Definition pack_I (v : Z) : result bytes :=
  if (0 <=? v) && (v <? 2 ^ 32) then Ok (le_split 4 v) else Raise StructError.

(** [struct.unpack('<%dI' % n, b)]: [n] little-endian words, [struct.error]
    unless [b] has [4 * n] bytes. *)
Definition unpack_Is (n : Z) (b : bytes) : result (list Z) :=
  if Z.of_nat (length b) =? 4 * n
  then Ok ((fun i => le_combine (slice b (4 * i) (4 * i + 4))) <$> seqZ 0 n)
  else Raise StructError.

(** ** The cipher (lines 426-444) *)

(** The body of [for i in range(len(data) // 4)], on
    [(seed1, seed2, result)]. *)
Definition decrypt_step (data : bytes) (st : Z * Z * bytes) (i : Z)
  : result (Z * Z * bytes) :=
  let '(seed1, seed2, result) := st in
  t ← table_get (0x400 + Z.land seed1 0xFF);
  let seed2 := seed2 + t in
  let seed2 := Z.land seed2 0xFFFFFFFF in
  value ← unpack_I (slice data (i * 4) (i * 4 + 4));
  let value := Z.land (Z.lxor value (seed1 + seed2)) 0xFFFFFFFF in
  let seed1 :=
    Z.lor (Z.shiftl (Z.lnot seed1) 0x15 + 0x11111111) (Z.shiftr seed1 0x0B) in
  let seed1 := Z.land seed1 0xFFFFFFFF in
  let seed2 := Z.land (value + seed2 + Z.shiftl seed2 5 + 3) 0xFFFFFFFF in
  packed ← pack_I value;
  mret (seed1, seed2, result ++ packed).

Definition _decrypt (data : bytes) (key : Z) : result bytes :=
  let seed1 := key in
  let seed2 := 0xEEEEEEEE in
  st ← rfold (decrypt_step data) (seed1, seed2, [])
         (seqZ 0 (Z.of_nat (length data) / 4));
  mret (snd st).

(** ** The archive object and its effects *)

(** [self.file]: a binary file opened for reading, with its position. *)
Record File := {
  content : bytes;
  pos : Z }.

Record MPQArchive := {
  file : File;
  header : Header;
  hash_table : list MPQHashTableEntry;
  block_table : list MPQBlockTableEntry;
  files : option (list string) }.

(** What [print] writes. *)
Inductive event :=
  | Processing (filename : string)
  | WarnUnableToDecompress (data : bytes)
  | TtdecompOutput
  | TtdecompStderr (text : list Z)
  | WarnNoTtdecomp
  | WarnNotImplemented (c : CompressionType).

Record State := {
  self : MPQArchive;
  stdout : list event }.

(** Methods that seek, read or print: state passing with exceptions. *)
Definition M (A : Type) : Type := State -> result A * State.

#[export] Instance M_ret : MRet M := fun _ a s => (Ok a, s).
#[export] Instance M_bind : MBind M := fun _ _ f m s =>
  match m s with
  | (Ok a, s') => f a s'
  | (Raise e, s') => (Raise e, s')
  end.

Definition raise {A} (e : exn) : M A := fun s => (Raise e, s).

Definition lift {A} (r : result A) : M A := fun s => (r, s).

Definition get_self : M MPQArchive := fun s => (Ok (self s), s).

Definition print (e : event) : M unit := fun s =>
  (Ok tt, {| self := self s; stdout := stdout s ++ [e] |}).

Definition set_pos (a : MPQArchive) (p : Z) : MPQArchive :=
  {| file := {| content := content (file a); pos := p |};
     header := header a;
     hash_table := hash_table a;
     block_table := block_table a;
     files := files a |}.

(** [self.file.seek(offset)]: a negative offset is refused. *)
Definition file_seek (offset : Z) : M unit := fun s =>
  if offset <? 0 then (Raise OSError, s)
  else (Ok tt, {| self := set_pos (self s) offset; stdout := stdout s |}).

(** [self.file.read(n)]: at most [n] bytes from the position, which moves
    past them; everything that is left when [n] is negative. *)
Definition file_read (n : Z) : M bytes := fun s =>
  let f := file (self s) in
  let rest := drop (Z.to_nat (pos f)) (content f) in
  let data := if n <? 0 then rest else take (Z.to_nat n) rest in
  (Ok data,
   {| self := set_pos (self s) (pos f + Z.of_nat (length data));
      stdout := stdout s |}).

(** A loop [for x in l: acc = f(acc, x)] in [M]. *)
Fixpoint mfold {A B} (f : A -> B -> M A) (acc : A) (l : list B) : M A :=
  match l with
  | [] => mret acc
  | x :: l' => acc' ← f acc x; mfold f acc' l'
  end.

(** ** Resolving a file name (lines 198-212) *)

Definition get_hash_table_entry (a : MPQArchive) (filename : string)
  : result (option MPQHashTableEntry) :=
  h_a ← _hash filename HASH_A;
  h_b ← _hash filename HASH_B;
  mret (List.find (fun entry => (hash_a entry =? h_a) && (hash_b entry =? h_b))
          (hash_table a)).

(** [filename.replace('\\', '//')]. *)
Fixpoint replace_backslash (s : string) : string :=
  match s with
  | EmptyString => EmptyString
  | String c s' =>
      if Ascii.eqb c "\"%char
      then String "/"%char (String "/"%char (replace_backslash s'))
      else String c (replace_backslash s')
  end.

(** [os.path.basename] (POSIX): what follows the last ['/']; [acc] is the
    component read so far. *)
Fixpoint basename_from (acc s : string) : string :=
  match s with
  | EmptyString => acc
  | String c s' =>
      if Ascii.eqb c "/"%char then basename_from EmptyString s'
      else basename_from (acc ++ String c EmptyString)%string s'
  end.

Definition basename (s : string) : string := basename_from EmptyString s.

(** [get_file_key] on a [str] name.  On a [bytes] name the source raises
    [TypeError] at [filename.replace], whose arguments are [str]. *)
Definition get_file_key (a : MPQArchive) (filename : string)
    (block_entry : MPQBlockTableEntry) (strip : bool) : result Z :=
  let basename :=
    if strip then basename (replace_backslash filename) else filename in
  key ← _hash basename TABLE;
  if has_flag (flags block_entry) MPQ_FILE_FIX_KEY then
    let key := key + (offset block_entry - offset_ (header a)) in
    let key := Z.lxor key (size block_entry) in
    mret key
  else mret key.

(** [l[i]]: a negative index counts from the end, [IndexError] out of
    range. *)
Definition py_index {A} (l : list A) (i : Z) : result A :=
  let i := if i <? 0 then i + Z.of_nat (length l) else i in
  if i <? 0 then Raise IndexError
  else of_option IndexError (l !! Z.to_nat i).

(** ** Reading a file (lines 214-332) *)

(** What [bz2.decompress] raises: [ValueError] when the data end before the
    end-of-stream marker, [OSError] when they are not a bzip2 stream. *)
Inductive bz2_failure :=
  | Bz2Truncated
  | Bz2Invalid.

(** What is not part of this program: [zlib.decompress(_, 15)] ([None] where
    it raises [zlib.error]), [bz2.decompress], the [ttdecomp] tool ([None]
    when [shutil.which] does not find it; otherwise its return code, standard
    output and standard error on a given input) and [bytes.decode] ([None]
    where it raises [UnicodeDecodeError], which is a [ValueError]; the text
    as code points otherwise).  The temporary file and the process are taken
    to be created without error. *)
Class Codecs := {
  zlib_decompress : bytes -> option bytes;
  bz2_decompress : bytes -> bytes + bz2_failure;
  which_ttdecomp : option (bytes -> Z * bytes * bytes);
  decode : bytes -> option (list Z) }.

Section ReadFile.
Context `{Codecs}.

(** The nested function [decompress] (lines 218-263). *)
Definition decompress (data : bytes) : M bytes :=
  match data with
  | [] => raise IndexError
  | tag :: data =>
      match CompressionType_of (byte.unsigned tag) with
      | None => raise ValueError
      | Some NONE => mret data
      | Some DEFLATE => lift (of_option ZlibError (zlib_decompress data))
      | Some BZIP2 =>
          match bz2_decompress data with
          | inl data => mret data
          | inr Bz2Truncated => raise ValueError
          | inr Bz2Invalid => raise OSError
          end
      | Some IMPLODE =>
          match which_ttdecomp with
          | Some ttdecomp =>
              let '(returncode, proc_stdout, err_output) := ttdecomp data in
              _ ← (if returncode =? 0 then mret tt
                   else
                     _ ← print (WarnUnableToDecompress data);
                     match err_output with
                     | [] => mret tt
                     | _ :: _ =>
                         _ ← print TtdecompOutput;
                         text ← lift (of_option ValueError
                                        (decode err_output));
                         print (TtdecompStderr text)
                     end);
              mret proc_stdout
          | None =>
              _ ← print WarnNoTtdecomp;
              mret data
          end
      | Some compression_type =>
          _ ← print (WarnNotImplemented compression_type);
          mret data
      end
  end.

(** Lines 285-295. *)
Definition sector_size (h : Header) : Z := Z.shiftl 512 (sector_size_shift h).

Definition crc (block_entry : MPQBlockTableEntry) : bool :=
  has_flag (flags block_entry) MPQ_FILE_SECTOR_CRC.

Definition sectors (h : Header) (block_entry : MPQBlockTableEntry) : Z :=
  let sectors := size block_entry / sector_size h + 1 in
  if crc block_entry then sectors + 1 else sectors.

Definition n_offsets (h : Header) (block_entry : MPQBlockTableEntry) : Z :=
  sectors h block_entry + 1.

(** Lines 296-299: the sector offset table. *)
Definition read_positions (h : Header) (block_entry : MPQBlockTableEntry)
    (file_data : bytes) (key : Z) : result (list Z) :=
  let n_offsets := n_offsets h block_entry in
  let offset_table := slice file_data 0 (4 * n_offsets) in
  offset_table ←
    (if has_flag (flags block_entry) MPQ_FILE_ENCRYPTED
     then _decrypt offset_table (key - 1)
     else mret offset_table);
  unpack_Is n_offsets offset_table.

(** Lines 313-316: [sector.startswith(b'\x00\x06')]. *)
Definition implode_quirk (block_flags : Z) (sector : bytes) : Z * bytes :=
  let flags := block_flags in
  match sector with
  | x00 :: x06 :: _ =>
      (Z.lor flags MPQ_FILE_COMPRESS,
       byte.of_Z (CompressionType_value IMPLODE) :: sector)
  | _ => (flags, sector)
  end.

(** The body of [for i in range(...)] (lines 304-323), on
    [(sector_bytes_left, result)]. *)
Definition sector_step (force_decompress : bool) (file_data : bytes)
    (block_entry : MPQBlockTableEntry) (key : Z) (positions : list Z)
    (st : Z * bytes) (i : Z) : M (Z * bytes) :=
  let '(sector_bytes_left, result) := st in
  p0 ← lift (py_index positions i);
  p1 ← lift (py_index positions (i + 1));
  let sector := slice file_data p0 p1 in
  sector ←
    (if has_flag (flags block_entry) MPQ_FILE_ENCRYPTED
     then lift (_decrypt sector (key + i))
     else mret sector);
  let '(flags, sector) := implode_quirk (flags block_entry) sector in
  sector ←
    (if has_flag flags MPQ_FILE_COMPRESS
        && (force_decompress
            || (Z.of_nat (length sector) <? sector_bytes_left))
     then decompress sector
     else mret sector);
  let sector_bytes_left := sector_bytes_left - Z.of_nat (length sector) in
  mret (sector_bytes_left, result ++ sector).

(** Lines 283-324: a file made of sectors. *)
Definition read_sectors (force_decompress : bool) (file_data : bytes)
    (block_entry : MPQBlockTableEntry) (key : Z) : M bytes :=
  a ← get_self;
  positions ← lift (read_positions (header a) block_entry file_data key);
  let sector_bytes_left := size block_entry in
  st ← mfold (sector_step force_decompress file_data block_entry key positions)
         (sector_bytes_left, [])
         (seqZ 0 (Z.of_nat (length positions)
                  - (if crc block_entry then 2 else 1)));
  mret (snd st).

(** Lines 326-330: a single unit file. *)
Definition read_single_unit (force_decompress : bool) (file_data : bytes)
    (block_entry : MPQBlockTableEntry) : M bytes :=
  if has_flag (flags block_entry) MPQ_FILE_COMPRESS
     && (force_decompress
         || (archived_size block_entry <? size block_entry))
  then decompress file_data
  else mret file_data.

(** Lines 275-332: the block of an entry that exists and is not empty. *)
Definition read_block (filename : string) (force_decompress : bool)
    (block_entry : MPQBlockTableEntry) : M bytes :=
  a ← get_self;
  let offset := offset block_entry + offset_ (header a) in
  _ ← file_seek offset;
  file_data ← file_read (archived_size block_entry);
  (* [key] is bound only for an encrypted file, and read only for one *)
  a ← get_self;
  key ←
    (if has_flag (flags block_entry) MPQ_FILE_ENCRYPTED
     then lift (get_file_key a filename block_entry true)
     else mret 0);
  if negb (has_flag (flags block_entry) MPQ_FILE_SINGLE_UNIT)
  then read_sectors force_decompress file_data block_entry key
  else read_single_unit force_decompress file_data block_entry.

(** [None] is Python's [None]. *)
Definition read_file (filename : string) (force_decompress : bool)
  : M (option bytes) :=
  _ ← print (Processing filename);
  a ← get_self;
  hash_entry ← lift (get_hash_table_entry a filename);
  match hash_entry with
  | None => mret None
  | Some hash_entry =>
      a ← get_self;
      block_entry ←
        lift (py_index (block_table a) (block_table_index hash_entry));
      if has_flag (flags block_entry) MPQ_FILE_EXISTS then
        if archived_size block_entry =? 0 then mret None
        else
          file_data ← read_block filename force_decompress block_entry;
          mret (Some file_data)
      else mret None
  end.

(** Lines 334-340.  A list is true when it is not empty. *)
Definition truthy (files : option (list string)) : bool :=
  match files with Some (_ :: _) => true | _ => false end.

Definition extract (files_arg : option (list string))
  : M (gmap string (option bytes)) :=
  a ← get_self;
  let files := if truthy files_arg then files_arg else files a in
  match files with
  | Some (f :: l) =>
      mfold (fun d f => data ← read_file f false; mret (<[f := data]> d))
        ∅ (f :: l)
  | _ => raise RuntimeError
  end.

End ReadFile.

(** ** Opening an archive (lines 113-196)

    [struct] formats without a byte order mark ('q2h', '2I2HI', '4I') use
    the byte order and alignment of the machine: they are modelled for a
    little-endian machine where ['q2h'] takes 12 bytes and the two entry
    formats 16, as on x86 and ARM. *)

#[export] Instance byte_eq_dec : EqDecision byte := Byte.byte_eq_dec.

(** Methods that use only [self.file]: state passing over the file. *)
Definition FM (A : Type) : Type := File -> result A * File.

#[export] Instance FM_ret : MRet FM := fun _ a f => (Ok a, f).
#[export] Instance FM_bind : MBind FM := fun _ _ k m f =>
  match m f with
  | (Ok a, f') => k a f'
  | (Raise e, f') => (Raise e, f')
  end.

Definition fraise {A} (e : exn) : FM A := fun f => (Raise e, f).

Definition flift {A} (r : result A) : FM A := fun f => (r, f).

(** [self.file.seek(offset)] and [self.file.read(n)], as [file_seek] and
    [file_read]. *)
Definition seek (offset : Z) : FM unit := fun f =>
  if offset <? 0 then (Raise OSError, f)
  else (Ok tt, {| content := content f; pos := offset |}).

Definition read (n : Z) : FM bytes := fun f =>
  let rest := drop (Z.to_nat (pos f)) (content f) in
  let data := if n <? 0 then rest else take (Z.to_nat n) rest in
  (Ok data, {| content := content f; pos := pos f + Z.of_nat (length data) |}).

(** A list comprehension [[f(x) for x in l]] whose body may raise. *)
Fixpoint rmap {A B} (f : A -> result B) (l : list A) : result (list B) :=
  match l with
  | [] => Ok []
  | x :: l' => y ← f x; ys ← rmap f l'; mret (y :: ys)
  end.

(** A little-endian word read as a signed number of [bits] bits. *)
Definition signed (bits : Z) (v : Z) : Z :=
  if v <? 2 ^ (bits - 1) then v else v - 2 ^ bits.

(** The named tuple [MPQFileHeader] and [struct.unpack('<4s2I2H4I', data)]. *)
Module MPQFileHeader.
Record t := {
  magic : bytes;
  header_size : Z;
  archive_size : Z;
  format_version : Z;
  sector_size_shift : Z;
  hash_table_offset : Z;
  block_table_offset : Z;
  hash_table_entries : Z;
  block_table_entries : Z }.

Definition unpack (data : bytes) : result t :=
  if (length data =? 32)%nat then
    Ok {| magic := slice data 0 4;
          header_size := le_combine (slice data 4 8);
          archive_size := le_combine (slice data 8 12);
          format_version := le_combine (slice data 12 14);
          sector_size_shift := le_combine (slice data 14 16);
          hash_table_offset := le_combine (slice data 16 20);
          block_table_offset := le_combine (slice data 20 24);
          hash_table_entries := le_combine (slice data 24 28);
          block_table_entries := le_combine (slice data 28 32) |}
  else Raise StructError.
End MPQFileHeader.

(** [struct.unpack('q2h', data)] into [MPQFileHeaderExt]. *)
Definition unpack_MPQFileHeaderExt (data : bytes) : result MPQFileHeaderExt :=
  if (length data =? 12)%nat then
    Ok {| extended_block_table_offset := signed 64 (le_combine (slice data 0 8));
          hash_table_offset_high := signed 16 (le_combine (slice data 8 10));
          block_table_offset_high := signed 16 (le_combine (slice data 10 12)) |}
  else Raise StructError.

(** [struct.unpack('2I2HI', data)] into [MPQHashTableEntry]. *)
Definition unpack_MPQHashTableEntry (data : bytes) : result MPQHashTableEntry :=
  if (length data =? 16)%nat then
    Ok {| hash_a := le_combine (slice data 0 4);
          hash_b := le_combine (slice data 4 8);
          locale := le_combine (slice data 8 10);
          platform := le_combine (slice data 10 12);
          block_table_index := le_combine (slice data 12 16) |}
  else Raise StructError.

(** [struct.unpack('4I', data)] into [MPQBlockTableEntry]. *)
Definition unpack_MPQBlockTableEntry (data : bytes)
  : result MPQBlockTableEntry :=
  if (length data =? 16)%nat then
    Ok {| offset := le_combine (slice data 0 4);
          archived_size := le_combine (slice data 4 8);
          size := le_combine (slice data 8 12);
          flags := le_combine (slice data 12 16) |}
  else Raise StructError.

(** The nested function [read_mpq_header] (lines 135-147): the fields of
    the header and, for [format_version] 1, the extended ones.  An offset
    that is [None] or 0 is not sought. *)
Definition read_mpq_header (offset : option Z)
  : FM (MPQFileHeader.t * option MPQFileHeaderExt) :=
  _ ← (match offset with
       | Some offset => if offset =? 0 then mret tt else seek offset
       | None => mret tt
       end);
  data ← read 32;
  header ← flift (MPQFileHeader.unpack data);
  if MPQFileHeader.format_version header =? 1 then
    data ← read 12;
    extended_header ← flift (unpack_MPQFileHeaderExt data);
    mret (header, Some extended_header)
  else mret (header, None).

(** The nested function [read_mpq_user_data_header] (lines 149-155). *)
Definition read_mpq_user_data_header : FM MPQUserDataHeader :=
  data ← read 16;
  if (length data =? 16)%nat then
    let size := le_combine (slice data 12 16) in
    content ← read size;
    mret {| ud_magic := slice data 0 4;
            user_data_size := le_combine (slice data 4 8);
            mpq_header_offset := le_combine (slice data 8 12);
            user_data_header_size := size;
            ud_content := content |}
  else fraise StructError.

(** The dictionary made of the header, its extension, the key ['offset']
    and the key ['user_data_header']. *)
Definition make_header (hx : MPQFileHeader.t * option MPQFileHeaderExt)
    (offset : Z) (udh : option MPQUserDataHeader) : Header :=
  {| magic := MPQFileHeader.magic (fst hx);
     header_size := MPQFileHeader.header_size (fst hx);
     archive_size := MPQFileHeader.archive_size (fst hx);
     format_version := MPQFileHeader.format_version (fst hx);
     sector_size_shift := MPQFileHeader.sector_size_shift (fst hx);
     hash_table_offset := MPQFileHeader.hash_table_offset (fst hx);
     block_table_offset := MPQFileHeader.block_table_offset (fst hx);
     hash_table_entries := MPQFileHeader.hash_table_entries (fst hx);
     block_table_entries := MPQFileHeader.block_table_entries (fst hx);
     header_ext := snd hx;
     offset_ := offset;
     user_data_header := udh |}.

Definition read_header : FM Header :=
  magic ← read 4;
  _ ← seek 0;
  if bool_decide (magic = [x4d; x50; x51; x1a]) then
    header ← read_mpq_header None;
    mret (make_header header 0 None)
  else if bool_decide (magic = [x4d; x50; x51; x1b]) then
    user_data_header ← read_mpq_user_data_header;
    header ← read_mpq_header (Some (mpq_header_offset user_data_header));
    mret (make_header header (mpq_header_offset user_data_header)
            (Some user_data_header))
  else fraise ValueError.

(** What [read_table] returns: a list of entries of one of the two
    classes. *)
Inductive table :=
  | HashTable (entries : list MPQHashTableEntry)
  | BlockTable (entries : list MPQBlockTableEntry).

(** Lines 173-196; [h] is [self.header]. *)
Definition read_table (h : Header) (table_type : string) : FM table :=
  if String.eqb table_type "hash" then
    let table_offset := hash_table_offset h in
    let table_entries := hash_table_entries h in
    key ← flift (_hash "(hash table)" TABLE);
    _ ← seek (table_offset + offset_ h);
    data ← read (table_entries * 16);
    data ← flift (_decrypt data key);
    entries ← flift (rmap (fun position =>
                 unpack_MPQHashTableEntry
                   (slice data (position * 16) (position * 16 + 16)))
               (seqZ 0 table_entries));
    mret (HashTable entries)
  else if String.eqb table_type "block" then
    let table_offset := block_table_offset h in
    let table_entries := block_table_entries h in
    key ← flift (_hash "(block table)" TABLE);
    _ ← seek (table_offset + offset_ h);
    data ← read (table_entries * 16);
    data ← flift (_decrypt data key);
    entries ← flift (rmap (fun position =>
                 unpack_MPQBlockTableEntry
                   (slice data (position * 16) (position * 16 + 16)))
               (seqZ 0 table_entries));
    mret (BlockTable entries)
  else fraise ValueError.

(** [bytes.splitlines()]: lines end at [\n], [\r] or [\r\n]; [line] is the
    line read so far, [cr] tells that the last byte was a [\r]. *)
Fixpoint splitlines_from (line : bytes) (cr : bool) (data : bytes)
  : list bytes :=
  match data with
  | [] => if cr then [] else match line with [] => [] | _ => [line] end
  | b :: data' =>
      if bool_decide (b = x0a) then
        if cr then splitlines_from [] false data'
        else line :: splitlines_from [] false data'
      else if bool_decide (b = x0d) then
        line :: splitlines_from [] true data'
      else splitlines_from (if cr then [b] else line ++ [b]) false data'
  end.

Definition splitlines (data : bytes) : list bytes :=
  splitlines_from [] false data.

Definition set_files (a : MPQArchive) (l : option (list string))
  : MPQArchive :=
  {| file := file a;
     header := header a;
     hash_table := hash_table a;
     block_table := block_table a;
     files := l |}.

(** How [__init__] ends: with the object, with an exception of the readers,
    or with the [AttributeError] of [None.splitlines()]. *)
Inductive opened :=
  | Opened (a : MPQArchive)
  | OpenRaise (e : exn)
  | OpenAttributeError.

Section Open.
Context `{Codecs}.

(** Lines 113-130 for a file object [f] that is open; the second component
    is what has been printed.  The lines of the list file are [bytes]
    objects; they are kept as names of 8-bit characters, the type of the
    names that [read_file] takes here.  [read_table('hash')] returns hash entries and
    [read_table('block')] block entries: the two branches for the other
    class are never taken. *)
Definition __init__ (f : File) (listfile : bool) : opened * list event :=
  match read_header f with
  | (Raise e, _) => (OpenRaise e, [])
  | (Ok header, f) =>
      match read_table header "hash" f with
      | (Ok (HashTable hash_table), f) =>
          match read_table header "block" f with
          | (Ok (BlockTable block_table), f) =>
              let a := {| file := f; header := header;
                          hash_table := hash_table;
                          block_table := block_table;
                          files := None |} in
              if listfile then
                match read_file "(listfile)" false {| self := a; stdout := [] |}
                with
                | (Ok (Some data), s) =>
                    (Opened
                       (set_files (self s)
                          (Some (string_of_list_byte <$> splitlines data))),
                     stdout s)
                | (Ok None, s) => (OpenAttributeError, stdout s)
                | (Raise e, s) => (OpenRaise e, stdout s)
                end
              else (Opened a, [])
          | (Ok (HashTable _), _) => (OpenRaise ValueError, [])
          | (Raise e, _) => (OpenRaise e, [])
          end
      | (Ok (BlockTable _), _) => (OpenRaise ValueError, [])
      | (Raise e, _) => (OpenRaise e, [])
      end
  end.

End Open.

(** ** Statements checked against the code *)

(** An entry of the table that is present and is a 32-bit word. *)
Definition table_ok (i : Z) : bool :=
  match encryption_table !! i with
  | Some v => (0 <=? v) && (v <? 2 ^ 32)
  | None => false
  end.

(** C4 as the specification states it: the output is as long as the
    input and ends with the input's bytes after the last full word. *)
Definition decrypt_keeps_length_and_tail (data : bytes) (key : Z) : Prop :=
  exists out,
    _decrypt data key = Ok out
    /\ length out = length data
    /\ drop (4 * (length data / 4)) out = drop (4 * (length data / 4)) data.

(** C3 as the specification states it, for an entry with [FIX_KEY] set: the
    key is [(raw_key + offset) XOR size] in 32-bit arithmetic, [offset]
    being the field of the block entry. *)
Definition file_key_as_specified (a : MPQArchive) (filename : string)
    (block_entry : MPQBlockTableEntry) : Prop :=
  has_flag (flags block_entry) MPQ_FILE_FIX_KEY = true ->
  exists raw_key,
    _hash (basename (replace_backslash filename)) TABLE = Ok raw_key
    /\ get_file_key a filename block_entry true
       = Ok (Z.lxor ((raw_key + offset block_entry) mod 2 ^ 32)
               (size block_entry)).

(** Sample inputs: an archive whose header is at offset [base] (0 for the
    classic layout, the end of the user data block for [MPQ\x1b]), with one
    encrypted file keyed by position. *)
Definition sample_header (base : Z) : Header :=
  {| magic := [x4d; x50; x51; x1a];
     header_size := 32;
     archive_size := 4096;
     format_version := 0;
     sector_size_shift := 3;
     hash_table_offset := 2048;
     block_table_offset := 2064;
     hash_table_entries := 1;
     block_table_entries := 1;
     header_ext := None;
     offset_ := base;
     user_data_header := None |}.

Definition sample_block : MPQBlockTableEntry :=
  {| offset := 2048;
     archived_size := 16;
     size := 100;
     flags := Z.lor MPQ_FILE_EXISTS (Z.lor MPQ_FILE_ENCRYPTED MPQ_FILE_FIX_KEY) |}.

Definition sample_archive (base : Z) : MPQArchive :=
  {| file := {| content := []; pos := 0 |};
     header := sample_header base;
     hash_table := [];
     block_table := [sample_block];
     files := None |}.

(** The codecs of a machine without [ttdecomp], on which [zlib] and [bz2]
    refuse every input: enough to run the reader on stored data. *)
Definition no_codecs : Codecs :=
  {| zlib_decompress := fun _ => None;
     bz2_decompress := fun _ => inr Bz2Invalid;
     which_ttdecomp := None;
     decode := fun _ => None |}.

(** A block of 5000 bytes in sectors of 4096 ([sector_size_shift] 3). *)
Definition sectored_block : MPQBlockTableEntry :=
  {| offset := 32; archived_size := 5012; size := 5000;
     flags := MPQ_FILE_EXISTS |}.

(** A blob that starts with the three offsets 12, 4108 and 5012. *)
Definition sectored_blob : bytes :=
  le_split 4 12 ++ le_split 4 4108 ++ le_split 4 5012 ++ repeat x41 5000.

(** What [read_header] and [read_table] parsed when the archive was
    opened. *)
Definition parsed (a : MPQArchive)
  : Header * list MPQHashTableEntry * list MPQBlockTableEntry :=
  (header a, hash_table a, block_table a).

(** A method that leaves the parsed header and tables as they were, also
    when it raises. *)
Definition preserves_parsed {A} (m : M A) : Prop :=
  forall s, parsed (self (snd (m s))) = parsed (self s).

(** An archive with one stored member, [(listfile)], of ten bytes at offset
    32; [(attributes)] has a block without [EXISTS], [(signature)] a block
    of archived size 0, and the entry of [(user data)] names a block that
    the table does not have. *)
Definition listfile_archive : MPQArchive :=
  {| file := {| content := repeat x00 32 ++ repeat x61 10; pos := 0 |};
     header := sample_header 0;
     hash_table :=
       [ {| hash_a := 0xFD657910; hash_b := 0x4E9B98A7; locale := 0;
            platform := 0; block_table_index := 0 |};
         {| hash_a := 3548657611; hash_b := 132115180; locale := 0;
            platform := 0; block_table_index := 1 |};
         {| hash_a := 3633698129; hash_b := 1663536459; locale := 0;
            platform := 0; block_table_index := 2 |};
         {| hash_a := 1833577307; hash_b := 2402623503; locale := 0;
            platform := 0; block_table_index := 0xFFFFFFFF |} ];
     block_table :=
       [ {| offset := 32; archived_size := 10; size := 10;
            flags := Z.lor MPQ_FILE_EXISTS MPQ_FILE_SINGLE_UNIT |};
         {| offset := 42; archived_size := 7; size := 7;
            flags := MPQ_FILE_DELETE_MARKER |};
         {| offset := 42; archived_size := 0; size := 0;
            flags := Z.lor MPQ_FILE_EXISTS MPQ_FILE_SINGLE_UNIT |} ];
     files := Some ["(listfile)"%string] |}.

(** ** The cipher on words

    [_decrypt] seen word by word, and the cipher it undoes; both are used
    to state what the loop of [_decrypt] computes and that it loses
    nothing. *)

(** The little-endian words of a buffer (a tail shorter than a word is
    left out). *)
Definition words (data : bytes) : list Z :=
  (fun i => le_combine (slice data (i * 4) (i * 4 + 4)))
    <$> seqZ 0 (Z.of_nat (length data) / 4).

Definition word32 (w : Z) : Prop := 0 <= w < 2 ^ 32.

Definition unwords (ws : list Z) : bytes := flat_map (le_split 4) ws.

(** [seed2] after the table is added, and the two seeds after a word. *)
Definition mix_seed2 (seed1 seed2 : Z) : Z :=
  Z.land (seed2 + match encryption_table !! (0x400 + Z.land seed1 0xFF) with
                  | Some t => t
                  | None => 0
                  end) 0xFFFFFFFF.

Definition next_seed1 (seed1 : Z) : Z :=
  Z.land (Z.lor (Z.shiftl (Z.lnot seed1) 0x15 + 0x11111111)
                (Z.shiftr seed1 0x0B)) 0xFFFFFFFF.

Definition next_seed2 (value seed2 : Z) : Z :=
  Z.land (value + seed2 + Z.shiftl seed2 5 + 3) 0xFFFFFFFF.

Fixpoint decrypt_words (seed1 seed2 : Z) (ws : list Z) : list Z :=
  match ws with
  | [] => []
  | w :: ws' =>
      let seed2 := mix_seed2 seed1 seed2 in
      let value := Z.land (Z.lxor w (seed1 + seed2)) 0xFFFFFFFF in
      value :: decrypt_words (next_seed1 seed1) (next_seed2 value seed2) ws'
  end.

(** The inverse: the word written for a plain [value] is the one that
    [decrypt_words] turns back into it. *)
Fixpoint encrypt_words (seed1 seed2 : Z) (values : list Z) : list Z :=
  match values with
  | [] => []
  | value :: values' =>
      let seed2 := mix_seed2 seed1 seed2 in
      Z.land (Z.lxor value (seed1 + seed2)) 0xFFFFFFFF
      :: encrypt_words (next_seed1 seed1) (next_seed2 value seed2) values'
  end.

Definition encrypt (data : bytes) (key : Z) : bytes :=
  unwords (encrypt_words key 0xEEEEEEEE (words data)).

(** ** Stored files *)

(** [sector.startswith(b'\x00\x06')]. *)
Definition starts_00_06 (sector : bytes) : bool :=
  match sector with
  | x00 :: x06 :: _ => true
  | _ => false
  end.

(** The bytes of the blob between two consecutive offsets of the table. *)
Definition sector_at (file_data : bytes) (positions : list Z) (i : Z)
  : bytes :=
  slice file_data (nth (Z.to_nat i) positions 0)
    (nth (Z.to_nat (i + 1)) positions 0).

(** The state after [seek(o)] and a [read] that returned [n] bytes. *)
Definition after_read (s : State) (o : Z) (n : nat) : State :=
  {| self := set_pos (self s) (o + Z.of_nat n); stdout := stdout s |}.

(** The bytes that [read(n)] returns at offset [o] of the file. *)
Definition blob_at (a : MPQArchive) (o n : Z) : bytes :=
  let rest := drop (Z.to_nat o) (content (file a)) in
  if n <? 0 then rest else take (Z.to_nat n) rest.

(** An archive whose [(listfile)] is stored in one sector of eight bytes
    after an offset table of two words. *)
Definition sectored_archive : MPQArchive :=
  {| file :=
       {| content := repeat x00 32 ++ le_split 4 8 ++ le_split 4 16
                     ++ [x61; x0d; x0a; x62; x0a; x63; x0d; x64];
          pos := 0 |};
     header := sample_header 0;
     hash_table :=
       [ {| hash_a := 0xFD657910; hash_b := 0x4E9B98A7; locale := 0;
            platform := 0; block_table_index := 0 |} ];
     block_table :=
       [ {| offset := 32; archived_size := 16; size := 8;
            flags := MPQ_FILE_EXISTS |} ];
     files := None |}.

(** An archive whose [(listfile)] is one sector of five bytes that starts
    with [00 06], after an offset table of two words, in a block that has
    neither [COMPRESS] nor [ENCRYPTED] and declares [size] bytes. *)
Definition imploded_archive (size : Z) : MPQArchive :=
  {| file :=
       {| content := repeat x00 32 ++ le_split 4 8 ++ le_split 4 13
                     ++ [x00; x06; x41; x42; x43];
          pos := 0 |};
     header := sample_header 0;
     hash_table :=
       [ {| hash_a := 0xFD657910; hash_b := 0x4E9B98A7; locale := 0;
            platform := 0; block_table_index := 0 |} ];
     block_table :=
       [ {| offset := 32; archived_size := 13; size := size;
            flags := MPQ_FILE_EXISTS |} ];
     files := None |}.

(** A machine whose [ttdecomp] succeeds and writes its input twice: it
    shows what the dispatcher hands to the tool. *)
Definition doubling_ttdecomp : Codecs :=
  {| zlib_decompress := fun _ => None;
     bz2_decompress := fun _ => inr Bz2Invalid;
     which_ttdecomp := Some (fun data => (0, data ++ data, []));
     decode := fun _ => None |}.

(** ** What a read changes, and what it depends on *)

(** Two states of the archive object that differ at most in the position of
    the file. *)
Definition same_archive (a a' : MPQArchive) : Prop :=
  set_pos a 0 = set_pos a' 0.

(** A method that changes at most the position of the file and what is
    printed, and never raises [RuntimeError]. *)
Definition tame {A} (m : M A) : Prop :=
  forall s,
    same_archive (self (snd (m s))) (self s)
    /\ fst (m s) <> Raise RuntimeError.

(** A method whose result and whose effect on the archive object do not
    depend on what has been printed. *)
Definition stdout_blind {A} (m : M A) : Prop :=
  forall s s',
    self s = self s' ->
    fst (m s) = fst (m s') /\ self (snd (m s)) = self (snd (m s')).

(** The names that [extract] reads: its argument when that is a list that
    is not empty, the list of the archive otherwise. *)
Definition extract_names (a : MPQArchive) (files_arg : option (list string))
  : option (list string) :=
  if truthy files_arg then files_arg else files a.

(** ** The layout of the headers in the file *)

(** The fields of [MPQFileHeader] at offset [p] of the content [c]. *)
Definition header_at (c : bytes) (p : Z) : MPQFileHeader.t :=
  {| MPQFileHeader.magic := slice c p (p + 4);
     MPQFileHeader.header_size := le_combine (slice c (p + 4) (p + 8));
     MPQFileHeader.archive_size := le_combine (slice c (p + 8) (p + 12));
     MPQFileHeader.format_version := le_combine (slice c (p + 12) (p + 14));
     MPQFileHeader.sector_size_shift := le_combine (slice c (p + 14) (p + 16));
     MPQFileHeader.hash_table_offset := le_combine (slice c (p + 16) (p + 20));
     MPQFileHeader.block_table_offset := le_combine (slice c (p + 20) (p + 24));
     MPQFileHeader.hash_table_entries := le_combine (slice c (p + 24) (p + 28));
     MPQFileHeader.block_table_entries :=
       le_combine (slice c (p + 28) (p + 32)) |}.

(** The extended fields that follow a header at offset [p]. *)
Definition header_ext_at (c : bytes) (p : Z) : MPQFileHeaderExt :=
  {| extended_block_table_offset :=
       signed 64 (le_combine (slice c (p + 32) (p + 40)));
     hash_table_offset_high :=
       signed 16 (le_combine (slice c (p + 40) (p + 42)));
     block_table_offset_high :=
       signed 16 (le_combine (slice c (p + 42) (p + 44))) |}.

(** The header at [p] with its extension when the version is 1. *)
Definition full_header_at (c : bytes) (p : Z)
  : MPQFileHeader.t * option MPQFileHeaderExt :=
  (header_at c p,
   if MPQFileHeader.format_version (header_at c p) =? 1
   then Some (header_ext_at c p) else None).

(** The bytes of a header at [p]: 32, or 44 with the extension. *)
Definition header_bytes (c : bytes) (p : Z) : Z :=
  if MPQFileHeader.format_version (header_at c p) =? 1 then 44 else 32.

(** The user data header at the start of the content. *)
Definition user_data_header_at (c : bytes) : MPQUserDataHeader :=
  {| ud_magic := slice c 0 4;
     user_data_size := le_combine (slice c 4 8);
     mpq_header_offset := le_combine (slice c 8 12);
     user_data_header_size := le_combine (slice c 12 16);
     ud_content := slice c 16 (16 + le_combine (slice c 12 16)) |}.

(** Where the header of an [MPQ\x1b] archive is read: at
    [mpq_header_offset], or, when that is 0, where the user data ends. *)
Definition user_data_header_pos (c : bytes) : Z :=
  let udh := user_data_header_at c in
  if mpq_header_offset udh =? 0
  then 16 + Z.of_nat (length (ud_content udh))
  else mpq_header_offset udh.

(** ** Tables as they are stored *)

(** The 16 bytes of a block entry before they are enciphered. *)
Definition pack_block_entry (e : MPQBlockTableEntry) : bytes :=
  unwords [offset e; archived_size e; size e; flags e].

(** A block entry whose four fields are 32-bit words. *)
Definition block_entry32 (e : MPQBlockTableEntry) : Prop :=
  word32 (offset e) /\ word32 (archived_size e) /\ word32 (size e)
  /\ word32 (flags e).

(** The 16 bytes of a hash entry before they are enciphered. *)
Definition pack_hash_entry (e : MPQHashTableEntry) : bytes :=
  le_split 4 (hash_a e) ++ le_split 4 (hash_b e) ++ le_split 2 (locale e)
  ++ le_split 2 (platform e) ++ le_split 4 (block_table_index e).

(** A small archive: the header, a [(listfile)] of ten bytes at offset 32
    (with two bytes of padding), the hash table at 44 and the block table at
    60, both enciphered with their keys.  [base] is the offset of the
    header in the file. *)
Definition sample_archive_bytes : bytes :=
  [x4d; x50; x51; x1a] ++ le_split 4 32 ++ le_split 4 76 ++ le_split 2 0
  ++ le_split 2 3 ++ le_split 4 44 ++ le_split 4 60 ++ le_split 4 1
  ++ le_split 4 1
  ++ [x61; x2e; x74; x78; x74; x0d; x0a; x62; x0a; x63] ++ [x00; x00]
  ++ encrypt
       (pack_hash_entry
          {| hash_a := 0xFD657910; hash_b := 0x4E9B98A7; locale := 0;
             platform := 0; block_table_index := 0 |}) 0xC3AF3770
  ++ encrypt
       (pack_block_entry
          {| offset := 32; archived_size := 10; size := 10;
             flags := Z.lor MPQ_FILE_EXISTS MPQ_FILE_SINGLE_UNIT |})
       0xEC83B3A3.

Definition classic_file : File :=
  {| content := sample_archive_bytes; pos := 0 |}.

(** The same archive after a user data block of 24 bytes. *)
Definition user_data_file : File :=
  {| content := [x4d; x50; x51; x1b] ++ le_split 4 8 ++ le_split 4 24
                ++ le_split 4 4 ++ [x75; x73; x65; x72] ++ [x00; x00; x00; x00]
                ++ sample_archive_bytes;
     pos := 0 |}.

Definition table_length (t : table) : nat :=
  match t with
  | HashTable entries => length entries
  | BlockTable entries => length entries
  end.

Definition is_block_table (t : table) : bool :=
  match t with BlockTable _ => true | HashTable _ => false end.

(** The header of [sample_archive_bytes] at base offset 0. *)
Definition classic_header : Header :=
  {| magic := [x4d; x50; x51; x1a];
     header_size := 32;
     archive_size := 76;
     format_version := 0;
     sector_size_shift := 3;
     hash_table_offset := 44;
     block_table_offset := 60;
     hash_table_entries := 1;
     block_table_entries := 1;
     header_ext := None;
     offset_ := 0;
     user_data_header := None |}.

(** What [__init__] makes of [classic_file]: without the list of names,
    and with it. *)
Definition opened_classic_bare : MPQArchive :=
  {| file := {| content := sample_archive_bytes; pos := 76 |};
     header := classic_header;
     hash_table :=
       [ {| hash_a := 0xFD657910; hash_b := 0x4E9B98A7; locale := 0;
            platform := 0; block_table_index := 0 |} ];
     block_table :=
       [ {| offset := 32; archived_size := 10; size := 10;
            flags := Z.lor MPQ_FILE_EXISTS MPQ_FILE_SINGLE_UNIT |} ];
     files := None |}.

Definition opened_classic : MPQArchive :=
  set_files (set_pos opened_classic_bare 42)
    (Some ["a.txt"; "b"; "c"]%string).

(** * Proofs *)

(** The table is a closed term of 1280 entries: proofs evaluate it with
    [vm_compute] only. *)
#[global] Opaque encryption_table.

Lemma rfold_cons {A B} (f : A -> B -> result A) (acc : A) (x : B)
    (l : list B) :
  rfold f acc (x :: l) = (acc' ← f acc x; rfold f acc' l).
Proof. reflexivity. Qed.

Lemma rbind_Ok {A B} (a : A) (f : A -> result B) : (Ok a ≫= f) = f a.
Proof. reflexivity. Qed.

(** ** The encryption table *)

Lemma table_ok_all : forallb table_ok (seqZ 0 1280) = true.
Proof. vm_compute. reflexivity. Qed.

Lemma encryption_table_total (i : Z) :
  0 <= i < 1280 ->
  exists v, encryption_table !! i = Some v /\ 0 <= v < 2 ^ 32.
Proof.
  intros Hi.
  assert (Hin : In i (seqZ 0 1280)).
  { apply list_elem_of_In, elem_of_seqZ. lia. }
  pose proof (proj1 (forallb_forall table_ok (seqZ 0 1280)) table_ok_all i Hin)
    as Hok.
  unfold table_ok in Hok.
  destruct (encryption_table !! i) as [v|]; [|discriminate].
  exists v. split; [reflexivity|].
  apply andb_prop in Hok as [H0 H1].
  apply Z.leb_le in H0. apply Z.ltb_lt in H1. lia.
Qed.

Lemma table_get_total (i : Z) :
  0 <= i < 1280 -> exists v, table_get i = Ok v /\ 0 <= v < 2 ^ 32.
Proof.
  intros Hi. destruct (encryption_table_total i Hi) as (v & Hv & Hr).
  exists v. unfold table_get. rewrite Hv. auto.
Qed.

(** The table has the 1280 keys [0..1279] and no other. *)
Lemma encryption_table_size : base.size encryption_table = 1280%nat.
Proof. vm_compute. reflexivity. Qed.

(** C1, the part that fails: the entry at index 1 is not [0x9E07D98C]. *)
Lemma crypt_table_index1_not_spec :
  ~ (encryption_table !! 0 = Some 0x55C636E2
     /\ encryption_table !! 1 = Some 0x9E07D98C).
Proof. intros [_ H1]. vm_compute in H1. discriminate. Qed.

(** C1 (amended): the generator is a closed term, and after building the
    entry at index 0 is [0x55C636E2] and the entry at index 1 is
    [0x02BE0170]. *)
Theorem crypt_table_golden :
  encryption_table !! 0 = Some 0x55C636E2
  /\ encryption_table !! 1 = Some 0x02BE0170.
Proof. split; vm_compute; reflexivity. Qed.

(** The word [0x9E07D98C] is at no index of the table. *)
Lemma crypt_table_no_9E07D98C (i : Z) : encryption_table !! i <> Some 0x9E07D98C.
Proof.
  intros Hi.
  assert (Hin : (i, 0x9E07D98C) ∈ map_to_list encryption_table)
    by (apply elem_of_map_to_list; exact Hi).
  assert (Hall : forallb (fun kv => negb (snd kv =? 0x9E07D98C))
                   (map_to_list encryption_table) = true)
    by (vm_compute; reflexivity).
  apply list_elem_of_In in Hin.
  pose proof (proj1 (forallb_forall _ _) Hall _ Hin) as Hk.
  vm_compute in Hk. discriminate.
Qed.

(** ** The hash function *)

Lemma ord_range (c : ascii) : 0 <= ord c < 256.
Proof.
  unfold ord. pose proof (N_ascii_bounded c). lia.
Qed.

Lemma hash_types_range (t : hash_type) : 0 <= hash_types t <= 4.
Proof. destruct t; simpl; lia. Qed.

Lemma hash_step_total (t : hash_type) (st : Z * Z) (c : ascii) :
  exists s1 s2, hash_step t st c = Ok (s1, s2) /\ 0 <= s1 < 2 ^ 32.
Proof.
  destruct st as [seed1 seed2]. unfold hash_step.
  pose proof (ord_range c) as Hc. pose proof (hash_types_range t) as Ht.
  destruct (table_get_total (Z.shiftl (hash_types t) 8 + ord c))
    as (v & Hv & _).
  { rewrite Z.shiftl_mul_pow2 by lia. lia. }
  rewrite Hv, rbind_Ok. eexists _, _. split; [reflexivity|].
  change 0xFFFFFFFF with (Z.ones 32). rewrite Z.land_ones by lia.
  apply Z.mod_pos_bound. lia.
Qed.

Lemma hash_fold_total (t : hash_type) (l : list ascii) (s1 s2 : Z) :
  0 <= s1 < 2 ^ 32 ->
  exists r1 r2, rfold (hash_step t) (s1, s2) l = Ok (r1, r2)
                /\ 0 <= r1 < 2 ^ 32.
Proof.
  revert s1 s2. induction l as [|c l IH]; intros s1 s2 Hs.
  - exists s1, s2. split; [reflexivity|assumption].
  - rewrite rfold_cons.
    destruct (hash_step_total t (s1, s2) c) as (a1 & a2 & Ha & Hr).
    rewrite Ha, rbind_Ok. apply IH, Hr.
Qed.

(** The hasher never raises and returns a 32-bit word. *)
Lemma _hash_total (s : string) (t : hash_type) :
  exists v, _hash s t = Ok v /\ 0 <= v < 2 ^ 32.
Proof.
  unfold _hash.
  destruct (hash_fold_total t (list_ascii_of_string (upper s))
              0x7FED7FED 0xEEEEEEEE) as (r1 & r2 & Hr & Hb); [lia|].
  rewrite Hr, rbind_Ok. exists r1. split; [reflexivity|assumption].
Qed.

Local Open Scope string_scope.

(** C2: the golden values of the hasher. *)
Theorem hash_golden :
  _hash "(listfile)" HASH_A = Ok 0xFD657910
  /\ _hash "(listfile)" HASH_B = Ok 0x4E9B98A7
  /\ _hash "(hash table)" TABLE = Ok 0xC3AF3770
  /\ _hash "(block table)" TABLE = Ok 0xEC83B3A3.
Proof. repeat split; vm_compute; reflexivity. Qed.

(** C10: on the empty string the loop body never runs and the hasher
    returns its initial state, for every purpose. *)
Theorem hash_empty (p : hash_type) : _hash "" p = Ok 0x7FED7FED.
Proof. reflexivity. Qed.

Lemma upper_char_idem (c : ascii) : upper_char (upper_char c) = upper_char c.
Proof. destruct c as [[] [] [] [] [] [] [] []]; reflexivity. Qed.

Lemma upper_lower_char (c : ascii) : upper_char (lower_char c) = upper_char c.
Proof. destruct c as [[] [] [] [] [] [] [] []]; reflexivity. Qed.

Lemma upper_idem (s : string) : upper (upper s) = upper s.
Proof.
  induction s as [|c s IH]; simpl; [reflexivity|].
  rewrite upper_char_idem, IH. reflexivity.
Qed.

Lemma upper_lower (s : string) : upper (lower s) = upper s.
Proof.
  induction s as [|c s IH]; simpl; [reflexivity|].
  rewrite upper_lower_char, IH. reflexivity.
Qed.

(** On [bytes] names the hasher does not see the case of ASCII letters;
    both calls return (the same word), neither raises. *)
Lemma hash_case_insensitive (name : string) (p : hash_type) :
  _hash (upper name) p = _hash (lower name) p
  /\ exists v, _hash (upper name) p = Ok v.
Proof.
  split.
  - unfold _hash. rewrite upper_idem, upper_lower. reflexivity.
  - destruct (_hash_total (upper name) p) as (v & Hv & _). eauto.
Qed.

Local Close Scope string_scope.

(** ** The cipher *)

Lemma rfold_ext {A B} (f g : A -> B -> result A) (l : list B) (acc : A) :
  (forall a x, x ∈ l -> f a x = g a x) -> rfold f acc l = rfold g acc l.
Proof.
  revert acc. induction l as [|x l IH]; intros acc Hfg; [reflexivity|].
  rewrite !rfold_cons, (Hfg acc x) by left.
  destruct (g acc x) as [a'|e]; [|reflexivity].
  rewrite !rbind_Ok. apply IH. intros a y Hy. apply Hfg. by right.
Qed.

Lemma length_slice_word (data : bytes) (i : Z) :
  0 <= i -> 4 * i + 4 <= Z.of_nat (length data) ->
  length (slice data (i * 4) (i * 4 + 4)) = 4%nat.
Proof.
  intros Hi Hlen. unfold slice. rewrite length_take, length_drop.
  replace (i * 4 + 4 - i * 4) with 4 by lia. lia.
Qed.

(** A full word of [data] is a full word of every prefix that holds it. *)
Lemma slice_take (data : bytes) (m : nat) (a b : Z) :
  0 <= a -> b <= Z.of_nat m -> slice (take m data) a b = slice data a b.
Proof.
  intros Ha Hb. unfold slice.
  destruct (decide (b <= a)) as [Hle|Hlt].
  { replace (Z.to_nat (b - a)) with 0%nat by lia. reflexivity. }
  rewrite !take_drop_commute, take_take. f_equal. f_equal. lia.
Qed.

Lemma mask32_range (v : Z) : 0 <= Z.land v 0xFFFFFFFF < 2 ^ 32.
Proof.
  change 0xFFFFFFFF with (Z.ones 32). rewrite Z.land_ones by lia.
  apply Z.mod_pos_bound. lia.
Qed.

Lemma pack_I_mask (v : Z) :
  pack_I (Z.land v 0xFFFFFFFF) = Ok (le_split 4 (Z.land v 0xFFFFFFFF)).
Proof.
  unfold pack_I. pose proof (mask32_range v) as Hr.
  destruct (Z.leb_spec 0 (Z.land v 0xFFFFFFFF)); [|lia].
  destruct (Z.ltb_spec (Z.land v 0xFFFFFFFF) (2 ^ 32)); [|lia].
  reflexivity.
Qed.

Lemma decrypt_step_ok (data : bytes) (s1 s2 : Z) (res : bytes) (i : Z) :
  0 <= i -> 4 * i + 4 <= Z.of_nat (length data) ->
  exists s1' s2' w,
    decrypt_step data (s1, s2, res) i = Ok (s1', s2', res ++ w)
    /\ length w = 4%nat.
Proof.
  intros Hi Hlen. unfold decrypt_step.
  destruct (table_get_total (0x400 + Z.land s1 0xFF)) as (t & Ht & _).
  { change 0xFF with (Z.ones 8). rewrite Z.land_ones by lia.
    pose proof (Z.mod_pos_bound s1 (2 ^ 8)). lia. }
  rewrite Ht, rbind_Ok. unfold unpack_I.
  rewrite (length_slice_word data i Hi Hlen), Nat.eqb_refl, rbind_Ok.
  rewrite pack_I_mask, rbind_Ok.
  eexists _, _, _. split; [reflexivity|]. apply length_le_split.
Qed.

Lemma decrypt_step_ext (data data' : bytes) (st : Z * Z * bytes) (i : Z) :
  slice data (i * 4) (i * 4 + 4) = slice data' (i * 4) (i * 4 + 4) ->
  decrypt_step data st i = decrypt_step data' st i.
Proof.
  intros Hs. destruct st as [[s1 s2] res]. unfold decrypt_step.
  rewrite Hs. reflexivity.
Qed.

Lemma decrypt_fold_ok (data : bytes) (l : list Z) :
  (forall i, i ∈ l -> 0 <= i /\ 4 * i + 4 <= Z.of_nat (length data)) ->
  forall s1 s2 res,
  exists s1' s2' out,
    rfold (decrypt_step data) (s1, s2, res) l = Ok (s1', s2', out)
    /\ length out = (length res + 4 * length l)%nat.
Proof.
  induction l as [|i l IH]; intros Hl s1 s2 res.
  - exists s1, s2, res. split; [reflexivity|]. simpl. lia.
  - destruct (Hl i) as [Hi Hlen]; [left|].
    destruct (decrypt_step_ok data s1 s2 res i Hi Hlen)
      as (a1 & a2 & w & Hstep & Hw).
    rewrite rfold_cons, Hstep, rbind_Ok.
    destruct (IH (fun j Hj => Hl j (list_elem_of_further _ _ _ Hj))
                a1 a2 (res ++ w)) as (b1 & b2 & out & Hout & Hlo).
    exists b1, b2, out. split; [exact Hout|].
    rewrite Hlo, length_app, Hw. simpl. lia.
Qed.

(** The cipher never raises; its output has one word per full word of the
    input. *)
Lemma _decrypt_total (data : bytes) (key : Z) :
  exists out, _decrypt data key = Ok out
              /\ Z.of_nat (length out) = 4 * (Z.of_nat (length data) / 4).
Proof.
  unfold _decrypt.
  destruct (decrypt_fold_ok data (seqZ 0 (Z.of_nat (length data) / 4)))
    with (s1 := key) (s2 := 0xEEEEEEEE) (res := @nil byte)
    as (b1 & b2 & out & Hout & Hlo).
  { intros i Hi. apply elem_of_seqZ in Hi.
    pose proof (Z.mul_div_le (Z.of_nat (length data)) 4). lia. }
  rewrite Hout, rbind_Ok. exists out. split; [reflexivity|].
  rewrite Hlo, length_seqZ. simpl length.
  pose proof (Z.div_pos (Z.of_nat (length data)) 4). lia.
Qed.

(** C4, as stated, fails on a buffer of five bytes: four come back. *)
Lemma decrypt_five_bytes_counterexample :
  ~ decrypt_keeps_length_and_tail [x01; x02; x03; x04; x05] 1.
Proof.
  intros (out & Hout & Hlen & _). vm_compute in Hout.
  injection Hout as <-. discriminate Hlen.
Qed.

(** C4 (amended): for every buffer and every key, [_decrypt] returns, its
    output has [4 * (len // 4)] bytes (the length of the input exactly when
    that is a multiple of 4), and it is the output for the full words alone:
    the bytes after the last full word are dropped. *)
Theorem decrypt_full_words_only (data : bytes) (key : Z) :
  exists out,
    _decrypt data key = Ok out
    /\ Z.of_nat (length out) = 4 * (Z.of_nat (length data) / 4)
    /\ _decrypt (take (length out) data) key = Ok out.
Proof.
  destruct (_decrypt_total data key) as (out & Hout & Hlen).
  exists out. split; [exact Hout|]. split; [exact Hlen|].
  pose proof (Z.mul_div_le (Z.of_nat (length data)) 4) as Hle.
  assert (Hn : length (take (length out) data) = length out)
    by (rewrite length_take; lia).
  rewrite <- Hout. unfold _decrypt. rewrite Hn.
  assert (Hq : Z.of_nat (length out) / 4 = Z.of_nat (length data) / 4).
  { rewrite Hlen, Z.mul_comm, Z.div_mul by lia. reflexivity. }
  rewrite Hq.
  rewrite (rfold_ext (decrypt_step (take (length out) data))
             (decrypt_step data)); [reflexivity|].
  intros st i Hi. apply elem_of_seqZ in Hi.
  apply decrypt_step_ext, slice_take; lia.
Qed.

(** ** The file key *)

Local Open Scope string_scope.

Lemma get_file_key_fix_key (a : MPQArchive) (filename : string)
    (block_entry : MPQBlockTableEntry) (raw_key : Z) :
  has_flag (flags block_entry) MPQ_FILE_FIX_KEY = true ->
  _hash (basename (replace_backslash filename)) TABLE = Ok raw_key ->
  get_file_key a filename block_entry true
  = Ok (Z.lxor (raw_key + (offset block_entry - offset_ (header a)))
          (size block_entry)).
Proof.
  intros Hflag Hraw. unfold get_file_key. rewrite Hraw, rbind_Ok, Hflag.
  reflexivity.
Qed.

(** C3, as stated, fails when the header is not at offset 0: the code adds
    [offset - header offset], here [2048 - 1024]. *)
Lemma file_key_base_offset_counterexample :
  ~ file_key_as_specified (sample_archive 1024) "war3map.j" sample_block.
Proof.
  intros Hspec.
  assert (Hflag : has_flag (flags sample_block) MPQ_FILE_FIX_KEY = true)
    by (vm_compute; reflexivity).
  destruct (Hspec Hflag) as (raw_key & Hraw & Hkey). vm_compute in Hraw.
  injection Hraw as <-. vm_compute in Hkey. discriminate Hkey.
Qed.

(** C3 (amended): with [FIX_KEY] set, the key is
    [(raw_key + (offset - base)) XOR size], where [raw_key] is the hash of
    the basename with purpose [TABLE], [offset] and [size] are the fields of
    the block entry and [base] is the header's offset, which the code
    subtracts; stated for sums within 32 bits, where it is 32-bit
    arithmetic, and the key is then a 32-bit word when [size] is one. *)
Theorem file_key_fix_key (a : MPQArchive) (filename : string)
    (block_entry : MPQBlockTableEntry) (raw_key : Z) :
  has_flag (flags block_entry) MPQ_FILE_FIX_KEY = true ->
  _hash (basename (replace_backslash filename)) TABLE = Ok raw_key ->
  0 <= raw_key + (offset block_entry - offset_ (header a)) < 2 ^ 32 ->
  0 <= size block_entry < 2 ^ 32 ->
  exists key,
    get_file_key a filename block_entry true = Ok key
    /\ key = Z.lxor
               ((raw_key + (offset block_entry - offset_ (header a)))
                mod 2 ^ 32)
               (size block_entry)
    /\ 0 <= key < 2 ^ 32.
Proof.
  intros Hflag Hraw Hsum Hsize.
  rewrite (get_file_key_fix_key a filename block_entry raw_key Hflag Hraw).
  eexists. split; [reflexivity|].
  rewrite Z.mod_small by exact Hsum. split; [reflexivity|].
  split.
  - apply Z.lxor_nonneg. lia.
  - destruct (Z.eq_dec (Z.lxor (raw_key + (offset block_entry
                                           - offset_ (header a)))
                          (size block_entry)) 0) as [->|Hnz]; [lia|].
    apply Z.log2_lt_cancel. rewrite Z.log2_pow2 by lia.
    eapply Z.le_lt_trans; [apply Z.log2_lxor; lia|].
    apply Z.max_lub_lt.
    + destruct (Z.eq_dec (raw_key + (offset block_entry
                                     - offset_ (header a))) 0) as [->|?];
        [simpl; lia|]. apply Z.log2_lt_pow2; lia.
    + destruct (Z.eq_dec (size block_entry) 0) as [->|?]; [simpl; lia|].
      apply Z.log2_lt_pow2; lia.
Qed.

(** The key of [war3map.j] in the sample archive whose header is at offset
    1024: the raw key [0x54556402], plus [2048 - 1024], XOR 100. *)
Lemma file_key_fix_key_witness :
  exists key,
    get_file_key (sample_archive 1024) "war3map.j" sample_block true = Ok key
    /\ key = Z.lxor ((0x54556402 + (2048 - 1024)) mod 2 ^ 32) 100
    /\ 0 <= key < 2 ^ 32.
Proof.
  apply (file_key_fix_key (sample_archive 1024) "war3map.j" sample_block
           0x54556402).
  - vm_compute. reflexivity.
  - vm_compute. reflexivity.
  - simpl. lia.
  - simpl. lia.
Defined.

(** For a header at offset 0 and a sum within 32 bits the key is the
    specification's. *)
Lemma file_key_classic (a : MPQArchive) (filename : string)
    (block_entry : MPQBlockTableEntry) (raw_key : Z) :
  has_flag (flags block_entry) MPQ_FILE_FIX_KEY = true ->
  _hash (basename (replace_backslash filename)) TABLE = Ok raw_key ->
  offset_ (header a) = 0 ->
  0 <= raw_key + offset block_entry < 2 ^ 32 ->
  get_file_key a filename block_entry true
  = Ok (Z.lxor ((raw_key + offset block_entry) mod 2 ^ 32)
          (size block_entry)).
Proof.
  intros Hflag Hraw Hbase Hsum.
  rewrite (get_file_key_fix_key a filename block_entry raw_key Hflag Hraw).
  rewrite Hbase, Z.sub_0_r, Z.mod_small by exact Hsum. reflexivity.
Qed.

(** The sum is not reduced modulo [2^32]: a key can have more than 32 bits,
    and [_decrypt] then differs, from the second word on, from what it
    returns for the key reduced. *)
Lemma file_key_not_reduced :
  let block_entry :=
    {| offset := 0xFFFFFFFF; archived_size := 16; size := 100;
       flags := flags sample_block |} in
  get_file_key (sample_archive 0) "war3map.j" block_entry true
  = Ok 0x154556465
  /\ _decrypt [x00; x00; x00; x00; x00; x00; x00; x00] 0x154556465
     <> _decrypt [x00; x00; x00; x00; x00; x00; x00; x00] 0x54556465.
Proof.
  split; [vm_compute; reflexivity|]. vm_compute. discriminate.
Qed.

Local Close Scope string_scope.

(** ** The sector offset table *)

Lemma slice_0 (data : bytes) (m : Z) : slice data 0 m = take (Z.to_nat m) data.
Proof. unfold slice. rewrite Z.sub_0_r. reflexivity. Qed.

Lemma sector_size_pow2 (h : Header) :
  0 <= sector_size_shift h -> sector_size h = 512 * 2 ^ sector_size_shift h.
Proof. intros Hs. unfold sector_size. apply Z.shiftl_mul_pow2, Hs. Qed.

Lemma unpack_Is_ok (n : Z) (b : bytes) :
  Z.of_nat (length b) = 4 * n ->
  exists positions,
    unpack_Is n b = Ok positions
    /\ Z.of_nat (length positions) = n
    /\ forall i, 0 <= i < n ->
         positions !! Z.to_nat i
         = Some (le_combine (slice b (4 * i) (4 * i + 4))).
Proof.
  intros Hlen. unfold unpack_Is.
  destruct (Z.eqb_spec (Z.of_nat (length b)) (4 * n)) as [_|Hne]; [|lia].
  eexists. split; [reflexivity|]. split.
  - rewrite length_fmap, length_seqZ. lia.
  - intros i Hi. rewrite list_lookup_fmap, lookup_seqZ_lt by lia.
    simpl. do 3 f_equal; lia.
Qed.

(** The offset table is read whenever the blob holds [4 * n_offsets]
    bytes. *)
Lemma read_positions_ok (h : Header) (block_entry : MPQBlockTableEntry)
    (file_data : bytes) (key : Z) :
  let n := n_offsets h block_entry in
  0 <= n -> 4 * n <= Z.of_nat (length file_data) ->
  exists offset_table positions,
    (if has_flag (flags block_entry) MPQ_FILE_ENCRYPTED
     then _decrypt (take (Z.to_nat (4 * n)) file_data) (key - 1)
     else Ok (take (Z.to_nat (4 * n)) file_data)) = Ok offset_table
    /\ read_positions h block_entry file_data key = Ok positions
    /\ Z.of_nat (length positions) = n
    /\ forall i, 0 <= i < n ->
         positions !! Z.to_nat i
         = Some (le_combine (slice offset_table (4 * i) (4 * i + 4))).
Proof.
  intros n Hn Hlen. unfold read_positions. fold n. rewrite slice_0.
  assert (Htake : Z.of_nat (length (take (Z.to_nat (4 * n)) file_data))
                  = 4 * n) by (rewrite length_take; lia).
  destruct (has_flag (flags block_entry) MPQ_FILE_ENCRYPTED).
  - destruct (_decrypt_total (take (Z.to_nat (4 * n)) file_data) (key - 1))
      as (table & Htable & Hlt).
    assert (Hq : 4 * n / 4 = n)
      by (rewrite (Z.mul_comm 4 n); apply Z.div_mul; lia).
    rewrite Htake, Hq in Hlt.
    destruct (unpack_Is_ok n table Hlt) as (positions & Hp & Hl & Hi).
    exists table, positions. rewrite Htable, rbind_Ok. auto.
  - destruct (unpack_Is_ok n _ Htake) as (positions & Hp & Hl & Hi).
    eexists _, positions. split; [reflexivity|].
    change (mret ?x ≫= ?f) with (f x). auto.
Qed.

(** A blob too short for its offset table: [struct.unpack] raises. *)
Lemma read_positions_short (h : Header) (block_entry : MPQBlockTableEntry)
    (file_data : bytes) (key : Z) :
  Z.of_nat (length file_data) < 4 * n_offsets h block_entry ->
  read_positions h block_entry file_data key = Raise StructError.
Proof.
  intros Hlen. unfold read_positions. rewrite slice_0.
  assert (Htake : length (take (Z.to_nat (4 * n_offsets h block_entry))
                            file_data) = length file_data)
    by (rewrite length_take; lia).
  assert (Hraise : forall b : bytes,
             Z.of_nat (length b) <= Z.of_nat (length file_data) ->
             unpack_Is (n_offsets h block_entry) b = Raise StructError).
  { intros b Hb. unfold unpack_Is.
    destruct (Z.eqb_spec (Z.of_nat (length b))
                (4 * n_offsets h block_entry)); [lia|reflexivity]. }
  destruct (has_flag (flags block_entry) MPQ_FILE_ENCRYPTED).
  - destruct (_decrypt_total
                (take (Z.to_nat (4 * n_offsets h block_entry)) file_data)
                (key - 1)) as (table & Htable & Hlt).
    rewrite Htable, rbind_Ok. apply Hraise. rewrite Hlt, Htake.
    apply Z.mul_div_le. lia.
  - change (mret ?x ≫= ?f) with (f x). apply Hraise. rewrite Htake. lia.
Qed.

(** The sectored path is the one taken by a file that is not a single
    unit. *)
Lemma read_block_sectored `{Codecs} (filename : string) (force : bool)
    (block_entry : MPQBlockTableEntry) :
  has_flag (flags block_entry) MPQ_FILE_SINGLE_UNIT = false ->
  read_block filename force block_entry
  = (a ← get_self;
     _ ← file_seek (offset block_entry + offset_ (header a));
     file_data ← file_read (archived_size block_entry);
     a ← get_self;
     key ← (if has_flag (flags block_entry) MPQ_FILE_ENCRYPTED
            then lift (get_file_key a filename block_entry true)
            else mret 0);
     read_sectors force file_data block_entry key).
Proof. intros Hsu. unfold read_block. rewrite Hsu. reflexivity. Qed.

(** C5: for a file that is not a single unit the reader takes
    [sector_size = 512 << sector_size_shift] and
    [sectors = size // sector_size + 1] (so that
    [size < sector_size * (size // sector_size + 1)]: a tail slot exists
    also when [size] is a multiple), one more with [SECTOR_CRC], and reads
    [sectors + 1] little-endian words from the start of the blob (decrypted
    first for an encrypted file); its loop then runs over
    [size // sector_size + 1] sectors. *)
Theorem sector_offset_table `{Codecs} (force : bool)
    (block_entry : MPQBlockTableEntry) (file_data : bytes) (key : Z)
    (s : State) :
  let h := header (self s) in
  let ssz := 512 * 2 ^ sector_size_shift h in
  let nsec := size block_entry / ssz + 1
              + (if has_flag (flags block_entry) MPQ_FILE_SECTOR_CRC
                 then 1 else 0) in
  0 <= sector_size_shift h ->
  0 <= size block_entry ->
  4 * (nsec + 1) <= Z.of_nat (length file_data) ->
  sector_size h = ssz
  /\ sectors h block_entry = nsec
  /\ size block_entry < ssz * (size block_entry / ssz + 1)
  /\ n_offsets h block_entry = nsec + 1
  /\ exists offset_table positions,
       (if has_flag (flags block_entry) MPQ_FILE_ENCRYPTED
        then _decrypt (take (Z.to_nat (4 * (nsec + 1))) file_data) (key - 1)
        else Ok (take (Z.to_nat (4 * (nsec + 1))) file_data))
       = Ok offset_table
       /\ read_positions h block_entry file_data key = Ok positions
       /\ Z.of_nat (length positions) = nsec + 1
       /\ (forall i, 0 <= i < nsec + 1 ->
             positions !! Z.to_nat i
             = Some (le_combine (slice offset_table (4 * i) (4 * i + 4))))
       /\ read_sectors force file_data block_entry key s
          = (st ← mfold (sector_step force file_data block_entry key
                           positions)
                   (size block_entry, [])
                   (seqZ 0 (size block_entry / ssz + 1));
             mret (snd st)) s.
Proof.
  intros h ssz nsec Hshift Hsize Hlen.
  assert (Hssz : sector_size h = ssz) by (apply sector_size_pow2, Hshift).
  assert (Hpos : 0 < ssz).
  { unfold ssz. pose proof (Z.pow_pos_nonneg 2 (sector_size_shift h)). lia. }
  assert (Hsec : sectors h block_entry = nsec).
  { unfold sectors, crc, nsec. rewrite Hssz.
    destruct (has_flag (flags block_entry) MPQ_FILE_SECTOR_CRC); lia. }
  assert (Hn : n_offsets h block_entry = nsec + 1)
    by (unfold n_offsets; rewrite Hsec; reflexivity).
  assert (Hq : 0 <= size block_entry / ssz) by (apply Z.div_pos; lia).
  assert (Hnsec : 0 <= nsec).
  { unfold nsec.
    destruct (has_flag (flags block_entry) MPQ_FILE_SECTOR_CRC); lia. }
  split; [exact Hssz|]. split; [exact Hsec|]. split.
  { pose proof (Z.mod_pos_bound (size block_entry) ssz Hpos).
    pose proof (Z.div_mod (size block_entry) ssz). lia. }
  split; [exact Hn|].
  destruct (read_positions_ok h block_entry file_data key)
    as (table & positions & Htab & Hp & Hl & Hi); [lia|lia|].
  rewrite Hn in Htab, Hl, Hi.
  exists table, positions.
  split; [exact Htab|]. split; [exact Hp|]. split; [exact Hl|].
  split; [exact Hi|].
  unfold read_sectors, mbind, M_bind, get_self, lift. fold h.
  rewrite Hp, Hl. unfold crc, nsec.
  destruct (has_flag (flags block_entry) MPQ_FILE_SECTOR_CRC);
    (replace (size block_entry / ssz + 1 + _ + 1 - _)
       with (size block_entry / ssz + 1) by lia); reflexivity.
Qed.

(** The sample block of 5000 bytes: sectors of 4096 bytes, two of them,
    three offsets. *)
Lemma sector_offset_table_witness :
  let s := {| self := sample_archive 0; stdout := [] |} in
  sector_size (header (self s)) = 512 * 2 ^ 3
  /\ sectors (header (self s)) sectored_block = 5000 / (512 * 2 ^ 3) + 1 + 0
  /\ 5000 < 512 * 2 ^ 3 * (5000 / (512 * 2 ^ 3) + 1)
  /\ n_offsets (header (self s)) sectored_block
     = 5000 / (512 * 2 ^ 3) + 1 + 0 + 1
  /\ exists offset_table positions,
       Ok (take (Z.to_nat (4 * (5000 / (512 * 2 ^ 3) + 1 + 0 + 1)))
             sectored_blob) = Ok offset_table
       /\ read_positions (header (self s)) sectored_block sectored_blob 0
          = Ok positions
       /\ Z.of_nat (length positions) = 5000 / (512 * 2 ^ 3) + 1 + 0 + 1
       /\ (forall i, 0 <= i < 5000 / (512 * 2 ^ 3) + 1 + 0 + 1 ->
             positions !! Z.to_nat i
             = Some (le_combine (slice offset_table (4 * i) (4 * i + 4))))
       /\ @read_sectors no_codecs false sectored_blob sectored_block 0 s
          = (st ← mfold (@sector_step no_codecs false sectored_blob
                           sectored_block 0 positions)
                   (5000, [])
                   (seqZ 0 (5000 / (512 * 2 ^ 3) + 1));
             mret (snd st)) s.
Proof.
  apply (@sector_offset_table no_codecs false sectored_block
           sectored_blob 0 {| self := sample_archive 0; stdout := [] |}).
  - simpl. lia.
  - simpl. lia.
  - vm_compute. discriminate.
Defined.

(** A size that is a multiple of the sector size still gets the slot of a
    tail: [k + 1] sectors for [k] full ones. *)
Lemma sectors_exact_multiple (h : Header) (block_entry : MPQBlockTableEntry)
    (k : Z) :
  0 <= sector_size_shift h ->
  size block_entry = k * sector_size h ->
  sectors h block_entry = k + 1 + (if crc block_entry then 1 else 0).
Proof.
  intros Hshift Hsize. unfold sectors. rewrite Hsize, Z.div_mul.
  - destruct (crc block_entry); lia.
  - rewrite sector_size_pow2 by exact Hshift.
    pose proof (Z.pow_pos_nonneg 2 (sector_size_shift h)). lia.
Qed.

(** The layout of the sample: two sectors, three offsets. *)
Lemma sectored_block_layout :
  sectors (sample_header 0) sectored_block = 2
  /\ read_positions (sample_header 0) sectored_block sectored_blob 0
     = Ok [12; 4108; 5012].
Proof. split; vm_compute; reflexivity. Qed.

(** ** The undeclared implode sector *)

Lemma has_flag_lor (flags flag : Z) :
  flag <> 0 -> has_flag (Z.lor flags flag) flag = true.
Proof.
  intros Hnz. unfold has_flag.
  rewrite Z.land_lor_distr_l, Z.land_diag, Z.lor_comm.
  replace (Z.lor flag (Z.land flags flag)) with flag.
  - destruct (Z.eqb_spec flag 0); [contradiction|reflexivity].
  - symmetry. apply Z.bits_inj'. intros n Hn.
    rewrite Z.lor_spec, Z.land_spec. destruct (Z.testbit flag n);
      [reflexivity|]. rewrite andb_false_r. reflexivity.
Qed.

(** The special case on its own: a sector that starts with [00 06] gets the
    [COMPRESS] flag, whatever the flags of the block entry, and the one-byte
    tag [0x08] in front, which is the value of [IMPLODE]. *)
Lemma implode_quirk_00_06 (block_flags : Z) (rest : bytes) :
  let sector := x00 :: x06 :: rest in
  implode_quirk block_flags sector
  = (Z.lor block_flags MPQ_FILE_COMPRESS, x08 :: sector)
  /\ has_flag (Z.lor block_flags MPQ_FILE_COMPRESS) MPQ_FILE_COMPRESS = true
  /\ CompressionType_of (byte.unsigned x08) = Some IMPLODE.
Proof.
  simpl. split; [reflexivity|]. split; [|reflexivity].
  apply has_flag_lor. discriminate.
Qed.



(** The same sector through [read_file].  In a block that declares five
    bytes it comes out with the tag in front.  In a block that declares
    twelve bytes it goes to [ttdecomp], without the tag; and so it does in
    the block of five bytes when decompression is forced. *)
Lemma read_file_00_06_sample :
  fst (@read_file doubling_ttdecomp "(listfile)" false
         {| self := imploded_archive 5; stdout := [] |})
  = Ok (Some [x08; x00; x06; x41; x42; x43])
  /\ fst (@read_file doubling_ttdecomp "(listfile)" false
            {| self := imploded_archive 12; stdout := [] |})
     = Ok (Some [x00; x06; x41; x42; x43; x00; x06; x41; x42; x43])
  /\ fst (@read_file doubling_ttdecomp "(listfile)" true
            {| self := imploded_archive 5; stdout := [] |})
     = Ok (Some [x00; x06; x41; x42; x43; x00; x06; x41; x42; x43]).
Proof. repeat split; vm_compute; reflexivity. Qed.

(** In the loop, an unencrypted sector that starts with [00 06] goes to the
    dispatcher with the tag in front, as soon as the budget allows (or
    decompression is forced), whether or not the block entry has
    [COMPRESS]; what the dispatcher returns is appended. *)
Lemma sector_step_undeclared_implode `{Codecs} (force : bool)
    (file_data : bytes) (block_entry : MPQBlockTableEntry) (key : Z)
    (positions : list Z) (left : Z) (result rest : bytes) (i p0 p1 : Z)
    (s : State) :
  py_index positions i = Ok p0 ->
  py_index positions (i + 1) = Ok p1 ->
  has_flag (flags block_entry) MPQ_FILE_ENCRYPTED = false ->
  slice file_data p0 p1 = x00 :: x06 :: rest ->
  force || (Z.of_nat (length (x08 :: x00 :: x06 :: rest)) <? left) = true ->
  sector_step force file_data block_entry key positions (left, result) i s
  = (sector ← decompress (x08 :: x00 :: x06 :: rest);
     mret (left - Z.of_nat (length sector), result ++ sector)) s.
Proof.
  intros Hp0 Hp1 Henc Hsec Hgo.
  unfold sector_step, mbind, M_bind, lift, mret, M_ret.
  rewrite Hp0, Hp1, Henc. cbv beta iota. rewrite Hsec.
  unfold implode_quirk.
  change (byte.of_Z (CompressionType_value IMPLODE)) with x08.
  rewrite has_flag_lor by discriminate. rewrite Hgo. reflexivity.
Qed.

(** ** Reading a file: the value for a file that is not there *)

Lemma bind_run {A B} (m : M A) (f : A -> M B) (s : State) :
  (m ≫= f) s
  = match m s with
    | (Ok a, s') => f a s'
    | (Raise e, s') => (Raise e, s')
    end.
Proof. reflexivity. Qed.

Lemma get_hash_table_entry_total (a : MPQArchive) (filename : string) :
  exists r, get_hash_table_entry a filename = Ok r.
Proof.
  unfold get_hash_table_entry.
  destruct (_hash_total filename HASH_A) as (h_a & Ha & _).
  destruct (_hash_total filename HASH_B) as (h_b & Hb & _).
  rewrite Ha, rbind_Ok, Hb, rbind_Ok. eexists. reflexivity.
Qed.

(** What [read_file] does after the name is printed. *)
Lemma read_file_run `{Codecs} (filename : string) (force : bool) (s : State) :
  let s1 := {| self := self s; stdout := stdout s ++ [Processing filename] |} in
  read_file filename force s
  = match get_hash_table_entry (self s) filename with
    | Raise e => (Raise e, s1)
    | Ok None => (Ok None, s1)
    | Ok (Some hash_entry) =>
        match py_index (block_table (self s)) (block_table_index hash_entry)
        with
        | Raise e => (Raise e, s1)
        | Ok block_entry =>
            if has_flag (flags block_entry) MPQ_FILE_EXISTS then
              if archived_size block_entry =? 0 then (Ok None, s1)
              else
                match read_block filename force block_entry s1 with
                | (Ok file_data, s2) => (Ok (Some file_data), s2)
                | (Raise e, s2) => (Raise e, s2)
                end
            else (Ok None, s1)
        end
    end.
Proof.
  intros s1. unfold read_file. rewrite bind_run. unfold print at 1.
  fold s1. rewrite bind_run. unfold get_self at 1, lift.
  rewrite bind_run. change (self s1) with (self s).
  destruct (get_hash_table_entry (self s) filename) as [[he|]|e];
    [|reflexivity|reflexivity].
  rewrite bind_run. unfold get_self at 1. rewrite bind_run.
  change (self s1) with (self s).
  destruct (py_index (block_table (self s)) (block_table_index he))
    as [be|e]; [|reflexivity].
  destruct (has_flag (flags be) MPQ_FILE_EXISTS); [|reflexivity].
  destruct (archived_size be =? 0); [reflexivity|].
  rewrite bind_run.
  destruct (read_block filename force be s1) as [[d|e] s2]; reflexivity.
Qed.

(** C7: [read_file] returns [None] (a returned value, which is not the
    empty content [b''], and not an exception) exactly when the name has no
    entry in the hash table, or the block entry of its entry has [EXISTS]
    clear, or has [archived_size] 0. *)
Theorem read_file_none_iff `{Codecs} (filename : string) (force : bool)
    (s : State) :
  (fst (read_file filename force s) = Ok None
   <-> get_hash_table_entry (self s) filename = Ok None
       \/ exists hash_entry block_entry,
            get_hash_table_entry (self s) filename = Ok (Some hash_entry)
            /\ py_index (block_table (self s)) (block_table_index hash_entry)
               = Ok block_entry
            /\ (has_flag (flags block_entry) MPQ_FILE_EXISTS = false
                \/ archived_size block_entry = 0))
  /\ Ok (@None bytes) <> Ok (Some []).
Proof.
  split; [|discriminate].
  rewrite read_file_run.
  destruct (get_hash_table_entry (self s) filename) as [[he|]|e] eqn:Hhe.
  - destruct (py_index (block_table (self s)) (block_table_index he))
      as [be|e] eqn:Hbe.
    + destruct (has_flag (flags be) MPQ_FILE_EXISTS) eqn:Hex.
      * destruct (Z.eqb_spec (archived_size be) 0) as [Hz|Hnz].
        -- split; [|reflexivity]. intros _. right. exists he, be. auto.
        -- destruct (read_block filename force be _) as [[d|e] s2]; simpl.
           ++ split; [discriminate|].
              intros [Hn|(he' & be' & Hh' & Hb' & [Hx|Hz])];
                [discriminate| |]; injection Hh' as <-;
                rewrite Hbe in Hb'; injection Hb' as <-; congruence.
           ++ split; [discriminate|].
              intros [Hn|(he' & be' & Hh' & Hb' & [Hx|Hz])];
                [discriminate| |]; injection Hh' as <-;
                rewrite Hbe in Hb'; injection Hb' as <-; congruence.
      * split; [|reflexivity]. intros _. right. exists he, be. auto.
    + simpl. split; [discriminate|].
      intros [Hn|(he' & be' & Hh' & Hb' & _)]; [discriminate|].
      injection Hh' as <-. rewrite Hbe in Hb'. discriminate.
  - simpl. split; [|reflexivity]. intros _. left. reflexivity.
  - destruct (get_hash_table_entry_total (self s) filename) as (r & Hr).
    rewrite Hr in Hhe. discriminate.
Qed.

Local Open Scope string_scope.

(** The outcomes on the sample archive: content, the three ways to [None],
    and an exception. *)
Lemma read_file_samples :
  let s := {| self := listfile_archive; stdout := [] |} in
  fst (@read_file no_codecs "(listfile)" false s) = Ok (Some (repeat x61 10))
  /\ fst (@read_file no_codecs "(LISTFILE)" false s)
     = Ok (Some (repeat x61 10))
  /\ fst (@read_file no_codecs "war3map.j" false s) = Ok None
  /\ fst (@read_file no_codecs "(attributes)" false s) = Ok None
  /\ fst (@read_file no_codecs "(signature)" false s) = Ok None
  /\ fst (@read_file no_codecs "(user data)" false s) = Raise IndexError
  /\ pos (file (self (snd (@read_file no_codecs "(listfile)" false s)))) = 42
  /\ stdout (snd (@read_file no_codecs "(listfile)" false s))
     = [Processing "(listfile)"].
Proof. repeat split; vm_compute; reflexivity. Qed.

Local Close Scope string_scope.

(** ** Reading leaves the parsed tables alone *)

Create HintDb frame.

Lemma preserves_ret {A} (a : A) : preserves_parsed (mret a : M A).
Proof. intros s. reflexivity. Qed.

Lemma preserves_raise {A} (e : exn) : preserves_parsed (raise e : M A).
Proof. intros s. reflexivity. Qed.

Lemma preserves_lift {A} (r : result A) : preserves_parsed (lift r).
Proof. intros s. reflexivity. Qed.

Lemma preserves_get_self : preserves_parsed get_self.
Proof. intros s. reflexivity. Qed.

Lemma preserves_print (e : event) : preserves_parsed (print e).
Proof. intros s. reflexivity. Qed.

Lemma preserves_file_seek (offset : Z) : preserves_parsed (file_seek offset).
Proof. intros s. unfold file_seek. destruct (offset <? 0); reflexivity. Qed.

Lemma preserves_file_read (n : Z) : preserves_parsed (file_read n).
Proof. intros s. reflexivity. Qed.

Lemma preserves_bind {A B} (m : M A) (f : A -> M B) :
  preserves_parsed m -> (forall a, preserves_parsed (f a)) ->
  preserves_parsed (m ≫= f).
Proof.
  intros Hm Hf s. rewrite bind_run. specialize (Hm s).
  destruct (m s) as [[a|e] s']; simpl in Hm.
  - rewrite Hf. exact Hm.
  - exact Hm.
Qed.

Lemma preserves_mfold {A B} (f : A -> B -> M A) (l : list B) :
  (forall a x, preserves_parsed (f a x)) ->
  forall acc, preserves_parsed (mfold f acc l).
Proof.
  intros Hf. induction l as [|x l IH]; intros acc; simpl.
  - apply preserves_ret.
  - apply preserves_bind; [apply Hf|exact IH].
Qed.

#[local] Hint Resolve preserves_ret preserves_raise preserves_lift
  preserves_get_self preserves_print preserves_file_seek
  preserves_file_read : frame.

(** One step through a method body: a bind, a loop, a branch or a
    primitive. *)
Ltac frame_step :=
  match goal with
  | |- preserves_parsed (_ ≫= _) => apply preserves_bind; [|intros ?]
  | |- preserves_parsed (mfold _ _ _) => apply preserves_mfold; intros ? ?
  | |- preserves_parsed (if ?b then _ else _) => destruct b
  | |- preserves_parsed (match ?x with _ => _ end) => destruct x
  | |- preserves_parsed (let '(_, _) := ?x in _) => destruct x
  | |- preserves_parsed _ => solve [auto with frame]
  end.

Lemma preserves_decompress `{Codecs} (data : bytes) :
  preserves_parsed (decompress data).
Proof. unfold decompress. repeat frame_step. Qed.

Lemma preserves_sector_step `{Codecs} (force : bool) (file_data : bytes)
    (block_entry : MPQBlockTableEntry) (key : Z) (positions : list Z)
    (st : Z * bytes) (i : Z) :
  preserves_parsed
    (sector_step force file_data block_entry key positions st i).
Proof.
  unfold sector_step. destruct st as [left result].
  repeat first [apply preserves_decompress | frame_step].
Qed.

Lemma preserves_read_sectors `{Codecs} (force : bool) (file_data : bytes)
    (block_entry : MPQBlockTableEntry) (key : Z) :
  preserves_parsed (read_sectors force file_data block_entry key).
Proof.
  unfold read_sectors.
  repeat first [apply preserves_sector_step | frame_step].
Qed.

Lemma preserves_read_single_unit `{Codecs} (force : bool) (file_data : bytes)
    (block_entry : MPQBlockTableEntry) :
  preserves_parsed (read_single_unit force file_data block_entry).
Proof.
  unfold read_single_unit. repeat first [apply preserves_decompress | frame_step].
Qed.

Lemma preserves_read_block `{Codecs} (filename : string) (force : bool)
    (block_entry : MPQBlockTableEntry) :
  preserves_parsed (read_block filename force block_entry).
Proof.
  unfold read_block.
  repeat first [apply preserves_read_sectors
               | apply preserves_read_single_unit | frame_step].
Qed.

Lemma preserves_read_file `{Codecs} (filename : string) (force : bool) :
  preserves_parsed (read_file filename force).
Proof.
  unfold read_file. repeat first [apply preserves_read_block | frame_step].
Qed.

Lemma preserves_extract `{Codecs} (files_arg : option (list string)) :
  preserves_parsed (extract files_arg).
Proof.
  unfold extract. apply preserves_bind; [auto with frame|]. intros a.
  destruct (if truthy files_arg then files_arg else files a) as [[|f l]|];
    [auto with frame| |auto with frame].
  apply preserves_mfold. intros d x.
  apply preserves_bind; [apply preserves_read_file|].
  intros data. apply preserves_ret.
Qed.

(** C9: [read_file] and [extract] leave the parsed header, hash table and
    block table of the archive as they were, for every argument and also
    when they raise. *)
Theorem parsed_tables_immutable `{Codecs} (filename : string) (force : bool)
    (files_arg : option (list string)) (s : State) :
  let s1 := snd (read_file filename force s) in
  let s2 := snd (extract files_arg s) in
  (header (self s1) = header (self s)
   /\ hash_table (self s1) = hash_table (self s)
   /\ block_table (self s1) = block_table (self s))
  /\ (header (self s2) = header (self s)
      /\ hash_table (self s2) = hash_table (self s)
      /\ block_table (self s2) = block_table (self s)).
Proof.
  intros s1 s2.
  pose proof (preserves_read_file filename force s) as H1.
  pose proof (preserves_extract files_arg s) as H2.
  fold s1 in H1. fold s2 in H2. unfold parsed in H1, H2.
  injection H1 as Hh1 Ht1 Hb1. injection H2 as Hh2 Ht2 Hb2. auto.
Qed.

(** ** The hasher on [str] names *)

Lemma case_mappings_ascii :
  forallb
    (fun c =>
       bool_decide (Unicode.mapping Unicode.uppercase c
                    = [if (97 <=? c) && (c <=? 122) then c - 32 else c])
       && bool_decide (Unicode.mapping Unicode.lowercase c
                       = [if (65 <=? c) && (c <=? 90) then c + 32 else c]))
    (seqZ 0 128) = true.
Proof. vm_compute. reflexivity. Qed.

Lemma case_mappings_ascii_at (c : Z) :
  0 <= c < 128 ->
  Unicode.mapping Unicode.uppercase c
  = [if (97 <=? c) && (c <=? 122) then c - 32 else c]
  /\ Unicode.mapping Unicode.lowercase c
     = [if (65 <=? c) && (c <=? 90) then c + 32 else c].
Proof.
  intros Hc.
  assert (Hin : In c (seqZ 0 128)).
  { apply list_elem_of_In, elem_of_seqZ. lia. }
  pose proof (proj1 (forallb_forall _ _) case_mappings_ascii c Hin) as Hok.
  cbv beta in Hok. apply andb_prop in Hok as [Hu Hl].
  apply bool_decide_eq_true in Hu, Hl. split; assumption.
Qed.

(** On ASCII, [str.upper] and [str.lower] change letters only, one
    character for one. *)
Lemma str_upper_ascii (s : list Z) :
  is_ascii s ->
  str_upper s
  = map (fun c => if (97 <=? c) && (c <=? 122) then c - 32 else c) s.
Proof.
  unfold str_upper. induction 1 as [|c s Hc _ IH]; [reflexivity|].
  cbn [flat_map map]. rewrite IH.
  rewrite (proj1 (case_mappings_ascii_at c Hc)). reflexivity.
Qed.

Lemma lower_from_ascii (before s : list Z) :
  is_ascii s ->
  lower_from before s
  = map (fun c => if (65 <=? c) && (c <=? 90) then c + 32 else c) s.
Proof.
  intros Hs. revert before.
  induction Hs as [|c s Hc _ IH]; intros before; [reflexivity|].
  cbn [lower_from map]. rewrite IH.
  destruct (Z.eqb_spec c 0x3A3) as [->|_]; [lia|].
  rewrite (proj2 (case_mappings_ascii_at c Hc)). reflexivity.
Qed.

Lemma str_upper_upper_ascii (s : list Z) :
  is_ascii s -> str_upper (str_upper s) = str_upper s.
Proof.
  intros Hs. rewrite (str_upper_ascii s Hs).
  rewrite str_upper_ascii.
  - rewrite map_map. apply map_ext_in. intros c Hc.
    destruct ((97 <=? c) && (c <=? 122)) eqn:E; [|rewrite E; reflexivity].
    apply andb_prop in E as [E1 E2]. apply Z.leb_le in E1, E2.
    destruct (Z.leb_spec 97 (c - 32)); [|reflexivity].
    destruct (Z.leb_spec (c - 32) 122); simpl; [lia|reflexivity].
  - unfold is_ascii in *. rewrite Forall_map.
    eapply Forall_impl; [exact Hs|]. intros c Hc. cbv beta.
    destruct ((97 <=? c) && (c <=? 122)) eqn:E; [|exact Hc].
    apply andb_prop in E as [E1 E2]. apply Z.leb_le in E1, E2. lia.
Qed.

Lemma str_upper_lower_ascii (s : list Z) :
  is_ascii s -> str_upper (str_lower s) = str_upper s.
Proof.
  intros Hs. unfold str_lower. rewrite (lower_from_ascii [] s Hs).
  rewrite (str_upper_ascii s Hs). rewrite str_upper_ascii.
  - rewrite map_map. apply map_ext_in. intros c Hc.
    destruct ((65 <=? c) && (c <=? 90)) eqn:E.
    + apply andb_prop in E as [E1 E2]. apply Z.leb_le in E1, E2.
      destruct (Z.leb_spec 97 (c + 32)); [|lia].
      destruct (Z.leb_spec (c + 32) 122); [|lia].
      destruct (Z.leb_spec 97 c); simpl; lia.
    + reflexivity.
  - unfold is_ascii in *. rewrite Forall_map.
    eapply Forall_impl; [exact Hs|]. intros c Hc. cbv beta.
    destruct ((65 <=? c) && (c <=? 90)) eqn:E; [|exact Hc].
    apply andb_prop in E as [E1 E2]. apply Z.leb_le in E1, E2. lia.
Qed.

Lemma is_ascii_str_upper (s : list Z) : is_ascii s -> is_ascii (str_upper s).
Proof.
  intros Hs. rewrite (str_upper_ascii s Hs). unfold is_ascii in *.
  rewrite Forall_map. eapply Forall_impl; [exact Hs|]. intros c Hc. cbv beta.
  destruct ((97 <=? c) && (c <=? 122)) eqn:E; [|exact Hc].
  apply andb_prop in E as [E1 E2]. apply Z.leb_le in E1, E2. lia.
Qed.

Lemma hash_step_str_ord (t : hash_type) (st : Z * Z) (c : ascii) :
  hash_step_str t st (ord c) = hash_step t st c.
Proof. destruct st. reflexivity. Qed.

Lemma hash_fold_str_ord (t : hash_type) (l : list ascii) (st : Z * Z) :
  rfold (hash_step_str t) st (map ord l) = rfold (hash_step t) st l.
Proof.
  revert st. induction l as [|c l IH]; intros st; [reflexivity|].
  cbn [map]. rewrite !rfold_cons, hash_step_str_ord.
  destruct (hash_step t st c) as [st'|e]; [|reflexivity].
  rewrite !rbind_Ok. apply IH.
Qed.

(** A list of code points below 256 is the [str] of its characters taken as
    bytes. *)
Lemma codepoints_of_bytes (l : list Z) :
  Forall (fun c => 0 <= c < 256) l ->
  exists b, l = codepoints b.
Proof.
  induction 1 as [|c l Hc _ (b & ->)].
  - exists EmptyString. reflexivity.
  - exists (String (ascii_of_N (Z.to_N c)) b). unfold codepoints.
    cbn [list_ascii_of_string map]. f_equal. unfold ord.
    rewrite N_ascii_embedding by lia. lia.
Qed.

Lemma ord_upper_char (c : ascii) :
  ord (upper_char c)
  = if (97 <=? ord c) && (ord c <=? 122) then ord c - 32 else ord c.
Proof. destruct c as [[] [] [] [] [] [] [] []]; reflexivity. Qed.

Lemma codepoints_upper (b : string) :
  codepoints (upper b)
  = map (fun c => if (97 <=? c) && (c <=? 122) then c - 32 else c)
      (codepoints b).
Proof.
  unfold codepoints. induction b as [|c b IH]; [reflexivity|].
  cbn [upper list_ascii_of_string map]. rewrite IH, ord_upper_char.
  reflexivity.
Qed.

(** On a [str] of ASCII characters the hasher is the hasher of the same
    characters taken as bytes. *)
Lemma _hash_str_ascii (b : string) (t : hash_type) :
  is_ascii (codepoints b) -> _hash_str (codepoints b) t = _hash b t.
Proof.
  intros Hb. unfold _hash_str, _hash.
  rewrite (str_upper_ascii _ Hb), <- codepoints_upper.
  unfold codepoints. rewrite hash_fold_str_ord. reflexivity.
Qed.

Lemma _hash_str_ascii_total (s : list Z) (t : hash_type) :
  is_ascii s -> exists v, _hash_str s t = Ok v /\ 0 <= v < 2 ^ 32.
Proof.
  intros Hs.
  destruct (codepoints_of_bytes s) as (b & ->).
  { eapply Forall_impl; [exact Hs|]. intros c Hc. cbv beta in *. lia. }
  rewrite (_hash_str_ascii b t Hs). apply _hash_total.
Qed.

(** C8, the part that fails: the name [U+0130] (capital I with a dot
    above) is its own upper case, and its lower case is [i] followed by the
    combining dot [U+0307], whose upper case is [I] followed by [U+0307]:
    the two calls hash different characters. *)
Lemma hash_case_sensitive_str_counterexample :
  _hash_name (name_upper (StrName [0x130])) TABLE_OFFSET
  <> _hash_name (name_lower (StrName [0x130])) TABLE_OFFSET.
Proof. vm_compute. intros Heq. injection Heq as Heq. discriminate Heq. Qed.

(** The Kelvin sign [U+212A] is its own upper case and lies beyond the
    table, so hashing it raises [KeyError]; its lower case is [k], which is
    hashed. *)
Lemma hash_kelvin_sign :
  _hash_name (name_upper (StrName [0x212A])) TABLE_OFFSET = Raise KeyError
  /\ _hash_name (name_lower (StrName [0x212A])) TABLE_OFFSET
     = _hash "K" TABLE_OFFSET
  /\ exists v, _hash "K" TABLE_OFFSET = Ok v.
Proof.
  split; [vm_compute; reflexivity|]. split; [vm_compute; reflexivity|].
  destruct (_hash_total "K" TABLE_OFFSET) as (v & Hv & _). eauto.
Qed.

(** C8 (amended): on every [bytes] name and on every [str] name of ASCII
    characters, and for every purpose, hashing the upper-cased name and
    hashing the lower-cased name return the same word. *)
Theorem hash_case_insensitive_bytes_ascii (n : Name) (p : hash_type) :
  bytes_or_ascii n ->
  _hash_name (name_upper n) p = _hash_name (name_lower n) p
  /\ exists v, _hash_name (name_upper n) p = Ok v.
Proof.
  destruct n as [b|s]; cbn [bytes_or_ascii name_upper name_lower _hash_name].
  - intros _. apply hash_case_insensitive.
  - intros Hs. split.
    + unfold _hash_str.
      rewrite (str_upper_upper_ascii s Hs), (str_upper_lower_ascii s Hs).
      reflexivity.
    + destruct (_hash_str_ascii_total (str_upper s) p) as (v & Hv & _);
        [apply is_ascii_str_upper; exact Hs|]. eauto.
Qed.

Lemma hash_case_insensitive_bytes_ascii_sample :
  (_hash_name (name_upper (StrName [0x57; 0x61; 0x72])) HASH_A
   = _hash_name (name_lower (StrName [0x57; 0x61; 0x72])) HASH_A
   /\ exists v,
        _hash_name (name_upper (StrName [0x57; 0x61; 0x72])) HASH_A = Ok v)
  /\ (_hash_name (name_upper (BytesName (String "255" "m"))) HASH_B
      = _hash_name (name_lower (BytesName (String "255" "m"))) HASH_B
      /\ exists v,
           _hash_name (name_upper (BytesName (String "255" "m"))) HASH_B
           = Ok v).
Proof.
  split.
  - apply (hash_case_insensitive_bytes_ascii
             (StrName [0x57; 0x61; 0x72]) HASH_A).
    repeat constructor; lia.
  - apply (hash_case_insensitive_bytes_ascii
             (BytesName (String "255" "m")) HASH_B).
    exact I.
Defined.

(** * Further properties of the code *)

(** ** The hasher and the resolver *)

(** X1: on every byte string and for every purpose the hasher returns a
    32-bit word: no character of the string, upper-cased, leads outside the
    table, so the [KeyError] of the table lookup never happens. *)
Theorem hash_never_raises (name : string) (p : hash_type) :
  exists v, _hash name p = Ok v /\ 0 <= v < 2 ^ 32.
Proof. apply _hash_total. Qed.

Lemma _hash_upper (name : string) (p : hash_type) :
  _hash (upper name) p = _hash name p.
Proof. unfold _hash. rewrite upper_idem. reflexivity. Qed.

Lemma _hash_lower (name : string) (p : hash_type) :
  _hash (lower name) p = _hash name p.
Proof. unfold _hash. rewrite upper_lower. reflexivity. Qed.

Lemma find_first {A} (f : A -> bool) (l : list A) :
  match List.find f l with
  | Some x =>
      exists before after,
        l = before ++ x :: after /\ f x = true
        /\ Forall (fun y => f y = false) before
  | None => Forall (fun y => f y = false) l
  end.
Proof.
  induction l as [|y l IH]; simpl; [constructor|].
  destruct (f y) eqn:Hy.
  - exists [], l. split; [reflexivity|]. split; [exact Hy|constructor].
  - destruct (List.find f l) as [x|].
    + destruct IH as (before & after & -> & Hx & Hb).
      exists (y :: before), after. split; [reflexivity|].
      split; [exact Hx|]. constructor; assumption.
    + constructor; assumption.
Qed.

(** X2: once the two hashes of the name are computed (they always are for
    a [bytes] name and for a [str] name of ASCII characters), the resolver
    returns the first entry of the hash table whose two hashes are those of
    the name (locale and platform are not looked at), [None] when the table
    has no such entry, and it does not raise. *)
Theorem get_hash_table_entry_first (a : MPQArchive) (filename : string)
    (h_a h_b : Z) :
  _hash filename HASH_A = Ok h_a ->
  _hash filename HASH_B = Ok h_b ->
  match get_hash_table_entry a filename with
  | Ok (Some entry) =>
      exists before after,
        hash_table a = before ++ entry :: after
        /\ hash_a entry = h_a /\ hash_b entry = h_b
        /\ Forall (fun e => ~ (hash_a e = h_a /\ hash_b e = h_b)) before
  | Ok None =>
      Forall (fun e => ~ (hash_a e = h_a /\ hash_b e = h_b)) (hash_table a)
  | Raise _ => False
  end.
Proof.
  intros Ha Hb.
  unfold get_hash_table_entry. rewrite Ha, rbind_Ok, Hb, rbind_Ok.
  change (mret ?x) with (Ok x).
  set (f := fun entry => (hash_a entry =? h_a) && (hash_b entry =? h_b)).
  assert (Hf : forall e, f e = false -> ~ (hash_a e = h_a /\ hash_b e = h_b)).
  { intros e He [H1 H2]. unfold f in He.
    rewrite H1, H2, !Z.eqb_refl in He. discriminate. }
  pose proof (find_first f (hash_table a)) as Hfind.
  destruct (List.find f (hash_table a)) as [entry|].
  - destruct Hfind as (before & after & Hl & Hx & Hb').
    exists before, after. split; [exact Hl|].
    unfold f in Hx. apply andb_prop in Hx as [H1 H2].
    apply Z.eqb_eq in H1, H2. split; [exact H1|]. split; [exact H2|].
    eapply Forall_impl; [exact Hb'|]. exact Hf.
  - eapply Forall_impl; [exact Hfind|]. exact Hf.
Qed.

Lemma get_hash_table_entry_first_sample :
  match get_hash_table_entry listfile_archive "(attributes)" with
  | Ok (Some entry) =>
      exists before after,
        hash_table listfile_archive = before ++ entry :: after
        /\ hash_a entry = 3548657611 /\ hash_b entry = 132115180
        /\ Forall (fun e => ~ (hash_a e = 3548657611
                               /\ hash_b e = 132115180)) before
  | Ok None =>
      Forall (fun e => ~ (hash_a e = 3548657611 /\ hash_b e = 132115180))
        (hash_table listfile_archive)
  | Raise _ => False
  end.
Proof.
  apply (get_hash_table_entry_first listfile_archive "(attributes)"
           3548657611 132115180).
  - vm_compute. reflexivity.
  - vm_compute. reflexivity.
Defined.

(** ** The hasher on [str] names *)

Lemma table_keys :
  forallb (fun kv => (0 <=? fst kv) && (fst kv <? 1280))
    (map_to_list encryption_table) = true.
Proof. vm_compute. reflexivity. Qed.

Lemma table_get_KeyError (i : Z) :
  ~ 0 <= i < 1280 -> table_get i = Raise KeyError.
Proof.
  intros Hi. unfold table_get.
  destruct (encryption_table !! i) as [v|] eqn:Hv; [|reflexivity].
  exfalso. apply Hi.
  assert (Hin : (i, v) ∈ map_to_list encryption_table)
    by (apply elem_of_map_to_list; exact Hv).
  apply list_elem_of_In in Hin.
  pose proof (proj1 (forallb_forall _ _) table_keys _ Hin) as Hk.
  cbn [fst] in Hk. apply andb_prop in Hk as [H0 H1].
  apply Z.leb_le in H0. apply Z.ltb_lt in H1. lia.
Qed.

Lemma hash_step_str_cases (t : hash_type) (st : Z * Z) (ch : Z) :
  match hash_step_str t st ch with
  | Ok (s1, _) =>
      0 <= Z.shiftl (hash_types t) 8 + ch < 1280 /\ 0 <= s1 < 2 ^ 32
  | Raise e =>
      e = KeyError /\ ~ 0 <= Z.shiftl (hash_types t) 8 + ch < 1280
  end.
Proof.
  destruct st as [seed1 seed2]. unfold hash_step_str.
  destruct (Z.le_gt_cases 0 (Z.shiftl (hash_types t) 8 + ch)) as [H0|H0];
    [destruct (Z.lt_ge_cases (Z.shiftl (hash_types t) 8 + ch) 1280)
       as [H1|H1]|].
  - destruct (table_get_total (Z.shiftl (hash_types t) 8 + ch))
      as (v & Hv & _); [lia|].
    rewrite Hv, rbind_Ok. change (mret ?x) with (Ok x). cbv beta iota.
    split; [lia|].
    change 0xFFFFFFFF with (Z.ones 32). rewrite Z.land_ones by lia.
    apply Z.mod_pos_bound. lia.
  - rewrite table_get_KeyError by lia. split; [reflexivity|lia].
  - rewrite table_get_KeyError by lia. split; [reflexivity|lia].
Qed.

Lemma hash_fold_str_cases (t : hash_type) (l : list Z) (s1 s2 : Z) :
  0 <= s1 < 2 ^ 32 ->
  match rfold (hash_step_str t) (s1, s2) l with
  | Ok (r1, _) =>
      Forall (fun c => 0 <= Z.shiftl (hash_types t) 8 + c < 1280) l
      /\ 0 <= r1 < 2 ^ 32
  | Raise e =>
      e = KeyError
      /\ Exists (fun c => ~ 0 <= Z.shiftl (hash_types t) 8 + c < 1280) l
  end.
Proof.
  revert s1 s2. induction l as [|c l IH]; intros s1 s2 Hs.
  - split; [constructor|exact Hs].
  - rewrite rfold_cons.
    pose proof (hash_step_str_cases t (s1, s2) c) as Hc.
    destruct (hash_step_str t (s1, s2) c) as [[a1 a2]|e].
    + rewrite rbind_Ok. destruct Hc as [Hin Ha].
      specialize (IH a1 a2 Ha).
      destruct (rfold (hash_step_str t) (a1, a2) l) as [[r1 r2]|e].
      * destruct IH as [Hl Hr]. split; [constructor; assumption|exact Hr].
      * destruct IH as [He Hl]. split; [exact He|]. right. exact Hl.
    + destruct Hc as [He Hout]. split; [exact He|]. left. exact Hout.
Qed.

(** X24: a [str] name of ASCII characters and the [bytes] name of the same
    characters have the same hash, for every purpose. *)
Theorem hash_str_bytes_agree (b : string) (p : hash_type) :
  is_ascii (codepoints b) -> _hash_str (codepoints b) p = _hash b p.
Proof. apply _hash_str_ascii. Qed.

Lemma hash_str_bytes_agree_sample :
  _hash_str (codepoints "(listfile)") HASH_A = _hash "(listfile)" HASH_A.
Proof.
  apply (hash_str_bytes_agree "(listfile)" HASH_A).
  apply (bool_decide_unpack _). vm_compute. exact I.
Defined.

(** X25: on a [str] name the hasher either returns a 32-bit word or raises
    [KeyError], and it raises exactly when some character of the upper-cased
    name, added to 256 times the number of the purpose, is not one of the
    1280 keys of the table: from code point 1280 on for [TABLE_OFFSET], from
    code point 256 on for [HASH_NUM]. *)
Theorem hash_str_key_error (name : list Z) (p : hash_type) :
  match _hash_str name p with
  | Ok v =>
      Forall (fun c => 0 <= Z.shiftl (hash_types p) 8 + c < 1280)
        (str_upper name)
      /\ 0 <= v < 2 ^ 32
  | Raise e =>
      e = KeyError
      /\ Exists (fun c => ~ 0 <= Z.shiftl (hash_types p) 8 + c < 1280)
           (str_upper name)
  end.
Proof.
  unfold _hash_str.
  pose proof (hash_fold_str_cases p (str_upper name) 0x7FED7FED 0xEEEEEEEE)
    as Hf.
  destruct (rfold (hash_step_str p) (0x7FED7FED, 0xEEEEEEEE)
              (str_upper name)) as [[r1 r2]|e].
  - rewrite rbind_Ok. apply Hf. lia.
  - apply Hf. lia.
Qed.

(** The micro sign [U+00B5] has the upper case [U+039C], which [HASH_B]
    does not find in the table. *)
Lemma hash_micro_sign :
  _hash_str [0xB5] HASH_B = Raise KeyError
  /\ exists v, _hash_str [0xB5] TABLE_OFFSET = Ok v.
Proof. split; [vm_compute; reflexivity|]. vm_compute. eauto. Qed.

(** ** The file key *)

Lemma replace_backslash_app (s1 s2 : string) :
  replace_backslash (s1 ++ s2)
  = (replace_backslash s1 ++ replace_backslash s2)%string.
Proof.
  induction s1 as [|c s1 IH]; simpl; [reflexivity|].
  destruct (Ascii.eqb c "\"); simpl; rewrite IH; reflexivity.
Qed.

Lemma basename_from_slash (acc s1 s2 : string) :
  basename_from acc (s1 ++ String "/" s2) = basename_from EmptyString s2.
Proof.
  revert acc. induction s1 as [|c s1 IH]; intros acc; simpl; [reflexivity|].
  destruct (Ascii.eqb c "/"); apply IH.
Qed.

Lemma basename_after_separator (dir name : string) (sep : ascii) :
  sep = "\"%char \/ sep = "/"%char ->
  basename (replace_backslash (dir ++ String sep name))
  = basename (replace_backslash name).
Proof.
  intros Hsep. unfold basename. rewrite replace_backslash_app.
  destruct Hsep as [-> | ->]; simpl.
  - rewrite basename_from_slash. reflexivity.
  - apply basename_from_slash.
Qed.

(** X3: the key of a file is that of its last path component, with both
    [\] and [/] as separators: whatever stands before a separator does not
    change the key. *)
Theorem get_file_key_last_component (a : MPQArchive) (dir name : string)
    (sep : ascii) (block_entry : MPQBlockTableEntry) :
  sep = "\"%char \/ sep = "/"%char ->
  get_file_key a (dir ++ String sep name) block_entry true
  = get_file_key a name block_entry true.
Proof.
  intros Hsep. unfold get_file_key.
  rewrite (basename_after_separator dir name sep Hsep). reflexivity.
Qed.

Lemma get_file_key_last_component_sample :
  get_file_key (sample_archive 0) ("Scripts" ++ String "\" "war3map.j")
    sample_block true
  = get_file_key (sample_archive 0) "war3map.j" sample_block true.
Proof.
  apply (get_file_key_last_component (sample_archive 0) "Scripts"
           "war3map.j" "\"%char sample_block).
  left. reflexivity.
Defined.

(** The key never raises; without [FIX_KEY] it is a 32-bit word. *)
Lemma get_file_key_total (a : MPQArchive) (filename : string)
    (block_entry : MPQBlockTableEntry) (strip : bool) :
  exists key, get_file_key a filename block_entry strip = Ok key.
Proof.
  unfold get_file_key.
  destruct (_hash_total (if strip then basename (replace_backslash filename)
                         else filename) TABLE) as (k & Hk & _).
  rewrite Hk, rbind_Ok.
  destruct (has_flag (flags block_entry) MPQ_FILE_FIX_KEY); eexists;
    reflexivity.
Qed.

(** ** The dispatcher of codecs *)




(** ** The cipher, word by word *)

Lemma unwords_cons (w : Z) (ws : list Z) :
  unwords (w :: ws) = le_split 4 w ++ unwords ws.
Proof. reflexivity. Qed.

Lemma slice_unwords (ws : list Z) (i : nat) (w : Z) :
  ws !! i = Some w ->
  slice (unwords ws) (Z.of_nat i * 4) (Z.of_nat i * 4 + 4) = le_split 4 w.
Proof.
  revert i. induction ws as [|w0 ws IH]; intros i Hi; [discriminate|].
  rewrite unwords_cons.
  destruct i as [|i]; simpl in Hi.
  - injection Hi as ->. unfold slice.
    replace (Z.to_nat (Z.of_nat 0 * 4 + 4 - Z.of_nat 0 * 4))
      with (length (le_split 4 w)) by (rewrite length_le_split; lia).
    replace (Z.to_nat (Z.of_nat 0 * 4)) with 0%nat by lia.
    rewrite drop_0, take_app_length. reflexivity.
  - rewrite <- (IH i Hi). unfold slice.
    replace (Z.to_nat (Z.of_nat (S i) * 4 + 4 - Z.of_nat (S i) * 4))
      with (Z.to_nat (Z.of_nat i * 4 + 4 - Z.of_nat i * 4)) by lia.
    replace (Z.to_nat (Z.of_nat (S i) * 4))
      with (length (le_split 4 w0) + Z.to_nat (Z.of_nat i * 4))%nat
      by (rewrite length_le_split; lia).
    rewrite drop_app_add. reflexivity.
Qed.

Lemma length_unwords (ws : list Z) :
  length (unwords ws) = (4 * length ws)%nat.
Proof.
  induction ws as [|w ws IH]; [reflexivity|].
  rewrite unwords_cons.
  rewrite length_app, length_le_split, IH. simpl. lia.
Qed.

Lemma words_unwords (ws : list Z) :
  Forall word32 ws -> words (unwords ws) = ws.
Proof.
  intros Hws. unfold words. rewrite length_unwords.
  replace (Z.of_nat (4 * length ws) / 4) with (Z.of_nat (length ws))
    by (rewrite Nat2Z.inj_mul, Z.mul_comm, Z.div_mul; lia).
  apply list_eq. intros i. rewrite list_lookup_fmap.
  destruct (ws !! i) as [w|] eqn:Hw.
  - rewrite lookup_seqZ_lt by (apply lookup_lt_Some in Hw; lia).
    simpl. rewrite Z.add_0_l, (slice_unwords ws i w Hw), le_combine_split.
    f_equal. apply Z.mod_small.
    rewrite Forall_lookup in Hws. exact (Hws i w Hw).
  - rewrite lookup_seqZ_ge by (apply lookup_ge_None in Hw; lia).
    reflexivity.
Qed.

Lemma take_drop_word (data : bytes) (i : nat) :
  (4 * i + 4 <= length data)%nat ->
  take (4 * i + 4) data
  = take (4 * i) data ++ slice data (Z.of_nat i * 4) (Z.of_nat i * 4 + 4).
Proof.
  intros Hlen. unfold slice.
  replace (Z.to_nat (Z.of_nat i * 4 + 4 - Z.of_nat i * 4)) with 4%nat by lia.
  replace (Z.to_nat (Z.of_nat i * 4)) with (4 * i)%nat by lia.
  rewrite <- (take_drop (4 * i) (take (4 * i + 4) data)) at 1.
  rewrite take_take, Nat.min_l by lia. f_equal.
  symmetry. apply take_drop_commute.
Qed.

Lemma unwords_app (ws1 ws2 : list Z) :
  unwords (ws1 ++ ws2) = unwords ws1 ++ unwords ws2.
Proof. unfold unwords. apply flat_map_app. Qed.

Lemma unwords_words_take (data : bytes) (n : nat) :
  (4 * n <= length data)%nat ->
  unwords ((fun i => le_combine (slice data (i * 4) (i * 4 + 4)))
             <$> seqZ 0 (Z.of_nat n))
  = take (4 * n) data.
Proof.
  induction n as [|n IH]; intros Hlen; [reflexivity|].
  rewrite seqZ_S, fmap_app, unwords_app, IH by lia.
  replace (4 * S n)%nat with (4 * n + 4)%nat by lia.
  rewrite take_drop_word by lia. f_equal.
  cbn [fmap list_fmap]. rewrite unwords_cons.
  change (unwords []) with (@nil byte). rewrite app_nil_r, Z.add_0_l.
  rewrite <- (split_le_combine (slice data (Z.of_nat n * 4)
                                  (Z.of_nat n * 4 + 4))) at 2.
  f_equal. symmetry. apply length_slice_word; lia.
Qed.

(** A buffer of full words is the bytes of its words. *)
Lemma unwords_words (data : bytes) :
  (length data mod 4 = 0)%nat -> unwords (words data) = data.
Proof.
  intros Hmod. unfold words.
  pose proof (Nat.div_mod_eq (length data) 4) as Hd.
  replace (Z.of_nat (length data) / 4) with (Z.of_nat (length data / 4))
    by (rewrite Nat2Z.inj_div; reflexivity).
  rewrite unwords_words_take by lia.
  apply take_ge. lia.
Qed.

Lemma length_words (data : bytes) :
  length (words data) = (length data / 4)%nat.
Proof.
  unfold words. rewrite length_fmap, length_seqZ.
  rewrite <- (Nat2Z.id (length data / 4)). f_equal.
  rewrite Nat2Z.inj_div. reflexivity.
Qed.

Lemma table_get_mix (seed1 seed2 : Z) :
  exists t, table_get (0x400 + Z.land seed1 0xFF) = Ok t
            /\ Z.land (seed2 + t) 0xFFFFFFFF = mix_seed2 seed1 seed2.
Proof.
  destruct (table_get_total (0x400 + Z.land seed1 0xFF)) as (t & Ht & _).
  { change 0xFF with (Z.ones 8). rewrite Z.land_ones by lia.
    pose proof (Z.mod_pos_bound seed1 (2 ^ 8)). lia. }
  exists t. split; [exact Ht|]. unfold mix_seed2, table_get in *.
  destruct (encryption_table !! (0x400 + Z.land seed1 0xFF));
    [|discriminate]. injection Ht as ->. reflexivity.
Qed.

Lemma decrypt_step_word (data : bytes) (s1 s2 : Z) (res : bytes) (i : Z) :
  0 <= i -> 4 * i + 4 <= Z.of_nat (length data) ->
  let w := le_combine (slice data (i * 4) (i * 4 + 4)) in
  let s2a := mix_seed2 s1 s2 in
  let value := Z.land (Z.lxor w (s1 + s2a)) 0xFFFFFFFF in
  decrypt_step data (s1, s2, res) i
  = Ok (next_seed1 s1, next_seed2 value s2a, res ++ le_split 4 value).
Proof.
  intros Hi Hlen w s2a value. unfold decrypt_step.
  destruct (table_get_mix s1 s2) as (t & Ht & Hmix).
  rewrite Ht, rbind_Ok. unfold unpack_I.
  rewrite (length_slice_word data i Hi Hlen), Nat.eqb_refl, rbind_Ok.
  rewrite Hmix, pack_I_mask, rbind_Ok. reflexivity.
Qed.

Lemma decrypt_fold_words (data : bytes) (l : list Z) :
  (forall i, i ∈ l -> 0 <= i /\ 4 * i + 4 <= Z.of_nat (length data)) ->
  forall s1 s2 res,
  exists s1' s2',
    rfold (decrypt_step data) (s1, s2, res) l
    = Ok (s1', s2',
          res ++ unwords
                   (decrypt_words s1 s2
                      ((fun i => le_combine (slice data (i * 4) (i * 4 + 4)))
                         <$> l))).
Proof.
  induction l as [|i l IH]; intros Hl s1 s2 res.
  - exists s1, s2. simpl. rewrite app_nil_r. reflexivity.
  - destruct (Hl i) as [Hi Hlen]; [left|].
    rewrite rfold_cons, (decrypt_step_word data s1 s2 res i Hi Hlen), rbind_Ok.
    destruct (IH (fun j Hj => Hl j (list_elem_of_further _ _ _ Hj))
                (next_seed1 s1)
                (next_seed2
                   (Z.land (Z.lxor (le_combine (slice data (i * 4) (i * 4 + 4)))
                              (s1 + mix_seed2 s1 s2)) 0xFFFFFFFF)
                   (mix_seed2 s1 s2))
                (res ++ le_split 4
                   (Z.land (Z.lxor (le_combine (slice data (i * 4) (i * 4 + 4)))
                              (s1 + mix_seed2 s1 s2)) 0xFFFFFFFF)))
      as (b1 & b2 & Hout).
    exists b1, b2. rewrite Hout. f_equal. f_equal.
    rewrite <- app_assoc. reflexivity.
Qed.

(** What [_decrypt] computes: the words of the buffer, deciphered one
    after the other, as bytes. *)
Lemma _decrypt_words (data : bytes) (key : Z) :
  _decrypt data key
  = Ok (unwords (decrypt_words key 0xEEEEEEEE (words data))).
Proof.
  unfold _decrypt.
  destruct (decrypt_fold_words data (seqZ 0 (Z.of_nat (length data) / 4)))
    with (s1 := key) (s2 := 0xEEEEEEEE) (res := @nil byte)
    as (b1 & b2 & Hout).
  { intros i Hi. apply elem_of_seqZ in Hi.
    pose proof (Z.mul_div_le (Z.of_nat (length data)) 4). lia. }
  rewrite Hout, rbind_Ok. reflexivity.
Qed.

Lemma decrypt_words_word32 (ws : list Z) (s1 s2 : Z) :
  Forall word32 (decrypt_words s1 s2 ws).
Proof.
  revert s1 s2. induction ws as [|w ws IH]; intros s1 s2; simpl;
    constructor; [apply mask32_range|apply IH].
Qed.

Lemma encrypt_words_word32 (vs : list Z) (s1 s2 : Z) :
  Forall word32 (encrypt_words s1 s2 vs).
Proof.
  revert s1 s2. induction vs as [|v vs IH]; intros s1 s2; simpl;
    constructor; [apply mask32_range|apply IH].
Qed.

Lemma xor_mask_twice (w x : Z) :
  word32 w ->
  Z.land (Z.lxor (Z.land (Z.lxor w x) 0xFFFFFFFF) x) 0xFFFFFFFF = w.
Proof.
  intros Hw. change 0xFFFFFFFF with (Z.ones 32).
  rewrite !Z.land_ones by lia.
  rewrite <- (Z.mod_small w (2 ^ 32) Hw) at 2.
  apply Z.bits_inj'. intros n Hn.
  destruct (Z.lt_ge_cases n 32) as [Hlt|Hge].
  - rewrite !Z.mod_pow2_bits_low, Z.lxor_spec, Z.mod_pow2_bits_low,
      Z.lxor_spec by lia.
    destruct (Z.testbit w n), (Z.testbit x n); reflexivity.
  - rewrite !Z.mod_pow2_bits_high by lia. reflexivity.
Qed.

Lemma decrypt_encrypt_words (vs : list Z) (s1 s2 : Z) :
  Forall word32 vs -> decrypt_words s1 s2 (encrypt_words s1 s2 vs) = vs.
Proof.
  intros Hvs. revert s1 s2.
  induction Hvs as [|v vs Hv Hvs IH]; intros s1 s2; [reflexivity|].
  simpl. rewrite (xor_mask_twice v _ Hv), IH. reflexivity.
Qed.

Lemma encrypt_decrypt_words (ws : list Z) (s1 s2 : Z) :
  Forall word32 ws -> encrypt_words s1 s2 (decrypt_words s1 s2 ws) = ws.
Proof.
  intros Hws. revert s1 s2.
  induction Hws as [|w ws Hw Hws IH]; intros s1 s2; [reflexivity|].
  simpl. rewrite (xor_mask_twice w _ Hw), IH. reflexivity.
Qed.

Lemma length_decrypt_words (ws : list Z) (s1 s2 : Z) :
  length (decrypt_words s1 s2 ws) = length ws.
Proof.
  revert s1 s2. induction ws as [|w ws IH]; intros s1 s2; simpl;
    [reflexivity|]. rewrite IH. reflexivity.
Qed.

Lemma length_encrypt_words (vs : list Z) (s1 s2 : Z) :
  length (encrypt_words s1 s2 vs) = length vs.
Proof.
  revert s1 s2. induction vs as [|v vs IH]; intros s1 s2; simpl;
    [reflexivity|]. rewrite IH. reflexivity.
Qed.

Lemma words_word32 (data : bytes) : Forall word32 (words data).
Proof.
  unfold words. apply Forall_fmap, Forall_forall. intros i Hi. simpl.
  apply elem_of_seqZ in Hi.
  pose proof (Z.mul_div_le (Z.of_nat (length data)) 4).
  pose proof (le_combine_bound (slice data (i * 4) (i * 4 + 4))) as Hb.
  rewrite length_slice_word in Hb by lia. exact Hb.
Qed.

Lemma decrypt_words_app (ws1 ws2 : list Z) (s1 s2 : Z) :
  exists t1 t2,
    decrypt_words s1 s2 (ws1 ++ ws2)
    = decrypt_words s1 s2 ws1 ++ decrypt_words t1 t2 ws2.
Proof.
  revert s1 s2. induction ws1 as [|w ws1 IH]; intros s1 s2.
  - exists s1, s2. reflexivity.
  - simpl. edestruct IH as (t1 & t2 & Ht). exists t1, t2.
    rewrite Ht. reflexivity.
Qed.

Lemma words_take (data : bytes) (k : nat) :
  (4 * k <= length data)%nat ->
  words (take (4 * k) data) = take k (words data).
Proof.
  intros Hlen. unfold words. rewrite length_take, Nat.min_l by lia.
  replace (Z.of_nat (4 * k) / 4) with (Z.of_nat k)
    by (rewrite Nat2Z.inj_mul, Z.mul_comm, Z.div_mul; lia).
  assert (Hk : Z.of_nat k <= Z.of_nat (length data) / 4).
  { apply Z.div_le_lower_bound; lia. }
  apply list_eq. intros i. rewrite list_lookup_fmap.
  destruct (decide (i < k)%nat) as [Hi|Hi].
  - rewrite lookup_take_lt, list_lookup_fmap, !lookup_seqZ_lt by lia.
    simpl. rewrite slice_take by lia. reflexivity.
  - rewrite lookup_take_ge, lookup_seqZ_ge by lia. reflexivity.
Qed.

Lemma decrypt_words_take (ws : list Z) (k : nat) (s1 s2 : Z) :
  decrypt_words s1 s2 (take k ws) = take k (decrypt_words s1 s2 ws).
Proof.
  revert k s1 s2. induction ws as [|w ws IH]; intros k s1 s2.
  - simpl. rewrite !take_nil. reflexivity.
  - destruct k as [|k]; [reflexivity|]. simpl. rewrite IH. reflexivity.
Qed.

Lemma unwords_take (ws : list Z) (k : nat) :
  unwords (take k ws) = take (4 * k) (unwords ws).
Proof.
  revert k. induction ws as [|w ws IH]; intros k.
  - change (unwords []) with (@nil byte). rewrite !take_nil. reflexivity.
  - destruct k as [|k]; [reflexivity|].
    cbn [take]. rewrite !unwords_cons, IH.
    replace (4 * S k)%nat with (length (le_split 4 w) + 4 * k)%nat
      by (rewrite length_le_split; lia).
    rewrite take_app_add. reflexivity.
Qed.

(** X5: the first [k] words that [_decrypt] returns depend on the key and
    on the first [k] words of the buffer only: deciphering a prefix of full
    words gives the prefix of the output. *)
Theorem decrypt_prefix (data : bytes) (key : Z) (k : nat) :
  (4 * k <= length data)%nat ->
  exists out,
    _decrypt data key = Ok out
    /\ _decrypt (take (4 * k) data) key = Ok (take (4 * k) out).
Proof.
  intros Hlen. rewrite !_decrypt_words. eexists. split; [reflexivity|].
  rewrite words_take, decrypt_words_take, unwords_take by exact Hlen.
  reflexivity.
Qed.

Lemma decrypt_prefix_sample :
  exists out,
    _decrypt [x01; x02; x03; x04; x05; x06; x07; x08; x09] 7 = Ok out
    /\ _decrypt (take (4 * 1) [x01; x02; x03; x04; x05; x06; x07; x08; x09]) 7
       = Ok (take (4 * 1) out).
Proof.
  apply (decrypt_prefix [x01; x02; x03; x04; x05; x06; x07; x08; x09] 7 1).
  simpl. lia.
Defined.

(** X6: for a fixed key [_decrypt] is injective on buffers of full words:
    two buffers of the same length, a multiple of 4, that decipher to the
    same bytes are equal. *)
Theorem decrypt_injective (data1 data2 : bytes) (key : Z) :
  (length data1 mod 4 = 0)%nat ->
  length data1 = length data2 ->
  _decrypt data1 key = _decrypt data2 key ->
  data1 = data2.
Proof.
  intros Hmod Hlen Heq. rewrite !_decrypt_words in Heq.
  injection Heq as Heq.
  apply (f_equal words) in Heq.
  rewrite !words_unwords in Heq by apply decrypt_words_word32.
  apply (f_equal (encrypt_words key 0xEEEEEEEE)) in Heq.
  rewrite !encrypt_decrypt_words in Heq by apply words_word32.
  rewrite <- (unwords_words data1), <- (unwords_words data2), Heq
    by (rewrite <- ?Hlen; exact Hmod).
  reflexivity.
Qed.

Lemma decrypt_injective_sample :
  [x01; x02; x03; x04] = [x01; x02; x03; x04].
Proof.
  apply (decrypt_injective [x01; x02; x03; x04] [x01; x02; x03; x04] 7);
    reflexivity.
Defined.

(** X7: for a fixed key [_decrypt] reaches every buffer of full words: the
    words of [encrypt data key], written with the same seeds, decipher to
    [data], and are as many. *)
Theorem decrypt_encrypt (data : bytes) (key : Z) :
  (length data mod 4 = 0)%nat ->
  length (encrypt data key) = length data
  /\ _decrypt (encrypt data key) key = Ok data.
Proof.
  intros Hmod. unfold encrypt. split.
  - rewrite length_unwords, length_encrypt_words, length_words.
    pose proof (Nat.div_mod_eq (length data) 4). lia.
  - rewrite _decrypt_words, words_unwords by apply encrypt_words_word32.
    rewrite decrypt_encrypt_words by apply words_word32.
    rewrite unwords_words by exact Hmod. reflexivity.
Qed.

Lemma decrypt_encrypt_sample :
  length (encrypt [x4d; x50; x51; x1a; x00; x00; x00; x20] 0xC3AF3770)
  = length [x4d; x50; x51; x1a; x00; x00; x00; x20]
  /\ _decrypt (encrypt [x4d; x50; x51; x1a; x00; x00; x00; x20] 0xC3AF3770)
       0xC3AF3770
     = Ok [x4d; x50; x51; x1a; x00; x00; x00; x20].
Proof.
  apply (decrypt_encrypt [x4d; x50; x51; x1a; x00; x00; x00; x20] 0xC3AF3770).
  reflexivity.
Defined.

(** ** Stored files *)

(** [read_block] after its seek and its read. *)
Lemma read_block_run `{Codecs} (filename : string) (force : bool)
    (block_entry : MPQBlockTableEntry) (s : State) :
  let o := offset block_entry + offset_ (header (self s)) in
  let blob := blob_at (self s) o (archived_size block_entry) in
  let s' := after_read s o (length blob) in
  0 <= o ->
  read_block filename force block_entry s
  = match (if has_flag (flags block_entry) MPQ_FILE_ENCRYPTED
           then get_file_key (self s') filename block_entry true
           else Ok 0) with
    | Ok key =>
        if negb (has_flag (flags block_entry) MPQ_FILE_SINGLE_UNIT)
        then read_sectors force blob block_entry key s'
        else read_single_unit force blob block_entry s'
    | Raise e => (Raise e, s')
    end.
Proof.
  intros o blob s' Ho. unfold read_block.
  rewrite bind_run. unfold get_self at 1. rewrite bind_run.
  unfold file_seek. fold o.
  destruct (Z.ltb_spec o 0) as [Hneg|_]; [lia|].
  rewrite bind_run. unfold file_read.
  cbn [self file set_pos pos content stdout].
  change (if archived_size block_entry <? 0
          then drop (Z.to_nat o) (content (file (self s)))
          else take (Z.to_nat (archived_size block_entry))
                 (drop (Z.to_nat o) (content (file (self s)))))
    with blob.
  change {| self := set_pos (set_pos (self s) o) (o + Z.of_nat (length blob));
            stdout := stdout s |} with s'.
  rewrite bind_run. unfold get_self at 1. rewrite bind_run.
  destruct (has_flag (flags block_entry) MPQ_FILE_ENCRYPTED).
  - unfold lift. destruct (get_file_key (self s') filename block_entry true);
      [|reflexivity].
    destruct (has_flag (flags block_entry) MPQ_FILE_SINGLE_UNIT); reflexivity.
  - change ((mret 0 : M Z) s') with (Ok 0, s').
    destruct (has_flag (flags block_entry) MPQ_FILE_SINGLE_UNIT); reflexivity.
Qed.


Local Open Scope string_scope.


Local Close Scope string_scope.

Lemma implode_quirk_plain (block_flags : Z) (sector : bytes) :
  starts_00_06 sector = false ->
  implode_quirk block_flags sector = (block_flags, sector).
Proof.
  intros Hs. destruct sector as [|b0 [|b1 rest]]; [reflexivity| |].
  - destruct b0; reflexivity.
  - destruct b0; try reflexivity. destruct b1; try reflexivity.
    discriminate Hs.
Qed.

Lemma py_index_nth (l : list Z) (i : Z) :
  0 <= i < Z.of_nat (length l) ->
  py_index l i = Ok (nth (Z.to_nat i) l 0).
Proof.
  intros Hi. unfold py_index.
  destruct (Z.ltb_spec i 0) as [Hneg|_]; [lia|].
  destruct (Z.ltb_spec i 0) as [Hneg|_]; [lia|].
  destruct (l !! Z.to_nat i) as [x|] eqn:Hx.
  - simpl. f_equal. symmetry. apply nth_lookup_Some with (d := 0) in Hx.
    exact Hx.
  - apply lookup_ge_None in Hx. lia.
Qed.

(** A sector of a file that is neither encrypted nor flagged [COMPRESS],
    and does not start with [00 06], is appended as it is. *)
Lemma sector_step_stored `{Codecs} (force : bool) (file_data : bytes)
    (block_entry : MPQBlockTableEntry) (key : Z) (positions : list Z)
    (left : Z) (result : bytes) (i : Z) (s : State) :
  has_flag (flags block_entry) MPQ_FILE_ENCRYPTED = false ->
  has_flag (flags block_entry) MPQ_FILE_COMPRESS = false ->
  0 <= i -> i + 1 < Z.of_nat (length positions) ->
  starts_00_06 (sector_at file_data positions i) = false ->
  sector_step force file_data block_entry key positions (left, result) i s
  = (Ok (left - Z.of_nat (length (sector_at file_data positions i)),
         result ++ sector_at file_data positions i), s).
Proof.
  intros Henc Hcomp Hi Hlen Hplain.
  unfold sector_step, mbind, M_bind, lift, mret, M_ret.
  rewrite !py_index_nth, Henc by lia. cbv beta iota.
  fold (sector_at file_data positions i).
  rewrite (implode_quirk_plain _ _ Hplain), Hcomp. reflexivity.
Qed.

Lemma mfold_stored `{Codecs} (force : bool) (file_data : bytes)
    (block_entry : MPQBlockTableEntry) (key : Z) (positions : list Z)
    (l : list Z) (s : State) :
  has_flag (flags block_entry) MPQ_FILE_ENCRYPTED = false ->
  has_flag (flags block_entry) MPQ_FILE_COMPRESS = false ->
  (forall i, i ∈ l ->
     0 <= i /\ i + 1 < Z.of_nat (length positions)
     /\ starts_00_06 (sector_at file_data positions i) = false) ->
  forall left result,
  exists left',
    mfold (sector_step force file_data block_entry key positions)
      (left, result) l s
    = (Ok (left', result ++ flat_map (sector_at file_data positions) l), s).
Proof.
  intros Henc Hcomp. induction l as [|i l IH]; intros Hl left result.
  - exists left. simpl. rewrite app_nil_r. reflexivity.
  - destruct (Hl i) as (Hi & Hlen & Hplain); [left|].
    cbn [mfold]. rewrite bind_run.
    rewrite (sector_step_stored force file_data block_entry key positions
               left result i s Henc Hcomp Hi Hlen Hplain).
    destruct (IH (fun j Hj => Hl j (list_elem_of_further _ _ _ Hj))
                (left - Z.of_nat (length (sector_at file_data positions i)))
                (result ++ sector_at file_data positions i))
      as (left' & Hfold).
    exists left'. rewrite Hfold. simpl flat_map.
    rewrite <- app_assoc. reflexivity.
Qed.

Lemma read_sectors_stored `{Codecs} (force : bool) (file_data : bytes)
    (block_entry : MPQBlockTableEntry) (key : Z) (positions : list Z)
    (s : State) :
  let n := Z.of_nat (length positions)
           - (if crc block_entry then 2 else 1) in
  has_flag (flags block_entry) MPQ_FILE_ENCRYPTED = false ->
  has_flag (flags block_entry) MPQ_FILE_COMPRESS = false ->
  read_positions (header (self s)) block_entry file_data key = Ok positions ->
  (forall i, 0 <= i < n ->
     starts_00_06 (sector_at file_data positions i) = false) ->
  read_sectors force file_data block_entry key s
  = (Ok (flat_map (sector_at file_data positions) (seqZ 0 n)), s).
Proof.
  intros n Henc Hcomp Hpos Hplain. unfold read_sectors.
  rewrite bind_run. unfold get_self at 1. rewrite bind_run.
  unfold lift. rewrite Hpos. rewrite bind_run. fold n.
  destruct (mfold_stored force file_data block_entry key positions
              (seqZ 0 n) s Henc Hcomp) with (left := size block_entry)
              (result := @nil byte) as (left' & Hfold).
  { intros i Hi. apply elem_of_seqZ in Hi. unfold n in Hi.
    split; [lia|]. split.
    - destruct (crc block_entry); lia.
    - apply Hplain. unfold n. lia. }
  rewrite Hfold. reflexivity.
Qed.

(** X9: a file in sectors that is neither encrypted nor flagged
    [COMPRESS], none of whose sectors starts with [00 06], is returned as
    the bytes of its blob between consecutive offsets of its table, sector
    after sector up to the last data sector. *)
Theorem read_file_sectored_stored `{Codecs} (filename : string)
    (force : bool) (s : State) (hash_entry : MPQHashTableEntry)
    (block_entry : MPQBlockTableEntry) (positions : list Z) :
  let o := offset block_entry + offset_ (header (self s)) in
  let blob := slice (content (file (self s))) o
                (o + archived_size block_entry) in
  let n := Z.of_nat (length positions)
           - (if has_flag (flags block_entry) MPQ_FILE_SECTOR_CRC
              then 2 else 1) in
  get_hash_table_entry (self s) filename = Ok (Some hash_entry) ->
  py_index (block_table (self s)) (block_table_index hash_entry)
  = Ok block_entry ->
  has_flag (flags block_entry) MPQ_FILE_EXISTS = true ->
  0 < archived_size block_entry ->
  0 <= o ->
  has_flag (flags block_entry) MPQ_FILE_SINGLE_UNIT = false ->
  has_flag (flags block_entry) MPQ_FILE_ENCRYPTED = false ->
  has_flag (flags block_entry) MPQ_FILE_COMPRESS = false ->
  read_positions (header (self s)) block_entry blob 0 = Ok positions ->
  (forall i, 0 <= i < n ->
     starts_00_06 (sector_at blob positions i) = false) ->
  fst (read_file filename force s)
  = Ok (Some (flat_map (sector_at blob positions) (seqZ 0 n))).
Proof.
  intros o blob n Hhe Hbe Hex Hasz Ho Hsu Henc Hcomp Hpos Hplain.
  rewrite read_file_run, Hhe, Hbe, Hex.
  destruct (Z.eqb_spec (archived_size block_entry) 0) as [Hz|_]; [lia|].
  rewrite read_block_run by exact Ho.
  cbn [self stdout]. fold o. rewrite Hsu, Henc. cbn [negb].
  assert (Hblob : blob_at (self s) o (archived_size block_entry) = blob).
  { unfold blob_at, blob, slice.
    destruct (Z.ltb_spec (archived_size block_entry) 0); [lia|].
    do 2 f_equal. lia. }
  rewrite Hblob.
  rewrite (read_sectors_stored force blob block_entry 0 positions);
    [reflexivity|exact Henc|exact Hcomp|exact Hpos|exact Hplain].
Qed.

Local Open Scope string_scope.

Lemma read_file_sectored_stored_sample :
  fst (@read_file no_codecs "(listfile)" false
         {| self := sectored_archive; stdout := [] |})
  = Ok (Some (flat_map
                (sector_at
                   (slice (content (file sectored_archive)) (32 + 0)
                      (32 + 0 + 16)) [8; 16])
                (seqZ 0 (Z.of_nat (length [8; 16]) - 1)))).
Proof.
  apply (@read_file_sectored_stored no_codecs "(listfile)" false
           {| self := sectored_archive; stdout := [] |}
           {| hash_a := 0xFD657910; hash_b := 0x4E9B98A7; locale := 0;
              platform := 0; block_table_index := 0 |}
           {| offset := 32; archived_size := 16; size := 8;
              flags := MPQ_FILE_EXISTS |} [8; 16]).
  - vm_compute. reflexivity.
  - vm_compute. reflexivity.
  - vm_compute. reflexivity.
  - simpl. lia.
  - simpl. lia.
  - vm_compute. reflexivity.
  - vm_compute. reflexivity.
  - vm_compute. reflexivity.
  - vm_compute. reflexivity.
  - intros i Hi. assert (i = 0) as -> by (simpl in Hi; lia).
    vm_compute. reflexivity.
Defined.

Local Close Scope string_scope.

(** ** What reading changes *)

Create HintDb tame.

Lemma same_archive_refl (a : MPQArchive) : same_archive a a.
Proof. reflexivity. Qed.

Lemma same_archive_trans (a b c : MPQArchive) :
  same_archive a b -> same_archive b c -> same_archive a c.
Proof. unfold same_archive. congruence. Qed.

Lemma same_archive_set_pos (a : MPQArchive) (p : Z) :
  same_archive (set_pos a p) a.
Proof. reflexivity. Qed.

Lemma same_archive_fields (a a' : MPQArchive) :
  same_archive a a' <->
  content (file a) = content (file a') /\ header a = header a'
  /\ hash_table a = hash_table a' /\ block_table a = block_table a'
  /\ files a = files a'.
Proof.
  unfold same_archive, set_pos. split.
  - intros Heq. injection Heq as Hc Hh Ht Hb Hf. auto.
  - intros (Hc & Hh & Ht & Hb & Hf). rewrite Hc, Hh, Ht, Hb, Hf.
    reflexivity.
Qed.

Lemma tame_ret {A} (a : A) : tame (mret a : M A).
Proof. intros s. split; [reflexivity|discriminate]. Qed.

Lemma tame_raise {A} (e : exn) : e <> RuntimeError -> tame (raise e : M A).
Proof. intros He s. split; [reflexivity|]. simpl. congruence. Qed.

Lemma tame_lift {A} (r : result A) : r <> Raise RuntimeError -> tame (lift r).
Proof. intros Hr s. split; [reflexivity|exact Hr]. Qed.

Lemma tame_get_self : tame get_self.
Proof. intros s. split; [reflexivity|discriminate]. Qed.

Lemma tame_print (e : event) : tame (print e).
Proof. intros s. split; [reflexivity|discriminate]. Qed.

Lemma tame_file_seek (offset : Z) : tame (file_seek offset).
Proof.
  intros s. unfold file_seek.
  destruct (offset <? 0); (split; [reflexivity|discriminate]).
Qed.

Lemma tame_file_read (n : Z) : tame (file_read n).
Proof. intros s. split; [reflexivity|discriminate]. Qed.

Lemma tame_bind {A B} (m : M A) (f : A -> M B) :
  tame m -> (forall a, tame (f a)) -> tame (m ≫= f).
Proof.
  intros Hm Hf s. rewrite bind_run. destruct (Hm s) as [Hs Hr].
  destruct (m s) as [[a|e] s']; cbn [fst snd] in *.
  - destruct (Hf a s') as [Hs' Hr']. split; [|exact Hr'].
    eapply same_archive_trans; eassumption.
  - split; [assumption|]. intros Heq. apply Hr. congruence.
Qed.

Lemma tame_mfold {A B} (f : A -> B -> M A) (l : list B) :
  (forall a x, tame (f a x)) -> forall acc, tame (mfold f acc l).
Proof.
  intros Hf. induction l as [|x l IH]; intros acc; simpl.
  - apply tame_ret.
  - apply tame_bind; [apply Hf|exact IH].
Qed.

Lemma of_option_not_runtime {A} (e : exn) (o : option A) :
  e <> RuntimeError -> of_option e o <> Raise RuntimeError.
Proof. intros He. destruct o; simpl; congruence. Qed.

Lemma py_index_not_runtime {A} (l : list A) (i : Z) :
  py_index l i <> Raise RuntimeError.
Proof.
  unfold py_index.
  destruct ((if i <? 0 then i + Z.of_nat (length l) else i) <? 0);
    [discriminate|]. apply of_option_not_runtime. discriminate.
Qed.

Lemma _decrypt_not_runtime (data : bytes) (key : Z) :
  _decrypt data key <> Raise RuntimeError.
Proof. rewrite _decrypt_words. discriminate. Qed.

Lemma get_file_key_not_runtime (a : MPQArchive) (filename : string)
    (block_entry : MPQBlockTableEntry) (strip : bool) :
  get_file_key a filename block_entry strip <> Raise RuntimeError.
Proof.
  destruct (get_file_key_total a filename block_entry strip) as (k & ->).
  discriminate.
Qed.

Lemma get_hash_table_entry_not_runtime (a : MPQArchive) (filename : string) :
  get_hash_table_entry a filename <> Raise RuntimeError.
Proof.
  destruct (get_hash_table_entry_total a filename) as (r & ->).
  discriminate.
Qed.

Lemma read_positions_not_runtime (h : Header)
    (block_entry : MPQBlockTableEntry) (file_data : bytes) (key : Z) :
  read_positions h block_entry file_data key <> Raise RuntimeError.
Proof.
  unfold read_positions.
  assert (Hu : forall n b, unpack_Is n b <> Raise RuntimeError).
  { intros n b. unfold unpack_Is.
    destruct (Z.of_nat (length b) =? 4 * n); discriminate. }
  destruct (has_flag (flags block_entry) MPQ_FILE_ENCRYPTED).
  - rewrite _decrypt_words, rbind_Ok. apply Hu.
  - change (mret ?x ≫= ?f) with (f x). apply Hu.
Qed.

#[local] Hint Resolve tame_ret tame_get_self tame_print tame_file_seek
  tame_file_read py_index_not_runtime _decrypt_not_runtime
  get_file_key_not_runtime get_hash_table_entry_not_runtime
  read_positions_not_runtime : tame.

Ltac tame_step :=
  match goal with
  | |- tame (_ ≫= _) => apply tame_bind; [|intros ?]
  | |- tame (mfold _ _ _) => apply tame_mfold; intros ? ?
  | |- tame (raise _) => apply tame_raise; discriminate
  | |- tame (lift (of_option _ _)) =>
      apply tame_lift, of_option_not_runtime; discriminate
  | |- tame (lift _) => apply tame_lift; solve [auto with tame]
  | |- tame (if ?b then _ else _) => destruct b
  | |- tame (match ?x with _ => _ end) => destruct x
  | |- tame (let '(_, _) := ?x in _) => destruct x
  | |- tame _ => solve [auto with tame]
  end.

Lemma tame_decompress `{Codecs} (data : bytes) : tame (decompress data).
Proof. unfold decompress. repeat tame_step. Qed.

Lemma tame_sector_step `{Codecs} (force : bool) (file_data : bytes)
    (block_entry : MPQBlockTableEntry) (key : Z) (positions : list Z)
    (st : Z * bytes) (i : Z) :
  tame (sector_step force file_data block_entry key positions st i).
Proof.
  unfold sector_step. destruct st as [left result].
  repeat first [apply tame_decompress | tame_step].
Qed.

Lemma tame_read_sectors `{Codecs} (force : bool) (file_data : bytes)
    (block_entry : MPQBlockTableEntry) (key : Z) :
  tame (read_sectors force file_data block_entry key).
Proof.
  unfold read_sectors. repeat first [apply tame_sector_step | tame_step].
Qed.

Lemma tame_read_single_unit `{Codecs} (force : bool) (file_data : bytes)
    (block_entry : MPQBlockTableEntry) :
  tame (read_single_unit force file_data block_entry).
Proof.
  unfold read_single_unit. repeat first [apply tame_decompress | tame_step].
Qed.

Lemma tame_read_block `{Codecs} (filename : string) (force : bool)
    (block_entry : MPQBlockTableEntry) :
  tame (read_block filename force block_entry).
Proof.
  unfold read_block.
  repeat first [apply tame_read_sectors | apply tame_read_single_unit
               | tame_step].
Qed.

Lemma tame_read_file `{Codecs} (filename : string) (force : bool) :
  tame (read_file filename force).
Proof.
  unfold read_file. repeat first [apply tame_read_block | tame_step].
Qed.

(** X10: [read_file] changes nothing of the archive object but the position
    of its file (the content of the file, the header, both tables and the
    list of names stay), whatever it returns or raises, and it never raises
    [RuntimeError]. *)
Theorem read_file_changes_position_only `{Codecs} (filename : string)
    (force : bool) (s : State) :
  let a := self s in
  let a' := self (snd (read_file filename force s)) in
  content (file a') = content (file a)
  /\ header a' = header a
  /\ hash_table a' = hash_table a
  /\ block_table a' = block_table a
  /\ files a' = files a
  /\ fst (read_file filename force s) <> Raise RuntimeError.
Proof.
  intros a a'. destruct (tame_read_file filename force s) as [Hs Hr].
  apply same_archive_fields in Hs. fold a a' in Hs.
  destruct Hs as (Hc & Hh & Ht & Hb & Hf). auto 10.
Qed.

(** ** What reading depends on *)

Create HintDb blind.

Lemma blind_ret {A} (a : A) : stdout_blind (mret a : M A).
Proof. intros s s' Hs. split; [reflexivity|exact Hs]. Qed.

Lemma blind_raise {A} (e : exn) : stdout_blind (raise e : M A).
Proof. intros s s' Hs. split; [reflexivity|exact Hs]. Qed.

Lemma blind_lift {A} (r : result A) : stdout_blind (lift r).
Proof. intros s s' Hs. split; [reflexivity|exact Hs]. Qed.

Lemma blind_get_self : stdout_blind get_self.
Proof. intros s s' Hs. split; [simpl; rewrite Hs; reflexivity|exact Hs]. Qed.

Lemma blind_print (e : event) : stdout_blind (print e).
Proof. intros s s' Hs. split; [reflexivity|exact Hs]. Qed.

Lemma blind_file_seek (offset : Z) : stdout_blind (file_seek offset).
Proof.
  intros s s' Hs. unfold file_seek.
  destruct (offset <? 0); simpl; rewrite Hs; split; reflexivity.
Qed.

Lemma blind_file_read (n : Z) : stdout_blind (file_read n).
Proof.
  intros s s' Hs. unfold file_read. simpl. rewrite Hs. split; reflexivity.
Qed.

Lemma blind_bind {A B} (m : M A) (f : A -> M B) :
  stdout_blind m -> (forall a, stdout_blind (f a)) -> stdout_blind (m ≫= f).
Proof.
  intros Hm Hf s s' Hs. rewrite !bind_run. destruct (Hm s s' Hs) as [Hr Hs1].
  destruct (m s) as [[a|e] s1], (m s') as [[a'|e'] s1'];
    cbn [fst snd] in *; try discriminate Hr.
  - injection Hr as <-. apply Hf, Hs1.
  - injection Hr as <-. split; [reflexivity|exact Hs1].
Qed.

Lemma blind_mfold {A B} (f : A -> B -> M A) (l : list B) :
  (forall a x, stdout_blind (f a x)) ->
  forall acc, stdout_blind (mfold f acc l).
Proof.
  intros Hf. induction l as [|x l IH]; intros acc; simpl.
  - apply blind_ret.
  - apply blind_bind; [apply Hf|exact IH].
Qed.

#[local] Hint Resolve blind_ret blind_raise blind_lift blind_get_self
  blind_print blind_file_seek blind_file_read : blind.

Ltac blind_step :=
  match goal with
  | |- stdout_blind (_ ≫= _) => apply blind_bind; [|intros ?]
  | |- stdout_blind (mfold _ _ _) => apply blind_mfold; intros ? ?
  | |- stdout_blind (if ?b then _ else _) => destruct b
  | |- stdout_blind (match ?x with _ => _ end) => destruct x
  | |- stdout_blind (let '(_, _) := ?x in _) => destruct x
  | |- stdout_blind _ => solve [auto with blind]
  end.

Lemma blind_decompress `{Codecs} (data : bytes) :
  stdout_blind (decompress data).
Proof. unfold decompress. repeat blind_step. Qed.

Lemma blind_sector_step `{Codecs} (force : bool) (file_data : bytes)
    (block_entry : MPQBlockTableEntry) (key : Z) (positions : list Z)
    (st : Z * bytes) (i : Z) :
  stdout_blind (sector_step force file_data block_entry key positions st i).
Proof.
  unfold sector_step. destruct st as [left result].
  repeat first [apply blind_decompress | blind_step].
Qed.

Lemma blind_read_sectors `{Codecs} (force : bool) (file_data : bytes)
    (block_entry : MPQBlockTableEntry) (key : Z) :
  stdout_blind (read_sectors force file_data block_entry key).
Proof.
  unfold read_sectors. repeat first [apply blind_sector_step | blind_step].
Qed.

Lemma blind_read_single_unit `{Codecs} (force : bool) (file_data : bytes)
    (block_entry : MPQBlockTableEntry) :
  stdout_blind (read_single_unit force file_data block_entry).
Proof.
  unfold read_single_unit.
  repeat first [apply blind_decompress | blind_step].
Qed.

Lemma blind_read_block `{Codecs} (filename : string) (force : bool)
    (block_entry : MPQBlockTableEntry) :
  stdout_blind (read_block filename force block_entry).
Proof.
  unfold read_block.
  repeat first [apply blind_read_sectors | apply blind_read_single_unit
               | blind_step].
Qed.

Lemma bind_ext_run {A B} (m : M A) (f g : A -> M B) :
  (forall a s, f a s = g a s) -> forall s, (m ≫= f) s = (m ≫= g) s.
Proof.
  intros Hfg s. rewrite !bind_run. destruct (m s) as [[a|e] s'];
    [apply Hfg|reflexivity].
Qed.

(** The name enters [read_block] through the key only. *)
Lemma read_block_key_ext `{Codecs} (fn1 fn2 : string) (force : bool)
    (block_entry : MPQBlockTableEntry) :
  (forall a, get_file_key a fn1 block_entry true
             = get_file_key a fn2 block_entry true) ->
  forall s, read_block fn1 force block_entry s
            = read_block fn2 force block_entry s.
Proof.
  intros Hkey s. unfold read_block.
  apply bind_ext_run. intros a s1.
  apply bind_ext_run. intros [] s2.
  apply bind_ext_run. intros file_data s3.
  apply bind_ext_run. intros a' s4.
  rewrite Hkey. reflexivity.
Qed.

(** The position of the file before the call does not matter:
    [read_block] seeks first. *)
Lemma read_block_same `{Codecs} (filename : string) (force : bool)
    (block_entry : MPQBlockTableEntry) (s s' : State) :
  same_archive (self s) (self s') ->
  fst (read_block filename force block_entry s)
  = fst (read_block filename force block_entry s').
Proof.
  intros Hsame. pose proof Hsame as Hf.
  apply same_archive_fields in Hf. destruct Hf as (Hc & Hh & Ht & Hb & Hfs).
  unfold read_block.
  rewrite (bind_run get_self _ s), (bind_run get_self _ s').
  unfold get_self at 1 3. rewrite <- Hh.
  set (o := offset block_entry + offset_ (header (self s))).
  rewrite (bind_run (file_seek o) _ s), (bind_run (file_seek o) _ s').
  unfold file_seek.
  destruct (o <? 0); [reflexivity|].
  match goal with
  | |- fst (?k ?s1) = fst (?k ?s2) =>
      assert (Hblind : stdout_blind k)
  end.
  { repeat first [apply blind_read_sectors | apply blind_read_single_unit
                 | blind_step]. }
  apply Hblind. cbn [self]. unfold set_pos.
  rewrite Hc, Hh, Ht, Hb, Hfs. reflexivity.
Qed.

Lemma get_hash_table_entry_same (a a' : MPQArchive) (filename : string) :
  hash_table a = hash_table a' ->
  get_hash_table_entry a filename = get_hash_table_entry a' filename.
Proof. intros Ht. unfold get_hash_table_entry. rewrite Ht. reflexivity. Qed.

Lemma read_file_same `{Codecs} (filename : string) (force : bool)
    (s s' : State) :
  same_archive (self s) (self s') ->
  fst (read_file filename force s) = fst (read_file filename force s').
Proof.
  intros Hsame. pose proof Hsame as Hf.
  apply same_archive_fields in Hf. destruct Hf as (Hc & Hh & Ht & Hb & Hfs).
  rewrite !read_file_run.
  rewrite (get_hash_table_entry_same (self s) (self s') filename Ht), Hb.
  destruct (get_hash_table_entry (self s') filename) as [[he|]|e];
    [|reflexivity|reflexivity].
  destruct (py_index (block_table (self s')) (block_table_index he))
    as [be|e]; [|reflexivity].
  destruct (has_flag (flags be) MPQ_FILE_EXISTS); [|reflexivity].
  destruct (archived_size be =? 0); [reflexivity|].
  pose proof (read_block_same filename force be
                {| self := self s; stdout := stdout s ++ [Processing filename] |}
                {| self := self s';
                   stdout := stdout s' ++ [Processing filename] |} Hsame)
    as Hrb.
  destruct (read_block filename force be
              {| self := self s; stdout := stdout s ++ [Processing filename] |})
    as [[d|e] s2],
    (read_block filename force be
       {| self := self s'; stdout := stdout s' ++ [Processing filename] |})
    as [[d'|e'] s2']; cbn [fst] in *; congruence.
Qed.

(** *** Names that differ in case *)

Lemma upper_char_slash (c : ascii) :
  Ascii.eqb (upper_char c) "/" = Ascii.eqb c "/"
  /\ Ascii.eqb (upper_char c) "\" = Ascii.eqb c "\".
Proof. destruct c as [[] [] [] [] [] [] [] []]; split; reflexivity. Qed.

Lemma upper_app (s1 s2 : string) :
  upper (s1 ++ s2) = (upper s1 ++ upper s2)%string.
Proof.
  induction s1 as [|c s1 IH]; simpl; [reflexivity|]. rewrite IH.
  reflexivity.
Qed.

Lemma replace_backslash_upper (s : string) :
  replace_backslash (upper s) = upper (replace_backslash s).
Proof.
  induction s as [|c s IH]; simpl; [reflexivity|].
  rewrite (proj2 (upper_char_slash c)).
  destruct (Ascii.eqb c "\"); simpl; rewrite IH; reflexivity.
Qed.

Lemma basename_from_upper (acc s : string) :
  basename_from (upper acc) (upper s) = upper (basename_from acc s).
Proof.
  revert acc. induction s as [|c s IH]; intros acc; simpl; [reflexivity|].
  rewrite (proj1 (upper_char_slash c)).
  destruct (Ascii.eqb c "/").
  - apply (IH EmptyString).
  - rewrite <- IH, upper_app. reflexivity.
Qed.

Lemma basename_upper (s : string) :
  basename (replace_backslash (upper s))
  = upper (basename (replace_backslash s)).
Proof.
  unfold basename. rewrite replace_backslash_upper.
  apply (basename_from_upper EmptyString).
Qed.

Lemma _hash_same_upper (n1 n2 : string) (p : hash_type) :
  upper n1 = upper n2 -> _hash n1 p = _hash n2 p.
Proof. intros Hu. unfold _hash. rewrite Hu. reflexivity. Qed.

Lemma get_file_key_same_upper (a : MPQArchive) (n1 n2 : string)
    (block_entry : MPQBlockTableEntry) :
  upper n1 = upper n2 ->
  get_file_key a n1 block_entry true = get_file_key a n2 block_entry true.
Proof.
  intros Hu. unfold get_file_key.
  rewrite (_hash_same_upper (basename (replace_backslash n1))
             (basename (replace_backslash n2)) TABLE); [reflexivity|].
  rewrite <- !basename_upper, Hu. reflexivity.
Qed.

(** X11: [read_file] does not see the case of ASCII letters in a name: two
    names with the same upper-case form resolve to the same entry, get the
    same key, and give the same result (content, [None] or exception), from
    whatever position the file is at. *)
Theorem read_file_case_insensitive `{Codecs} (name1 name2 : string)
    (force : bool) (s : State) :
  upper name1 = upper name2 ->
  fst (read_file name1 force s) = fst (read_file name2 force s).
Proof.
  intros Hu. rewrite !read_file_run.
  assert (Hhe : get_hash_table_entry (self s) name1
                = get_hash_table_entry (self s) name2).
  { unfold get_hash_table_entry.
    rewrite (_hash_same_upper name1 name2 HASH_A Hu),
      (_hash_same_upper name1 name2 HASH_B Hu). reflexivity. }
  rewrite Hhe.
  destruct (get_hash_table_entry (self s) name2) as [[he|]|e];
    [|reflexivity|reflexivity].
  destruct (py_index (block_table (self s)) (block_table_index he))
    as [be|e]; [|reflexivity].
  destruct (has_flag (flags be) MPQ_FILE_EXISTS); [|reflexivity].
  destruct (archived_size be =? 0); [reflexivity|].
  rewrite (read_block_key_ext name1 name2 force be
             (fun a => get_file_key_same_upper a name1 name2 be Hu)).
  pose proof (read_block_same name2 force be
                {| self := self s; stdout := stdout s ++ [Processing name1] |}
                {| self := self s; stdout := stdout s ++ [Processing name2] |}
                (same_archive_refl _)) as Hrb.
  destruct (read_block name2 force be
              {| self := self s; stdout := stdout s ++ [Processing name1] |})
    as [[d|e] s2],
    (read_block name2 force be
       {| self := self s; stdout := stdout s ++ [Processing name2] |})
    as [[d'|e'] s2']; cbn [fst] in *; congruence.
Qed.

Local Open Scope string_scope.

Lemma read_file_case_insensitive_sample :
  fst (@read_file no_codecs "(ListFile)" false
         {| self := listfile_archive; stdout := [] |})
  = fst (@read_file no_codecs "(LISTFILE)" false
           {| self := listfile_archive; stdout := [] |}).
Proof.
  apply (@read_file_case_insensitive no_codecs "(ListFile)" "(LISTFILE)"
           false {| self := listfile_archive; stdout := [] |}).
  reflexivity.
Defined.

Local Close Scope string_scope.

(** ** Extracting *)

Lemma extract_run `{Codecs} (files_arg : option (list string)) (s : State) :
  extract files_arg s
  = match extract_names (self s) files_arg with
    | Some (f :: l) =>
        mfold (fun d f => data ← read_file f false; mret (<[f := data]> d))
          ∅ (f :: l) s
    | _ => (Raise RuntimeError, s)
    end.
Proof.
  unfold extract. rewrite bind_run. unfold get_self at 1.
  unfold extract_names.
  destruct (if truthy files_arg then files_arg else files (self s))
    as [[|f l]|]; reflexivity.
Qed.

Lemma tame_extract_step `{Codecs} (d : gmap string (option bytes))
    (f : string) :
  tame (data ← read_file f false; mret (<[f := data]> d)).
Proof. apply tame_bind; [apply tame_read_file|intros data; apply tame_ret]. Qed.

(** X12: [extract] raises [RuntimeError] exactly when it has no name to
    read: its argument is [None] or an empty list and the archive has no
    list of names (or an empty one); it then leaves the state as it is. *)
Theorem extract_no_names `{Codecs} (files_arg : option (list string))
    (s : State) :
  (fst (extract files_arg s) = Raise RuntimeError
   <-> truthy (extract_names (self s) files_arg) = false)
  /\ (truthy (extract_names (self s) files_arg) = false ->
      extract files_arg s = (Raise RuntimeError, s)).
Proof.
  rewrite extract_run.
  destruct (extract_names (self s) files_arg) as [[|f l]|]; simpl truthy.
  - split; [split|]; reflexivity.
  - split; [|discriminate]. split; [|discriminate]. intros Hr.
    exfalso. revert Hr.
    apply (tame_mfold _ (f :: l) tame_extract_step ∅ s).
  - split; [split|]; reflexivity.
Qed.

Lemma extract_step_run `{Codecs} (d : gmap string (option bytes))
    (x : string) (s0 : State) :
  (data ← read_file x false; mret (<[x := data]> d)) s0
  = match read_file x false s0 with
    | (Ok data, s1) => (Ok (<[x := data]> d), s1)
    | (Raise e, s1) => (Raise e, s1)
    end.
Proof.
  rewrite bind_run. destruct (read_file x false s0) as [[data|e] s1];
    reflexivity.
Qed.

Lemma extract_fold `{Codecs} (s : State) (l : list string) :
  forall (d0 : gmap string (option bytes)) (s0 : State)
         (d : gmap string (option bytes)),
    same_archive (self s0) (self s) ->
    fst (mfold (fun d f => data ← read_file f false; mret (<[f := data]> d))
           d0 l s0) = Ok d ->
    forall f,
      (f ∈ l -> exists v, d !! f = Some v /\ fst (read_file f false s) = Ok v)
      /\ (f ∉ l -> d !! f = d0 !! f).
Proof.
  induction l as [|x l IH]; intros d0 s0 d Hsame Hd f.
  - simpl in Hd. injection Hd as <-. split; [|reflexivity].
    intros Hin. inversion Hin.
  - cbn [mfold] in Hd. rewrite bind_run, extract_step_run in Hd.
    pose proof (read_file_same x false s0 s Hsame) as Hres.
    destruct (tame_read_file x false s0) as [Hs1 _].
    destruct (read_file x false s0) as [[data|e] s1]; cbn [fst snd] in *;
      [|discriminate Hd].
    destruct (IH (<[x:=data]> d0) s1 d
                (same_archive_trans _ _ _ Hs1 Hsame) Hd f) as [Hin Hout].
    split.
    + intros Hf. destruct (decide (f ∈ l)) as [Hl|Hl]; [exact (Hin Hl)|].
      apply elem_of_cons in Hf as [->|Hf]; [|contradiction].
      exists data. rewrite (Hout Hl), lookup_insert_eq. split; [reflexivity|].
      symmetry. exact Hres.
    + intros Hf. apply not_elem_of_cons in Hf as [Hne Hl].
      rewrite (Hout Hl), lookup_insert_ne by congruence. reflexivity.
Qed.

(** X13: when [extract] returns, its dictionary has exactly the names read
    as keys, and the value of each is what [read_file] returns for that
    name on the archive as it was before the call: the order of the names,
    repeated names and the reads in between change nothing. *)
Theorem extract_result `{Codecs} (files_arg : option (list string))
    (s : State) (d : gmap string (option bytes)) :
  fst (extract files_arg s) = Ok d ->
  exists names,
    extract_names (self s) files_arg = Some names
    /\ names <> []
    /\ forall f,
         (f ∈ names ->
          exists v, d !! f = Some v /\ fst (read_file f false s) = Ok v)
         /\ (f ∉ names -> d !! f = None).
Proof.
  rewrite extract_run.
  destruct (extract_names (self s) files_arg) as [[|f0 l]|];
    [discriminate| |discriminate].
  intros Hd. exists (f0 :: l). split; [reflexivity|]. split; [discriminate|].
  intros f.
  destruct (extract_fold s (f0 :: l) ∅ s d (same_archive_refl _) Hd f)
    as [Hin Hout].
  split; [exact Hin|]. intros Hf. rewrite (Hout Hf). apply lookup_empty.
Qed.

Local Open Scope string_scope.

Lemma extract_result_sample :
  exists names,
    extract_names listfile_archive (Some ["(listfile)"; "war3map.j"])
    = Some names
    /\ names <> []
    /\ forall f,
         (f ∈ names ->
          exists v,
            ({[ "(listfile)" := Some (repeat x61 10); "war3map.j" := None ]}
             : gmap string (option bytes)) !! f = Some v
            /\ fst (@read_file no_codecs f false
                      {| self := listfile_archive; stdout := [] |}) = Ok v)
         /\ (f ∉ names ->
             ({[ "(listfile)" := Some (repeat x61 10); "war3map.j" := None ]}
              : gmap string (option bytes)) !! f = None).
Proof.
  apply (@extract_result no_codecs (Some ["(listfile)"; "war3map.j"])
           {| self := listfile_archive; stdout := [] |}).
  vm_compute. reflexivity.
Defined.

Local Close Scope string_scope.

(** ** Reading the header *)

Lemma fbind_run {A B} (m : FM A) (k : A -> FM B) (f : File) :
  (m ≫= k) f
  = match m f with
    | (Ok a, f') => k a f'
    | (Raise e, f') => (Raise e, f')
    end.
Proof. reflexivity. Qed.

Lemma slice_length (data : bytes) (a b : Z) :
  0 <= a <= b -> b <= Z.of_nat (length data) ->
  Z.of_nat (length (slice data a b)) = b - a.
Proof.
  intros Hab Hb. unfold slice. rewrite length_take, length_drop. lia.
Qed.

(** A slice of what [read(n)] returned at position [p] is a slice of the
    content. *)
Lemma slice_blob (c : bytes) (p n a b : Z) :
  0 <= p -> 0 <= a -> b <= n ->
  slice (take (Z.to_nat n) (drop (Z.to_nat p) c)) a b = slice c (p + a) (p + b).
Proof.
  intros Hp Ha Hb. rewrite slice_take by lia. unfold slice.
  rewrite drop_drop. f_equal; [lia|]. f_equal. lia.
Qed.

Lemma read_run (n : Z) (f : File) :
  0 <= n -> 0 <= pos f ->
  read n f
  = (Ok (slice (content f) (pos f) (pos f + n)),
     {| content := content f;
        pos := pos f + Z.of_nat (length (slice (content f) (pos f)
                                           (pos f + n))) |}).
Proof.
  intros Hn Hp. unfold read.
  destruct (Z.ltb_spec n 0) as [Hneg|_]; [lia|].
  unfold slice. replace (Z.to_nat (pos f + n - pos f)) with (Z.to_nat n)
    by lia. reflexivity.
Qed.

Lemma read_mpq_header_here (f : File) :
  let c := content f in
  let p := pos f in
  0 <= p ->
  p + header_bytes c p <= Z.of_nat (length c) ->
  read_mpq_header None f
  = (Ok (full_header_at c p),
     {| content := c; pos := p + header_bytes c p |}).
Proof.
  intros c p Hp Hlen.
  assert (H32 : p + 32 <= Z.of_nat (length c)).
  { unfold header_bytes in Hlen.
    destruct (MPQFileHeader.format_version (header_at c p) =? 1); lia. }
  unfold read_mpq_header. rewrite fbind_run.
  change ((mret tt : FM unit) f) with (Ok tt, f). cbv beta iota.
  rewrite fbind_run, read_run by (fold p; lia). fold c p.
  assert (Hl32 : length (slice c p (p + 32)) = 32%nat).
  { apply Nat2Z.inj. rewrite slice_length by lia. lia. }
  rewrite Hl32. rewrite fbind_run. unfold flift, MPQFileHeader.unpack.
  rewrite Hl32, Nat.eqb_refl.
  assert (Hs : forall a b, 0 <= a -> b <= 32 ->
             slice (slice c p (p + 32)) a b = slice c (p + a) (p + b)).
  { intros a b Ha Hb. unfold slice at 2.
    replace (Z.to_nat (p + 32 - p)) with (Z.to_nat 32) by lia.
    apply slice_blob; lia. }
  rewrite !Hs by lia. rewrite Z.add_0_r.
  fold (header_at c p).
  unfold full_header_at, header_bytes in *.
  cbn [MPQFileHeader.format_version header_at] in *.
  destruct (le_combine (slice c (p + 12) (p + 14)) =? 1) eqn:Hv.
  - rewrite fbind_run, read_run by (cbn [pos]; lia).
    cbn [content pos].
    assert (Hl12 : length (slice c (p + Z.of_nat 32) (p + Z.of_nat 32 + 12))
                   = 12%nat).
    { apply Nat2Z.inj. rewrite slice_length by lia. lia. }
    rewrite Hl12, fbind_run. unfold unpack_MPQFileHeaderExt.
    rewrite Hl12, Nat.eqb_refl.
    assert (Hs' : forall a b, 0 <= a -> b <= 12 ->
               slice (slice c (p + Z.of_nat 32) (p + Z.of_nat 32 + 12)) a b
               = slice c (p + 32 + a) (p + 32 + b)).
    { intros a b Ha Hb. unfold slice at 2.
      replace (Z.to_nat (p + Z.of_nat 32 + 12 - (p + Z.of_nat 32)))
        with (Z.to_nat 12) by lia.
      rewrite slice_blob by lia. f_equal; lia. }
    rewrite !Hs' by lia. unfold header_ext_at.
    replace (p + 32 + 0) with (p + 32) by lia.
    replace (p + 32 + 8) with (p + 40) by lia.
    replace (p + 32 + 10) with (p + 42) by lia.
    replace (p + 32 + 12) with (p + 44) by lia.
    replace (p + Z.of_nat 32 + Z.of_nat 12) with (p + 44) by lia.
    reflexivity.
  - replace (p + Z.of_nat 32) with (p + 32) by lia. reflexivity.
Qed.

Lemma seek_run (o : Z) (f : File) :
  0 <= o -> seek o f = (Ok tt, {| content := content f; pos := o |}).
Proof.
  intros Ho. unfold seek. destruct (Z.ltb_spec o 0); [lia|reflexivity].
Qed.

Lemma read_mpq_header_no_ValueError (o : option Z) (f : File) :
  fst (read_mpq_header o f) <> Raise ValueError.
Proof.
  unfold read_mpq_header, mbind, FM_bind, mret, FM_ret, flift, seek, read,
    MPQFileHeader.unpack, unpack_MPQFileHeaderExt.
  destruct o as [o|]; [destruct (o =? 0); [|destruct (o <? 0)]|];
    cbn [fst snd pos content]; try discriminate;
    repeat match goal with
           | |- context [if ?b then _ else _] => destruct b
           end; cbn [fst snd]; discriminate.
Qed.

Lemma read_mpq_user_data_header_no_ValueError (f : File) :
  fst (read_mpq_user_data_header f) <> Raise ValueError.
Proof.
  unfold read_mpq_user_data_header, mbind, FM_bind, mret, FM_ret, fraise,
    read.
  cbn [fst snd pos content].
  repeat match goal with
         | |- context [if ?b then _ else _] => destruct b
         end; cbn [fst snd]; discriminate.
Qed.

(** [read_header] up to the test of the magic. *)
Lemma read_header_run (f : File) :
  let c := content f in
  let f0 := {| content := c; pos := 0 |} in
  0 <= pos f ->
  read_header f
  = if bool_decide (slice c (pos f) (pos f + 4) = [x4d; x50; x51; x1a]) then
      match read_mpq_header None f0 with
      | (Ok header, f') => (Ok (make_header header 0 None), f')
      | (Raise e, f') => (Raise e, f')
      end
    else if bool_decide (slice c (pos f) (pos f + 4) = [x4d; x50; x51; x1b])
    then
      match read_mpq_user_data_header f0 with
      | (Ok udh, f1) =>
          match read_mpq_header (Some (mpq_header_offset udh)) f1 with
          | (Ok header, f') =>
              (Ok (make_header header (mpq_header_offset udh) (Some udh)), f')
          | (Raise e, f') => (Raise e, f')
          end
      | (Raise e, f1) => (Raise e, f1)
      end
    else (Raise ValueError, f0).
Proof.
  intros c f0 Hp. unfold read_header.
  rewrite fbind_run, read_run by lia. rewrite fbind_run, seek_run by lia.
  cbn [content]. fold c f0.
  destruct (bool_decide (slice c (pos f) (pos f + 4) = [x4d; x50; x51; x1a])).
  - rewrite fbind_run. destruct (read_mpq_header None f0) as [[h|e] f'];
      reflexivity.
  - destruct (bool_decide (slice c (pos f) (pos f + 4)
                           = [x4d; x50; x51; x1b])); [|reflexivity].
    rewrite fbind_run.
    destruct (read_mpq_user_data_header f0) as [[udh|e] f1]; [|reflexivity].
    rewrite fbind_run.
    destruct (read_mpq_header (Some (mpq_header_offset udh)) f1)
      as [[h|e] f']; reflexivity.
Qed.

(** X14: [read_header] raises [ValueError] exactly when the four bytes at
    the position of the file are neither [MPQ\x1a] nor [MPQ\x1b]; the file
    is then left at position 0. *)
Theorem read_header_invalid_magic (f : File) :
  let magic := slice (content f) (pos f) (pos f + 4) in
  0 <= pos f ->
  (fst (read_header f) = Raise ValueError
   <-> magic <> [x4d; x50; x51; x1a] /\ magic <> [x4d; x50; x51; x1b])
  /\ (magic <> [x4d; x50; x51; x1a] /\ magic <> [x4d; x50; x51; x1b] ->
      read_header f = (Raise ValueError, {| content := content f; pos := 0 |})).
Proof.
  intros magic Hp. rewrite read_header_run by exact Hp. fold magic.
  destruct (bool_decide_reflect (magic = [x4d; x50; x51; x1a])) as [Ha|Ha].
  - split; [|intros [Hn _]; contradiction]. split; [|intros [Hn _]; contradiction].
    pose proof (read_mpq_header_no_ValueError None
                  {| content := content f; pos := 0 |}) as Hno.
    destruct (read_mpq_header None {| content := content f; pos := 0 |})
      as [[h|e] f']; cbn [fst] in *; [discriminate|]. intros He.
    exfalso. apply Hno. congruence.
  - destruct (bool_decide_reflect (magic = [x4d; x50; x51; x1b])) as [Hb|Hb].
    + split; [|intros [_ Hn]; contradiction].
      split; [|intros [_ Hn]; contradiction].
      pose proof (read_mpq_user_data_header_no_ValueError
                    {| content := content f; pos := 0 |}) as Hno.
      destruct (read_mpq_user_data_header {| content := content f; pos := 0 |})
        as [[udh|e] f1]; cbn [fst] in *;
        [|intros He; exfalso; apply Hno; congruence].
      pose proof (read_mpq_header_no_ValueError
                    (Some (mpq_header_offset udh)) f1) as Hno'.
      destruct (read_mpq_header (Some (mpq_header_offset udh)) f1)
        as [[h|e] f']; cbn [fst] in *; [discriminate|].
      intros He. exfalso. apply Hno'. congruence.
    + split; [|reflexivity]. split; [auto|reflexivity].
Qed.

Lemma read_header_invalid_magic_sample :
  (fst (read_header {| content := [x50; x4b; x03; x04; x00]; pos := 0 |})
   = Raise ValueError
   <-> slice [x50; x4b; x03; x04; x00] 0 (0 + 4) <> [x4d; x50; x51; x1a]
       /\ slice [x50; x4b; x03; x04; x00] 0 (0 + 4) <> [x4d; x50; x51; x1b])
  /\ (slice [x50; x4b; x03; x04; x00] 0 (0 + 4) <> [x4d; x50; x51; x1a]
      /\ slice [x50; x4b; x03; x04; x00] 0 (0 + 4) <> [x4d; x50; x51; x1b] ->
      read_header {| content := [x50; x4b; x03; x04; x00]; pos := 0 |}
      = (Raise ValueError, {| content := [x50; x4b; x03; x04; x00]; pos := 0 |})).
Proof.
  apply (read_header_invalid_magic
           {| content := [x50; x4b; x03; x04; x00]; pos := 0 |}).
  simpl. lia.
Defined.

(** X15: an archive that starts with [MPQ\x1a], read from position 0, has
    its header taken from the first 32 bytes (little-endian fields at their
    fixed places), followed by the 12 bytes of the extension when the
    version is 1; its base offset is 0 and it has no user data. *)
Theorem read_header_classic (f : File) :
  let c := content f in
  pos f = 0 ->
  slice c 0 4 = [x4d; x50; x51; x1a] ->
  header_bytes c 0 <= Z.of_nat (length c) ->
  read_header f
  = (Ok (make_header (full_header_at c 0) 0 None),
     {| content := c; pos := header_bytes c 0 |}).
Proof.
  intros c Hp Hmagic Hlen. rewrite read_header_run by lia.
  rewrite Hp. change (0 + 4) with 4. fold c. rewrite Hmagic.
  rewrite bool_decide_eq_true_2 by reflexivity.
  rewrite read_mpq_header_here by (cbn [pos content]; fold c; lia).
  cbn [pos content]. fold c. reflexivity.
Qed.

Lemma read_mpq_header_zero (f : File) :
  read_mpq_header (Some 0) f = read_mpq_header None f.
Proof. reflexivity. Qed.

Lemma read_mpq_header_seek (o : Z) (f : File) :
  0 < o ->
  read_mpq_header (Some o) f
  = read_mpq_header None {| content := content f; pos := o |}.
Proof.
  intros Ho. unfold read_mpq_header.
  destruct (Z.eqb_spec o 0) as [Hz|_]; [lia|].
  rewrite !fbind_run, seek_run by lia. reflexivity.
Qed.

Lemma read_mpq_user_data_header_run (f : File) :
  let c := content f in
  pos f = 0 ->
  16 <= Z.of_nat (length c) ->
  read_mpq_user_data_header f
  = (Ok (user_data_header_at c),
     {| content := c;
        pos := 16 + Z.of_nat (length (ud_content (user_data_header_at c))) |}).
Proof.
  intros c Hp H16. unfold read_mpq_user_data_header.
  rewrite fbind_run, read_run by lia. rewrite Hp. fold c.
  change (0 + 16) with 16.
  assert (Hl16 : length (slice c 0 16) = 16%nat).
  { apply Nat2Z.inj. rewrite slice_length by lia. lia. }
  rewrite Hl16, Nat.eqb_refl.
  assert (Hs : forall a b, 0 <= a -> b <= 16 ->
             slice (slice c 0 16) a b = slice c a b).
  { intros a b Ha Hb. unfold slice at 2.
    replace (Z.to_nat (16 - 0)) with (Z.to_nat 16) by lia.
    rewrite (slice_blob c 0 16 a b) by lia. reflexivity. }
  rewrite !Hs by lia.
  pose proof (le_combine_bound (slice c 12 16)) as Hsz.
  rewrite fbind_run, read_run by (cbn [pos]; lia). cbn [pos content].
  change (0 + Z.of_nat 16) with 16. reflexivity.
Qed.

(** X16: an archive that starts with [MPQ\x1b], read from position 0, has
    the 16 bytes of the user data header and its content read first; its
    header is then read at [mpq_header_offset], which becomes the base
    offset, except that for an offset of 0 no seek is made and the header is
    read where the user data ends. *)
Theorem read_header_user_data (f : File) :
  let c := content f in
  let udh := user_data_header_at c in
  let p := user_data_header_pos c in
  pos f = 0 ->
  slice c 0 4 = [x4d; x50; x51; x1b] ->
  16 <= Z.of_nat (length c) ->
  p + header_bytes c p <= Z.of_nat (length c) ->
  read_header f
  = (Ok (make_header (full_header_at c p) (mpq_header_offset udh) (Some udh)),
     {| content := c; pos := p + header_bytes c p |}).
Proof.
  intros c udh p Hp Hmagic H16 Hlen. rewrite read_header_run by lia.
  rewrite Hp. change (0 + 4) with 4. fold c. rewrite Hmagic.
  rewrite bool_decide_eq_false_2 by discriminate.
  rewrite bool_decide_eq_true_2 by reflexivity.
  rewrite read_mpq_user_data_header_run by (cbn [pos content]; fold c; lia).
  cbn [content]. fold c udh.
  pose proof (le_combine_bound (slice c 8 12)) as Ho.
  change (le_combine (slice c 8 12)) with (mpq_header_offset udh) in Ho.
  assert (Hpos : p = if mpq_header_offset udh =? 0
                     then 16 + Z.of_nat (length (ud_content udh))
                     else mpq_header_offset udh) by reflexivity.
  destruct (Z.eqb_spec (mpq_header_offset udh) 0) as [Hz|Hnz].
  - rewrite Hz at 1. rewrite read_mpq_header_zero.
    rewrite read_mpq_header_here;
      cbn [pos content]; fold c; rewrite <- ?Hpos; [reflexivity|lia|lia].
  - rewrite read_mpq_header_seek by lia. cbn [content].
    rewrite read_mpq_header_here;
      cbn [pos content]; fold c; rewrite <- ?Hpos; [reflexivity|lia|lia].
Qed.

Lemma read_header_classic_sample :
  read_header classic_file
  = (Ok (make_header (full_header_at (content classic_file) 0) 0 None),
     {| content := content classic_file;
        pos := header_bytes (content classic_file) 0 |}).
Proof.
  apply (read_header_classic classic_file).
  - reflexivity.
  - vm_compute. reflexivity.
  - vm_compute. discriminate.
Defined.

Lemma read_header_user_data_sample :
  read_header user_data_file
  = (Ok (make_header
           (full_header_at (content user_data_file)
              (user_data_header_pos (content user_data_file)))
           (mpq_header_offset (user_data_header_at (content user_data_file)))
           (Some (user_data_header_at (content user_data_file)))),
     {| content := content user_data_file;
        pos := user_data_header_pos (content user_data_file)
               + header_bytes (content user_data_file)
                   (user_data_header_pos (content user_data_file)) |}).
Proof.
  apply (read_header_user_data user_data_file).
  - reflexivity.
  - vm_compute. reflexivity.
  - vm_compute. discriminate.
  - vm_compute. discriminate.
Defined.

(** ** Reading a table *)

Lemma hash_table_key : _hash "(hash table)" TABLE = Ok 0xC3AF3770.
Proof. vm_compute. reflexivity. Qed.

Lemma block_table_key : _hash "(block table)" TABLE = Ok 0xEC83B3A3.
Proof. vm_compute. reflexivity. Qed.

Lemma rmap_cons {A B} (f : A -> result B) (x : A) (l : list A) :
  rmap f (x :: l) = (y ← f x; ys ← rmap f l; mret (y :: ys)).
Proof. reflexivity. Qed.

Lemma rmap_ok {A B} (f : A -> result B) (l : list A) :
  (forall x, x ∈ l -> exists y, f x = Ok y) ->
  exists ys, rmap f l = Ok ys /\ length ys = length l.
Proof.
  induction l as [|x l IH]; intros Hl.
  - exists []. split; reflexivity.
  - destruct (Hl x) as (y & Hy); [left|].
    destruct IH as (ys & Hys & Hlen).
    { intros z Hz. apply Hl. right. exact Hz. }
    exists (y :: ys). rewrite rmap_cons, Hy, rbind_Ok, Hys, rbind_Ok.
    split; [reflexivity|]. simpl. rewrite Hlen. reflexivity.
Qed.

Lemma rmap_raise {A B} (f : A -> result B) (l : list A) (e : exn) :
  (forall x, x ∈ l -> (exists y, f x = Ok y) \/ f x = Raise e) ->
  (exists x, x ∈ l /\ f x = Raise e) ->
  rmap f l = Raise e.
Proof.
  induction l as [|x l IH]; intros Hl (z & Hz & Hfz).
  - inversion Hz.
  - rewrite rmap_cons. destruct (Hl x) as [(y & Hy)|Hx]; [left| |].
    + rewrite Hy, rbind_Ok. rewrite IH; [reflexivity| |].
      * intros w Hw. apply Hl. right. exact Hw.
      * apply elem_of_cons in Hz as [->|Hz]; [congruence|].
        exists z. split; assumption.
    + rewrite Hx. reflexivity.
Qed.

Lemma rmap_length {A B} (f : A -> result B) (l : list A) (ys : list B) :
  rmap f l = Ok ys -> length ys = length l.
Proof.
  revert ys. induction l as [|x l IH]; intros ys Hys.
  - injection Hys as <-. reflexivity.
  - rewrite rmap_cons in Hys. destruct (f x) as [y|e]; [|discriminate].
    rewrite rbind_Ok in Hys. destruct (rmap f l) as [ys'|e]; [|discriminate].
    injection Hys as <-. simpl. rewrite (IH ys') by reflexivity. reflexivity.
Qed.

Lemma rmap_entries {E} (unpack : bytes -> result E) (data : bytes) (n : Z) :
  (forall b, length b = 16%nat -> exists e, unpack b = Ok e) ->
  (forall b, length b <> 16%nat -> unpack b = Raise StructError) ->
  0 <= n ->
  (n * 16 <= Z.of_nat (length data) ->
   exists es,
     rmap (fun p => unpack (slice data (p * 16) (p * 16 + 16))) (seqZ 0 n)
     = Ok es /\ Z.of_nat (length es) = n)
  /\ (Z.of_nat (length data) < n * 16 ->
      rmap (fun p => unpack (slice data (p * 16) (p * 16 + 16))) (seqZ 0 n)
      = Raise StructError).
Proof.
  intros Hok Hbad Hn. split.
  - intros Hlen.
    destruct (rmap_ok (fun p => unpack (slice data (p * 16) (p * 16 + 16)))
                (seqZ 0 n)) as (es & Hes & Hl).
    { intros p Hp. apply elem_of_seqZ in Hp. apply Hok.
      apply Nat2Z.inj. rewrite slice_length by lia. lia. }
    exists es. split; [exact Hes|]. rewrite Hl, length_seqZ. lia.
  - intros Hlen. apply rmap_raise.
    + intros p Hp.
      destruct (decide (length (slice data (p * 16) (p * 16 + 16)) = 16%nat))
        as [H16|H16]; [left; apply Hok, H16|right; apply Hbad, H16].
    + exists (n - 1). split; [apply elem_of_seqZ; lia|]. apply Hbad.
      unfold slice. rewrite length_take, length_drop. lia.
Qed.

Lemma unpack_hash_entry_cases :
  (forall b, length b = 16%nat -> exists e, unpack_MPQHashTableEntry b = Ok e)
  /\ (forall b, length b <> 16%nat ->
        unpack_MPQHashTableEntry b = Raise StructError).
Proof.
  split; intros b Hb; unfold unpack_MPQHashTableEntry.
  - rewrite Hb. eexists. reflexivity.
  - destruct (Nat.eqb_spec (length b) 16); [contradiction|reflexivity].
Qed.

Lemma unpack_block_entry_cases :
  (forall b, length b = 16%nat -> exists e, unpack_MPQBlockTableEntry b = Ok e)
  /\ (forall b, length b <> 16%nat ->
        unpack_MPQBlockTableEntry b = Raise StructError).
Proof.
  split; intros b Hb; unfold unpack_MPQBlockTableEntry.
  - rewrite Hb. eexists. reflexivity.
  - destruct (Nat.eqb_spec (length b) 16); [contradiction|reflexivity].
Qed.

Lemma read_table_hash_run (h : Header) (f : File) :
  let o := hash_table_offset h + offset_ h in
  let n := hash_table_entries h in
  let raw := slice (content f) o (o + n * 16) in
  let data := unwords (decrypt_words 0xC3AF3770 0xEEEEEEEE (words raw)) in
  let f' := {| content := content f; pos := o + Z.of_nat (length raw) |} in
  0 <= o -> 0 <= n ->
  read_table h "hash" f
  = match rmap (fun p => unpack_MPQHashTableEntry
                           (slice data (p * 16) (p * 16 + 16))) (seqZ 0 n) with
    | Ok entries => (Ok (HashTable entries), f')
    | Raise e => (Raise e, f')
    end.
Proof.
  intros o n raw data f' Ho Hn. unfold read_table.
  change (String.eqb "hash" "hash") with true. cbv iota.
  rewrite fbind_run. unfold flift at 1. rewrite hash_table_key. cbv beta iota.
  fold o n. rewrite fbind_run, seek_run by lia. cbv beta iota.
  rewrite fbind_run, read_run by (cbn [pos]; lia). cbn [pos content].
  fold raw f'. cbv beta iota.
  rewrite fbind_run. unfold flift at 1. rewrite _decrypt_words. fold data.
  cbv beta iota. rewrite fbind_run. unfold flift.
  destruct (rmap _ (seqZ 0 n)); reflexivity.
Qed.

Lemma read_table_block_run (h : Header) (f : File) :
  let o := block_table_offset h + offset_ h in
  let n := block_table_entries h in
  let raw := slice (content f) o (o + n * 16) in
  let data := unwords (decrypt_words 0xEC83B3A3 0xEEEEEEEE (words raw)) in
  let f' := {| content := content f; pos := o + Z.of_nat (length raw) |} in
  0 <= o -> 0 <= n ->
  read_table h "block" f
  = match rmap (fun p => unpack_MPQBlockTableEntry
                           (slice data (p * 16) (p * 16 + 16))) (seqZ 0 n) with
    | Ok entries => (Ok (BlockTable entries), f')
    | Raise e => (Raise e, f')
    end.
Proof.
  intros o n raw data f' Ho Hn. unfold read_table.
  change (String.eqb "block" "hash") with false.
  change (String.eqb "block" "block") with true. cbv iota.
  rewrite fbind_run. unfold flift at 1. rewrite block_table_key. cbv beta iota.
  fold o n. rewrite fbind_run, seek_run by lia. cbv beta iota.
  rewrite fbind_run, read_run by (cbn [pos]; lia). cbn [pos content].
  fold raw f'. cbv beta iota.
  rewrite fbind_run. unfold flift at 1. rewrite _decrypt_words. fold data.
  cbv beta iota. rewrite fbind_run. unfold flift.
  destruct (rmap _ (seqZ 0 n)); reflexivity.
Qed.

Lemma length_decrypted (raw : bytes) (s1 s2 : Z) :
  Z.of_nat (length (unwords (decrypt_words s1 s2 (words raw))))
  = 4 * (Z.of_nat (length raw) / 4).
Proof.
  rewrite length_unwords, length_decrypt_words, length_words.
  rewrite Nat2Z.inj_mul, Nat2Z.inj_div. reflexivity.
Qed.

Lemma slice_length_cases (c : bytes) (o m : Z) :
  0 <= o -> 0 <= m ->
  (m = 0 \/ o + m <= Z.of_nat (length c) ->
   Z.of_nat (length (slice c o (o + m))) = m)
  /\ (0 < m -> Z.of_nat (length c) < o + m ->
      Z.of_nat (length (slice c o (o + m))) < m).
Proof.
  intros Ho Hm. unfold slice. rewrite length_take, length_drop.
  replace (o + m - o) with m by lia. split; intros; lia.
Qed.

(** X17: [read_table] returns as many entries as the header announces, of
    the class asked for, when the file holds the 16 bytes of each at the
    table's offset (plus the base offset), and the empty list for a table
    of no entry wherever the offset points; when the file ends before the
    last entry, it raises [struct.error]; for a table type that is neither ['hash'] nor
    ['block'] it raises [ValueError] and leaves the file as it is. *)
Theorem read_table_count (h : Header) (f : File) (block : bool)
    (other : string) :
  let name := if block then "block"%string else "hash"%string in
  let o := (if block then block_table_offset h else hash_table_offset h)
           + offset_ h in
  let n := if block then block_table_entries h else hash_table_entries h in
  0 <= o -> 0 <= n ->
  (n = 0 \/ o + n * 16 <= Z.of_nat (length (content f)) ->
   exists t,
     read_table h name f
     = (Ok t, {| content := content f; pos := o + n * 16 |})
     /\ Z.of_nat (table_length t) = n /\ is_block_table t = block)
  /\ (0 < n -> Z.of_nat (length (content f)) < o + n * 16 ->
      fst (read_table h name f) = Raise StructError)
  /\ (other <> "hash"%string -> other <> "block"%string ->
      read_table h other f = (Raise ValueError, f)).
Proof.
  intros name o n Ho Hn.
  destruct (slice_length_cases (content f) o (n * 16)) as [Hfull Hshort];
    [lia|lia|].
  split; [|split].
  - intros Hlen. assert (Hfull' : Z.of_nat (length (slice (content f) o
                                                   (o + n * 16))) = n * 16)
      by (apply Hfull; lia). clear Hfull. rename Hfull' into Hfull.
    destruct block.
    + rewrite read_table_block_run by assumption. fold o n.
      destruct (proj1 (rmap_entries unpack_MPQBlockTableEntry
                  (unwords (decrypt_words 0xEC83B3A3 0xEEEEEEEE
                              (words (slice (content f) o (o + n * 16))))) n
                  (proj1 unpack_block_entry_cases)
                  (proj2 unpack_block_entry_cases) Hn)) as (es & Hes & Hl).
      { rewrite length_decrypted, Hfull.
        replace (n * 16) with (n * 4 * 4) by lia.
        rewrite Z.div_mul by lia. lia. }
      rewrite Hes, Hfull. exists (BlockTable es). auto.
    + rewrite read_table_hash_run by assumption. fold o n.
      destruct (proj1 (rmap_entries unpack_MPQHashTableEntry
                  (unwords (decrypt_words 0xC3AF3770 0xEEEEEEEE
                              (words (slice (content f) o (o + n * 16))))) n
                  (proj1 unpack_hash_entry_cases)
                  (proj2 unpack_hash_entry_cases) Hn)) as (es & Hes & Hl).
      { rewrite length_decrypted, Hfull.
        replace (n * 16) with (n * 4 * 4) by lia.
        rewrite Z.div_mul by lia. lia. }
      rewrite Hes, Hfull. exists (HashTable es). auto.
  - intros Hpos Hlen. specialize (Hshort ltac:(lia) Hlen).
    assert (Hdec : forall s1 s2,
               Z.of_nat (length (unwords (decrypt_words s1 s2
                  (words (slice (content f) o (o + n * 16)))))) < n * 16).
    { intros s1 s2. rewrite length_decrypted.
      pose proof (Z.mul_div_le (Z.of_nat (length (slice (content f) o
                                                    (o + n * 16)))) 4).
      lia. }
    destruct block.
    + rewrite read_table_block_run by assumption. fold o n.
      rewrite (proj2 (rmap_entries unpack_MPQBlockTableEntry _ n
                 (proj1 unpack_block_entry_cases)
                 (proj2 unpack_block_entry_cases) Hn) (Hdec _ _)).
      reflexivity.
    + rewrite read_table_hash_run by assumption. fold o n.
      rewrite (proj2 (rmap_entries unpack_MPQHashTableEntry _ n
                 (proj1 unpack_hash_entry_cases)
                 (proj2 unpack_hash_entry_cases) Hn) (Hdec _ _)).
      reflexivity.
  - intros Hh Hb. unfold read_table.
    apply String.eqb_neq in Hh, Hb. rewrite Hh, Hb. reflexivity.
Qed.


Lemma read_table_count_sample :
  (1 = 0 \/ 60 + 0 + 1 * 16 <= Z.of_nat (length (content classic_file)) ->
   exists t,
     read_table classic_header "block" classic_file
     = (Ok t, {| content := content classic_file; pos := 60 + 0 + 1 * 16 |})
     /\ Z.of_nat (table_length t) = 1 /\ is_block_table t = true)
  /\ (0 < 1 -> Z.of_nat (length (content classic_file)) < 60 + 0 + 1 * 16 ->
      fst (read_table classic_header "block" classic_file)
      = Raise StructError)
  /\ ("files"%string <> "hash"%string -> "files"%string <> "block"%string ->
      read_table classic_header "files" classic_file
      = (Raise ValueError, classic_file)).
Proof.
  apply (read_table_count classic_header classic_file true "files").
  - simpl. lia.
  - simpl. lia.
Defined.

(** *** A block table written and read back *)

Lemma slice_flat_map_fixed {A} (g : A -> bytes) (k : nat) (l : list A)
    (i : nat) (x : A) :
  (forall y, length (g y) = k) ->
  l !! i = Some x ->
  slice (flat_map g l) (Z.of_nat i * Z.of_nat k)
    (Z.of_nat i * Z.of_nat k + Z.of_nat k) = g x.
Proof.
  intros Hk. revert i. induction l as [|y l IH]; intros i Hi; [discriminate|].
  cbn [flat_map]. unfold slice.
  replace (Z.to_nat (Z.of_nat i * Z.of_nat k + Z.of_nat k
                     - Z.of_nat i * Z.of_nat k)) with k by lia.
  destruct i as [|i]; simpl in Hi.
  - injection Hi as ->.
    replace (Z.to_nat (Z.of_nat 0 * Z.of_nat k)) with 0%nat by lia.
    rewrite drop_0. rewrite <- (Hk x) at 1. apply take_app_length.
  - replace (Z.to_nat (Z.of_nat (S i) * Z.of_nat k))
      with (length (g y) + Z.to_nat (Z.of_nat i * Z.of_nat k))%nat
      by (rewrite Hk; lia).
    rewrite drop_app_add. rewrite <- (IH i Hi). unfold slice.
    f_equal. lia.
Qed.

Lemma length_flat_map_fixed {A} (g : A -> bytes) (k : nat) (l : list A) :
  (forall y, length (g y) = k) -> length (flat_map g l) = (length l * k)%nat.
Proof.
  intros Hk. induction l as [|y l IH]; [reflexivity|].
  cbn [flat_map]. rewrite length_app, Hk, IH. simpl. lia.
Qed.

Lemma length_pack_block_entry (e : MPQBlockTableEntry) :
  length (pack_block_entry e) = 16%nat.
Proof. unfold pack_block_entry. rewrite length_unwords. reflexivity. Qed.

Lemma le_combine_slice_unwords (ws : list Z) (i : nat) (w : Z) :
  ws !! i = Some w -> word32 w ->
  le_combine (slice (unwords ws) (Z.of_nat i * 4) (Z.of_nat i * 4 + 4)) = w.
Proof.
  intros Hi Hw. rewrite (slice_unwords ws i w Hi), le_combine_split.
  apply Z.mod_small. exact Hw.
Qed.

Lemma unpack_pack_block_entry (e : MPQBlockTableEntry) :
  block_entry32 e -> unpack_MPQBlockTableEntry (pack_block_entry e) = Ok e.
Proof.
  intros (Ho & Ha & Hs & Hf). unfold unpack_MPQBlockTableEntry.
  rewrite length_pack_block_entry. cbn [Nat.eqb]. unfold pack_block_entry.
  pose proof (le_combine_slice_unwords
                [offset e; archived_size e; size e; flags e] 0 _ eq_refl Ho)
    as H0.
  pose proof (le_combine_slice_unwords
                [offset e; archived_size e; size e; flags e] 1 _ eq_refl Ha)
    as H1.
  pose proof (le_combine_slice_unwords
                [offset e; archived_size e; size e; flags e] 2 _ eq_refl Hs)
    as H2.
  pose proof (le_combine_slice_unwords
                [offset e; archived_size e; size e; flags e] 3 _ eq_refl Hf)
    as H3.
  change (Z.of_nat 0 * 4) with 0 in H0. change (0 + 4) with 4 in H0.
  change (Z.of_nat 1 * 4) with 4 in H1. change (4 + 4) with 8 in H1.
  change (Z.of_nat 2 * 4) with 8 in H2. change (8 + 4) with 12 in H2.
  change (Z.of_nat 3 * 4) with 12 in H3. change (12 + 4) with 16 in H3.
  rewrite H0, H1, H2, H3. destruct e; reflexivity.
Qed.

Lemma rmap_Forall2 {A B} (f : A -> result B) (l : list A) (ys : list B) :
  Forall2 (fun x y => f x = Ok y) l ys -> rmap f l = Ok ys.
Proof.
  induction 1 as [|x y l ys Hxy _ IH]; [reflexivity|].
  rewrite rmap_cons, Hxy, rbind_Ok, IH. reflexivity.
Qed.

Lemma slice_middle (prefix mid rest : bytes) :
  slice (prefix ++ mid ++ rest) (Z.of_nat (length prefix))
    (Z.of_nat (length prefix) + Z.of_nat (length mid)) = mid.
Proof.
  unfold slice. rewrite Nat2Z.id, drop_app_length.
  replace (Z.to_nat (Z.of_nat (length prefix) + Z.of_nat (length mid)
                     - Z.of_nat (length prefix))) with (length mid) by lia.
  apply take_app_length.
Qed.

Lemma decrypted_encrypt (data : bytes) (key : Z) :
  (length data mod 4 = 0)%nat ->
  unwords (decrypt_words key 0xEEEEEEEE (words (encrypt data key))) = data.
Proof.
  intros Hmod. unfold encrypt.
  rewrite words_unwords by apply encrypt_words_word32.
  rewrite decrypt_encrypt_words by apply words_word32.
  apply unwords_words, Hmod.
Qed.

Lemma length_encrypt (data : bytes) (key : Z) :
  (length data mod 4 = 0)%nat -> length (encrypt data key) = length data.
Proof.
  intros Hmod. unfold encrypt.
  rewrite length_unwords, length_encrypt_words, length_words.
  pose proof (Nat.div_mod_eq (length data) 4). lia.
Qed.

(** X18: a block table survives being written and read: when the file
    holds, at the table's offset, the entries (four little-endian 32-bit
    words each: offset, archived size, size, flags) enciphered with the key
    [hash("(block table)", TABLE)], [read_table('block')] returns these
    entries, in order. *)
Theorem read_table_block_round_trip (h : Header)
    (entries : list MPQBlockTableEntry) (prefix rest : bytes) (p : Z) :
  let stored := encrypt (flat_map pack_block_entry entries) 0xEC83B3A3 in
  let c := prefix ++ stored ++ rest in
  Forall block_entry32 entries ->
  block_table_entries h = Z.of_nat (length entries) ->
  block_table_offset h + offset_ h = Z.of_nat (length prefix) ->
  read_table h "block" {| content := c; pos := p |}
  = (Ok (BlockTable entries),
     {| content := c;
        pos := Z.of_nat (length prefix) + 16 * Z.of_nat (length entries) |}).
Proof.
  intros stored c H32 Hn Ho.
  assert (Hlen : length (flat_map pack_block_entry entries)
                 = (length entries * 16)%nat)
    by (apply length_flat_map_fixed, length_pack_block_entry).
  assert (Hmod : (length (flat_map pack_block_entry entries) mod 4 = 0)%nat).
  { rewrite Hlen. replace (length entries * 16)%nat
      with ((length entries * 4) * 4)%nat by lia. apply Nat.Div0.mod_mul. }
  assert (Hstored : length stored = (length entries * 16)%nat)
    by (unfold stored; rewrite length_encrypt by exact Hmod; exact Hlen).
  rewrite read_table_block_run by (cbn [content pos]; lia).
  cbn [content]. rewrite Ho, Hn.
  replace (Z.of_nat (length prefix) + Z.of_nat (length entries) * 16)
    with (Z.of_nat (length prefix) + Z.of_nat (length stored))
    by (rewrite Hstored; lia).
  unfold c. rewrite slice_middle. unfold stored at 1 2.
  rewrite decrypted_encrypt by exact Hmod.
  rewrite (rmap_Forall2 _ _ entries).
  - rewrite Hstored. do 3 f_equal. lia.
  - apply Forall2_same_length_lookup. split.
    + rewrite length_seqZ. lia.
    + intros i x e Hx He. apply lookup_seqZ in Hx as [-> Hi].
      rewrite Z.add_0_l.
      pose proof (slice_flat_map_fixed pack_block_entry 16 entries i e
                    length_pack_block_entry He) as Hs.
      change (Z.of_nat 16) with 16 in Hs. rewrite Hs.
      apply unpack_pack_block_entry.
      rewrite Forall_lookup in H32. exact (H32 i e He).
Qed.

Lemma read_table_block_round_trip_sample :
  read_table classic_header "block"
    {| content := take 60 sample_archive_bytes
                  ++ encrypt (flat_map pack_block_entry
                                [ {| offset := 32; archived_size := 10;
                                     size := 10;
                                     flags := Z.lor MPQ_FILE_EXISTS
                                                MPQ_FILE_SINGLE_UNIT |} ])
                       0xEC83B3A3 ++ [];
       pos := 0 |}
  = (Ok (BlockTable [ {| offset := 32; archived_size := 10; size := 10;
                         flags := Z.lor MPQ_FILE_EXISTS
                                    MPQ_FILE_SINGLE_UNIT |} ]),
     {| content := take 60 sample_archive_bytes
                   ++ encrypt (flat_map pack_block_entry
                                 [ {| offset := 32; archived_size := 10;
                                      size := 10;
                                      flags := Z.lor MPQ_FILE_EXISTS
                                                 MPQ_FILE_SINGLE_UNIT |} ])
                        0xEC83B3A3 ++ [];
        pos := Z.of_nat (length (take 60 sample_archive_bytes))
               + 16 * Z.of_nat 1 |}).
Proof.
  apply (read_table_block_round_trip classic_header
           [ {| offset := 32; archived_size := 10; size := 10;
                flags := Z.lor MPQ_FILE_EXISTS MPQ_FILE_SINGLE_UNIT |} ]
           (take 60 sample_archive_bytes) [] 0).
  - constructor; [|constructor]. unfold block_entry32, word32.
    repeat split; vm_compute; first [reflexivity | discriminate].
  - reflexivity.
  - vm_compute. reflexivity.
Defined.

(** ** Opening an archive *)

Lemma read_mpq_header_post (o : option Z) (f f' : File)
    (hx : MPQFileHeader.t * option MPQFileHeaderExt) :
  read_mpq_header o f = (Ok hx, f') ->
  content f' = content f
  /\ 0 <= MPQFileHeader.hash_table_offset (fst hx)
  /\ 0 <= MPQFileHeader.block_table_offset (fst hx)
  /\ 0 <= MPQFileHeader.hash_table_entries (fst hx)
  /\ 0 <= MPQFileHeader.block_table_entries (fst hx).
Proof.
  unfold read_mpq_header, mbind, FM_bind, mret, FM_ret, flift, seek, read,
    MPQFileHeader.unpack, unpack_MPQFileHeaderExt.
  intros Hr.
  repeat match type of Hr with
         | context [match ?o with Some _ => _ | None => _ end] => destruct o
         | context [if ?b then _ else _] => destruct b
         end;
    cbn [fst snd content pos] in Hr; try discriminate Hr;
    injection Hr as <- <-; cbn [fst snd content pos
      MPQFileHeader.hash_table_offset MPQFileHeader.block_table_offset
      MPQFileHeader.hash_table_entries MPQFileHeader.block_table_entries];
    (split; [reflexivity|]); repeat split;
    match goal with
    | |- 0 <= le_combine ?l => pose proof (le_combine_bound l); lia
    end.
Qed.

Lemma read_mpq_user_data_header_post (f f' : File) (udh : MPQUserDataHeader) :
  read_mpq_user_data_header f = (Ok udh, f') ->
  content f' = content f /\ 0 <= mpq_header_offset udh.
Proof.
  unfold read_mpq_user_data_header, mbind, FM_bind, mret, FM_ret, fraise,
    read.
  intros Hr.
  repeat match type of Hr with
         | context [if ?b then _ else _] => destruct b
         end;
    cbn [fst snd content pos] in Hr; try discriminate Hr;
    injection Hr as <- <-; cbn [content mpq_header_offset];
    (split; [reflexivity|]);
    match goal with
    | |- 0 <= le_combine ?l => pose proof (le_combine_bound l); lia
    end.
Qed.

(** A header that was read has table offsets and entry counts that are not
    negative, and reading it leaves the content of the file alone. *)
Lemma read_header_post (f f' : File) (h : Header) :
  0 <= pos f ->
  read_header f = (Ok h, f') ->
  content f' = content f
  /\ 0 <= hash_table_offset h + offset_ h
  /\ 0 <= block_table_offset h + offset_ h
  /\ 0 <= hash_table_entries h
  /\ 0 <= block_table_entries h.
Proof.
  intros Hp. rewrite read_header_run by exact Hp.
  destruct (bool_decide _).
  - destruct (read_mpq_header None _) as [[hx|e] f1] eqn:Hh; [|discriminate].
    intros Hr. injection Hr as <- <-.
    apply read_mpq_header_post in Hh. cbn [content] in Hh.
    unfold make_header.
    cbn [hash_table_offset block_table_offset hash_table_entries
           block_table_entries offset_]. intuition lia.
  - destruct (bool_decide _); [|discriminate].
    destruct (read_mpq_user_data_header _) as [[udh|e] f1] eqn:Hu;
      [|discriminate].
    destruct (read_mpq_header _ f1) as [[hx|e] f2] eqn:Hh; [|discriminate].
    intros Hr. injection Hr as <- <-.
    apply read_mpq_header_post in Hh.
    apply read_mpq_user_data_header_post in Hu. cbn [content] in Hu.
    unfold make_header.
    cbn [hash_table_offset block_table_offset hash_table_entries
           block_table_entries offset_].
    destruct Hh as (Hc & ?), Hu as (Hc' & ?).
    split; [congruence|]. intuition lia.
Qed.

Lemma read_table_hash_post (h : Header) (f f' : File) (t : table) :
  0 <= hash_table_offset h + offset_ h -> 0 <= hash_table_entries h ->
  read_table h "hash" f = (Ok t, f') ->
  content f' = content f
  /\ exists entries,
       t = HashTable entries
       /\ Z.of_nat (length entries) = hash_table_entries h.
Proof.
  intros Ho Hn. rewrite read_table_hash_run by assumption.
  destruct (rmap _ _) as [es|e] eqn:Hes; [|discriminate].
  intros Hr. injection Hr as <- <-. split; [reflexivity|].
  exists es. split; [reflexivity|].
  apply rmap_length in Hes. rewrite Hes, length_seqZ. lia.
Qed.

Lemma read_table_block_post (h : Header) (f f' : File) (t : table) :
  0 <= block_table_offset h + offset_ h -> 0 <= block_table_entries h ->
  read_table h "block" f = (Ok t, f') ->
  content f' = content f
  /\ exists entries,
       t = BlockTable entries
       /\ Z.of_nat (length entries) = block_table_entries h.
Proof.
  intros Ho Hn. rewrite read_table_block_run by assumption.
  destruct (rmap _ _) as [es|e] eqn:Hes; [|discriminate].
  intros Hr. injection Hr as <- <-. split; [reflexivity|].
  exists es. split; [reflexivity|].
  apply rmap_length in Hes. rewrite Hes, length_seqZ. lia.
Qed.

(** [__init__] without the list of names: the header and the two tables. *)
Lemma init_no_listfile `{Codecs} (f : File) (a : MPQArchive)
    (out : list event) :
  0 <= pos f ->
  __init__ f false = (Opened a, out) ->
  out = [] /\ files a = None
  /\ content (file a) = content f
  /\ fst (read_header f) = Ok (header a)
  /\ Z.of_nat (length (hash_table a)) = hash_table_entries (header a)
  /\ Z.of_nat (length (block_table a)) = block_table_entries (header a).
Proof.
  intros Hp. unfold __init__.
  destruct (read_header f) as [[h|e] f1] eqn:Hh; [|discriminate].
  destruct (read_header_post f f1 h Hp Hh) as (Hc1 & Ho1 & Ho2 & Hn1 & Hn2).
  destruct (read_table h "hash" f1) as [[t1|e] f2] eqn:Ht1; [|discriminate].
  destruct (read_table_hash_post h f1 f2 t1 Ho1 Hn1 Ht1)
    as (Hc2 & es1 & -> & Hl1).
  destruct (read_table h "block" f2) as [[t2|e] f3] eqn:Ht2; [|discriminate].
  destruct (read_table_block_post h f2 f3 t2 Ho2 Hn2 Ht2)
    as (Hc3 & es2 & -> & Hl2).
  intros Hr. injection Hr as <- <-. cbn [files file header hash_table
                                          block_table fst].
  repeat split; try assumption; congruence.
Qed.

(** [__init__] with the list of names is [__init__] without it, followed
    by [read_file('(listfile)')]. *)
Lemma init_listfile `{Codecs} (f : File) :
  __init__ f true
  = match __init__ f false with
    | (Opened a, _) =>
        match read_file "(listfile)" false {| self := a; stdout := [] |} with
        | (Ok (Some data), s) =>
            (Opened (set_files (self s)
                       (Some (string_of_list_byte <$> splitlines data))),
             stdout s)
        | (Ok None, s) => (OpenAttributeError, stdout s)
        | (Raise e, s) => (OpenRaise e, stdout s)
        end
    | r => r
    end.
Proof.
  unfold __init__.
  destruct (read_header f) as [[h|e] f1]; [|reflexivity].
  destruct (read_table h "hash" f1) as [[[es1|es1]|e] f2]; try reflexivity.
  destruct (read_table h "block" f2) as [[[es2|es2]|e] f3]; reflexivity.
Qed.

(** X19: an archive that [__init__] has opened has the content of its file
    unchanged, the header that [read_header] returns for the file, and in
    each table as many entries as that header announces; this holds with
    and without the list of names. *)
Theorem init_tables `{Codecs} (f : File) (listfile : bool) (a : MPQArchive)
    (out : list event) :
  0 <= pos f ->
  __init__ f listfile = (Opened a, out) ->
  content (file a) = content f
  /\ fst (read_header f) = Ok (header a)
  /\ Z.of_nat (length (hash_table a)) = hash_table_entries (header a)
  /\ Z.of_nat (length (block_table a)) = block_table_entries (header a).
Proof.
  intros Hp. destruct listfile.
  - rewrite init_listfile.
    destruct (__init__ f false) as [[a0|e0|] out0] eqn:H0;
      [|intros Hr; discriminate Hr|intros Hr; discriminate Hr].
    destruct (init_no_listfile f a0 out0 Hp H0)
      as (_ & _ & Hc & Hh & Hl1 & Hl2).
    pose proof (tame_read_file "(listfile)" false
                  {| self := a0; stdout := [] |}) as [Hs _].
    apply same_archive_fields in Hs. cbn [self] in Hs.
    destruct Hs as (Hc' & Hh' & Ht' & Hb' & _).
    destruct (read_file "(listfile)" false {| self := a0; stdout := [] |})
      as [[[data|]|e] s];
      [|intros Hr; discriminate Hr|intros Hr; discriminate Hr].
    intros Hr. injection Hr as <- <-. cbn [snd] in *.
    unfold set_files. cbn [file header hash_table block_table].
    rewrite Hc', Hh', Ht', Hb'. auto.
  - intros H0.
    destruct (init_no_listfile f a out Hp H0)
      as (_ & _ & Hc & Hh & Hl1 & Hl2). auto.
Qed.

Lemma init_tables_sample :
  content (file opened_classic) = content classic_file
  /\ fst (read_header classic_file) = Ok (header opened_classic)
  /\ Z.of_nat (length (hash_table opened_classic))
     = hash_table_entries (header opened_classic)
  /\ Z.of_nat (length (block_table opened_classic))
     = block_table_entries (header opened_classic).
Proof.
  apply (@init_tables no_codecs classic_file true opened_classic
           [Processing "(listfile)"]).
  - simpl. lia.
  - vm_compute. reflexivity.
Defined.

(** X20: an archive opened without its list of names has none ([files] is
    [None]) and nothing was printed; [extract] without names then raises
    [RuntimeError] and changes nothing. *)
Theorem init_without_listfile `{Codecs} (f : File) (a : MPQArchive)
    (out printed : list event) :
  0 <= pos f ->
  __init__ f false = (Opened a, out) ->
  files a = None /\ out = []
  /\ extract None {| self := a; stdout := printed |}
     = (Raise RuntimeError, {| self := a; stdout := printed |}).
Proof.
  intros Hp H0.
  destruct (init_no_listfile f a out Hp H0) as (Ho & Hf & _).
  split; [exact Hf|]. split; [exact Ho|].
  rewrite extract_run. unfold extract_names. cbn [truthy self].
  rewrite Hf. reflexivity.
Qed.

Lemma init_without_listfile_sample :
  files opened_classic_bare = None /\ @nil event = []
  /\ @extract no_codecs None {| self := opened_classic_bare; stdout := [] |}
     = (Raise RuntimeError, {| self := opened_classic_bare; stdout := [] |}).
Proof.
  apply (@init_without_listfile no_codecs classic_file opened_classic_bare
           [] []).
  - simpl. lia.
  - vm_compute. reflexivity.
Defined.

Lemma init_false_shape `{Codecs} (f : File) :
  snd (__init__ f false) = []
  /\ fst (__init__ f false) <> OpenAttributeError.
Proof.
  unfold __init__.
  destruct (read_header f) as [[h|e] f1]; [|split; [reflexivity|discriminate]].
  destruct (read_table h "hash" f1) as [[[es1|es1]|e] f2];
    [|split; [reflexivity|discriminate]|split; [reflexivity|discriminate]].
  destruct (read_table h "block" f2) as [[[es2|es2]|e] f3];
    (split; [reflexivity|discriminate]).
Qed.

(** X21: opening with the list of names fails with the [AttributeError] of
    [None.splitlines()] exactly when the archive opens without the list and
    [read_file('(listfile)')] returns [None] on it: an archive without a
    [(listfile)] member cannot be opened with the default arguments. *)
Theorem init_missing_listfile `{Codecs} (f : File) :
  fst (__init__ f true) = OpenAttributeError
  <-> exists a,
        __init__ f false = (Opened a, [])
        /\ fst (read_file "(listfile)" false {| self := a; stdout := [] |})
           = Ok None.
Proof.
  rewrite init_listfile. destruct (init_false_shape f) as [Hout Hattr].
  destruct (__init__ f false) as [[a|e0|] out]; cbn [fst snd] in *.
  - subst out. split.
    + intros Hr. exists a. split; [reflexivity|].
      destruct (read_file "(listfile)" false {| self := a; stdout := [] |})
        as [[[data|]|e] s]; cbn [fst] in *;
        [discriminate Hr|reflexivity|discriminate Hr].
    + intros (a' & H0 & Hr). injection H0 as <-.
      destruct (read_file "(listfile)" false {| self := a; stdout := [] |})
        as [[[data|]|e] s]; cbn [fst] in *;
        [discriminate Hr|reflexivity|discriminate Hr].
  - split; [intros Hr; discriminate Hr|].
    intros (a' & H0 & _). discriminate H0.
  - contradiction.
Qed.

(** ** Entries that cannot be read *)

(** X22: a file in sectors whose blob is shorter than its offset table
    ([4 * (sectors + 1)] bytes) is not read: [struct.error] is raised
    before any sector is looked at, and nothing is printed. *)
Theorem read_sectors_truncated `{Codecs} (force : bool) (file_data : bytes)
    (block_entry : MPQBlockTableEntry) (key : Z) (s : State) :
  Z.of_nat (length file_data) < 4 * n_offsets (header (self s)) block_entry ->
  read_sectors force file_data block_entry key s = (Raise StructError, s).
Proof.
  intros Hlen. unfold read_sectors. rewrite bind_run. unfold get_self at 1.
  rewrite bind_run. unfold lift.
  rewrite (read_positions_short _ _ _ _ Hlen). reflexivity.
Qed.

Lemma read_sectors_truncated_sample :
  @read_sectors no_codecs false [x0c; x00; x00; x00; x0c; x10] sectored_block 0
    {| self := sample_archive 0; stdout := [] |}
  = (Raise StructError, {| self := sample_archive 0; stdout := [] |}).
Proof.
  apply (@read_sectors_truncated no_codecs false
           [x0c; x00; x00; x00; x0c; x10] sectored_block 0
           {| self := sample_archive 0; stdout := [] |}).
  vm_compute. reflexivity.
Defined.

(** X23: a name whose hash entry points beyond the block table (as the
    index [0xFFFFFFFF] of an empty slot does) makes [read_file] raise
    [IndexError]; the file is not touched. *)
Theorem read_file_block_index_out_of_range `{Codecs} (filename : string)
    (force : bool) (s : State) (hash_entry : MPQHashTableEntry) :
  get_hash_table_entry (self s) filename = Ok (Some hash_entry) ->
  Z.of_nat (length (block_table (self s))) <= block_table_index hash_entry ->
  fst (read_file filename force s) = Raise IndexError
  /\ self (snd (read_file filename force s)) = self s.
Proof.
  intros Hhe Hidx. rewrite read_file_run, Hhe.
  assert (Hpy : py_index (block_table (self s)) (block_table_index hash_entry)
                = Raise IndexError).
  { unfold py_index.
    destruct (Z.ltb_spec (block_table_index hash_entry) 0) as [Hneg|_]; [lia|].
    destruct (Z.ltb_spec (block_table_index hash_entry) 0) as [Hneg|_]; [lia|].
    rewrite (proj2 (lookup_ge_None _ _)) by lia. reflexivity. }
  rewrite Hpy. split; reflexivity.
Qed.

Local Open Scope string_scope.

Lemma read_file_block_index_out_of_range_sample :
  fst (@read_file no_codecs "(user data)" false
         {| self := listfile_archive; stdout := [] |}) = Raise IndexError
  /\ self (snd (@read_file no_codecs "(user data)" false
                  {| self := listfile_archive; stdout := [] |}))
     = listfile_archive.
Proof.
  apply (@read_file_block_index_out_of_range no_codecs "(user data)" false
           {| self := listfile_archive; stdout := [] |}
           {| hash_a := 1833577307; hash_b := 2402623503; locale := 0;
              platform := 0; block_table_index := 0xFFFFFFFF |}).
  - vm_compute. reflexivity.
  - vm_compute. discriminate.
Defined.

Local Close Scope string_scope.
